(** * VertexArray (modules/core/src/webgl/vertex-array.js)

    A shallow embedding of the [VertexArray] class of luma.gl, and the
    properties of its attribute table, of the draw parameters it infers
    and of its bind/unbind bracket.

    The class is glue over collaborators that live in other files
    ([Buffer], [Accessor], [VertexArrayObject], the program configuration,
    the WebGL context).  Their objects and methods are the fields of the
    type class [Collaborators]; calls that only reach the driver or the
    delegate are recorded as events of a trace.

    The file has four parts: the embedding of the class; the vocabulary of
    its properties; a concrete set of collaborators on which the embedding
    runs; the properties and their proofs, followed by their instances on
    the concrete collaborators. *)

From Stdlib Require Import ZArith QArith Bool List Lia.
From stdpp Require Import base option list strings.

Set Default Goal Selector "!".
Set Warnings "-register-all".

(** ** JavaScript numbers

    The class never does arithmetic on the numbers it handles (locations,
    divisors, counts): it compares them, takes minima and tests them for
    finiteness.  A finite double is therefore modelled by the rational it
    denotes (negative zero is not distinguished from zero). *)

Module Number.

Inductive number : Type :=
| Fin (q : Q)
| PosInf
| NegInf
| NaN.

(** [Number.isFinite(n)] for a value that is a number. *)
Definition isFinite (n : number) : bool :=
  match n with
  | Fin _ => true
  | _ => false
  end.

(** [a < b] *)
Definition lt (a b : number) : bool :=
  match a, b with
  | NaN, _ | _, NaN => false
  | Fin x, Fin y => negb (Qle_bool y x)
  | Fin _, PosInf => true
  | Fin _, NegInf => false
  | PosInf, _ => false
  | NegInf, NegInf => false
  | NegInf, _ => true
  end.

(** [a === b] *)
Definition strict_eq (a b : number) : bool :=
  match a, b with
  | Fin x, Fin y => Qeq_bool x y
  | PosInf, PosInf => true
  | NegInf, NegInf => true
  | _, _ => false
  end.

(** [a <= b] *)
Definition le (a b : number) : bool := lt a b || strict_eq a b.

(** [a > b] and [a >= b] *)
Definition gt (a b : number) : bool := lt b a.
Definition ge (a b : number) : bool := le b a.

(** [Math.min(a, b)] *)
Definition Math_min (a b : number) : number :=
  match a, b with
  | NaN, _ | _, NaN => NaN
  | _, _ => if lt b a then b else a
  end.

Definition of_Z (z : Z) : number := Fin (inject_Z z).
Definition of_nat (n : nat) : number := of_Z (Z.of_nat n).

Definition zero : number := of_Z 0.

(** Truthiness of a number: [0] and [NaN] are falsy. *)
Definition truthy (n : number) : bool :=
  match n with
  | Fin q => negb (Qeq_bool q 0)
  | NaN => false
  | _ => true
  end.

(** A property key that is an array index: an integer in [0, 2^32 - 2]. *)
Definition array_index (n : number) : option nat :=
  match n with
  | Fin q =>
      let r := Qred q in
      if ((Qden r =? 1)%positive && (0 <=? Qnum r)%Z && (Qnum r <? 4294967295)%Z)%bool
      then Some (Z.to_nat (Qnum r))
      else None
  | _ => None
  end.

(** The order of the extended reals on numbers other than [NaN], as a
    proposition; used to state what a minimum is. *)
Definition leq (a b : number) : Prop :=
  match a, b with
  | NaN, _ | _, NaN => False
  | NegInf, _ => True
  | _, PosInf => True
  | Fin x, Fin y => (x <= y)%Q
  | _, _ => False
  end.

End Number.
Export Number.

(** A property that holds a number or is absent ([undefined]). *)
Inductive field : Type :=
| FUndefined
| FNum (n : number).

(** [Number.isFinite(v)]: no coercion, so [undefined] is not finite. *)
Definition Number_isFinite (v : field) : bool :=
  match v with
  | FNum n => isFinite n
  | FUndefined => false
  end.

(** [v > 0] and [v >= 0]; [undefined] converts to [NaN]. *)
Definition field_gt0 (v : field) : bool :=
  match v with
  | FNum n => gt n zero
  | FUndefined => false
  end.

Definition field_ge0 (v : field) : bool :=
  match v with
  | FNum n => ge n zero
  | FUndefined => false
  end.

(** ** GL constants (from [../constants]) *)

Definition GL_ARRAY_BUFFER : number := of_Z 34962.          (* 0x8892 *)
Definition GL_ELEMENT_ARRAY_BUFFER : number := of_Z 34963.  (* 0x8893 *)
Definition GL_FLOAT : number := of_Z 5126.                  (* 0x1406 *)

Definition ERR_ATTRIBUTE_TYPE : string :=
  "VertexArray: attributes must be Buffers or constants (i.e. typed array)"%string.

(** ** Values

    The dynamically typed values that reach the class as attribute values.
    The three object types are those of the collaborators. *)

Inductive jsval (B V O : Type) : Type :=
| JUndefined
| JNull
| JBool (b : bool)
| JNum (n : number)
| JStr (s : string)
| JBuffer (buffer : B)          (* [instanceof Buffer] *)
| JView (view : V)              (* [ArrayBuffer.isView] *)
| JArray (elems : list (jsval B V O))   (* [Array.isArray] *)
| JObject (o : O).              (* any other object *)

Arguments JUndefined {B V O}.
Arguments JNull {B V O}.
Arguments JBool {B V O} b.
Arguments JNum {B V O} n.
Arguments JStr {B V O} s.
Arguments JBuffer {B V O} buffer.
Arguments JView {B V O} view.
Arguments JArray {B V O} elems.
Arguments JObject {B V O} o.

Definition truthy {B V O} (v : jsval B V O) : bool :=
  match v with
  | JUndefined | JNull => false
  | JBool b => b
  | JNum n => Number.truthy n
  | JStr s => negb (String.eqb s ""%string)
  | _ => true
  end.

(** A property key: the name or the number the caller passed. *)
Inductive key : Type :=
| KStr (s : string)
| KNum (n : number).

(** ** Arrays

    A JavaScript array: its indexed elements, and the properties written
    under keys that are not array indices (most recent first).  Writing
    past the end grows the array, the gap being filled with holes. *)

Record jsarray (A : Type) : Type := mkArray {
  items : list A;
  props : list (number * A)
}.
Arguments mkArray {A} items props.
Arguments items {A} _.
Arguments props {A} _.

Section Arrays.
Context {A : Type} (hole : A).

(** [new Array(n).fill(x)] *)
Definition array_fill (n : nat) (x : A) : jsarray A :=
  mkArray (replicate n x) [].

(** [a.length] *)
Definition array_length (a : jsarray A) : nat := length (items a).

(** [a[i]] for an integer [i]; [hole] stands for [undefined]. *)
Definition array_get (a : jsarray A) (i : nat) : A :=
  default hole (items a !! i).

Definition list_store (l : list A) (i : nat) (x : A) : list A :=
  if i <? length l
  then <[i := x]> l
  else l ++ replicate (i - length l) hole ++ [x].

(** [a[k] = x] for a number [k] *)
Definition array_set (a : jsarray A) (k : number) (x : A) : jsarray A :=
  match array_index k with
  | Some i => mkArray (list_store (items a) i x) (props a)
  | None => mkArray (items a) ((k, x) :: props a)
  end.
End Arrays.

(** ** Outcomes

    A method returns normally or throws. *)

Inductive error : Type :=
| AssertionError
| TypeError
| Error (message : string).

Inductive outcome (A : Type) : Type :=
| Normal (a : A)
| Throws (e : error).
Arguments Normal {A} a.
Arguments Throws {A} e.

(** ** Collaborators

    The classes and functions the file imports.  [Accessor] stands for
    accessor objects and for the plain option objects merged into them. *)

Class Collaborators : Type := {
  GLContext : Type;
  Buffer : Type;
  TypedArray : Type;
  Accessor : Type;
  AttributeInfo : Type;
  Configuration : Type;
  Program : Type;
  VertexArrayObject : Type;

  (** [Number(s)] for a string [s] *)
  Number_of_string : string -> number;

  (** [./buffer]: [new Buffer(gl, {size})] (the [nat] is the identity of the
      new object), its fields and its counting methods *)
  newBuffer : GLContext -> number -> nat -> Buffer;
  buffer_target : Buffer -> number;
  buffer_accessor : Buffer -> Accessor;
  buffer_type : Buffer -> field;
  getVertexCount : Buffer -> Accessor -> number;
  getElementCount : Buffer -> Accessor -> number;

  (** [./accessor]: [new Accessor()], the literal [{}],
      [accessor.getOptions(value, accessor1, accessor2)] and the fields read *)
  newAccessor : Accessor;
  emptyObject : Accessor;
  getOptions : Accessor -> jsval Buffer TypedArray Accessor -> Accessor ->
               jsval Buffer TypedArray Accessor -> Accessor;
  accessor_divisor : Accessor -> field;
  accessor_size : Accessor -> field;
  accessor_type : Accessor -> field;

  (** the program and its configuration *)
  getLocation : Configuration -> key -> field;
  getAttributeInfo : Configuration -> key -> option AttributeInfo;
  info_accessor : AttributeInfo -> Accessor;
  program_id : Program -> option string;
  program_configuration : Program -> option Configuration;

  (** [./vertex-array-object] *)
  isSupported : GLContext -> bool;
  newVertexArrayObject : GLContext -> nat -> VertexArrayObject;
  getDefaultArray : GLContext -> VertexArrayObject;
  MAX_ATTRIBUTES : VertexArrayObject -> nat;
  isDefaultArray : VertexArrayObject -> bool;
  _normalizeConstantArrayValue :
    VertexArrayObject -> jsval Buffer TypedArray Accessor -> Accessor ->
    jsval Buffer TypedArray Accessor
}.

Section VertexArray.
Context `{Collaborators}.

Definition value : Type := jsval Buffer TypedArray Accessor.

(** ** Calls that leave the class

    Driver and delegate calls, object creation and logging, in the order in
    which they happen. *)

Inductive event : Type :=
| EvNewVertexArrayObject (gl : GLContext) (oid : nat)
| EvNewBuffer (gl : GLContext) (size : number) (oid : nat)
| EvStubRemovedMethods
| EvLogOnce (locationOrName : key) (id : option string)
| EvLogDeprecated (oldUsage newUsage : string)
| EvVaoBind (vao : VertexArrayObject)       (* [vertexArrayObject.bind()] *)
| EvVaoUnbind (vao : VertexArrayObject)     (* [vertexArrayObject.unbind()] *)
| EvVaoEnter (vao : VertexArrayObject)      (* [vertexArrayObject.bind(func)]: before [func] *)
| EvVaoLeave (vao : VertexArrayObject)      (* [vertexArrayObject.bind(func)]: after [func] *)
| EvVaoSetElementBuffer (vao : VertexArrayObject) (elementBuffer : option Buffer)
                        (accessor : value)
| EvVaoSetBuffer (vao : VertexArrayObject) (location : number) (buffer : Buffer)
                 (accessor : Accessor)
| EvVaoEnable (vao : VertexArrayObject) (location : number) (enable : bool)
| EvVaoSetConstant (gl : GLContext) (location : nat) (constant : value)
| EvBindBuffer (gl : GLContext) (target : number) (buffer : option Buffer)
| EvDisableVertexAttribArray (gl : GLContext) (location : nat)
| EvVertexAttribPointer (gl : GLContext) (location : nat) (size type : number)
                        (normalized : bool) (stride offset : number).

(** ** Draw parameters *)

Record DrawParams : Type := mkDrawParams {
  isIndexed : bool;
  isInstanced : bool;
  indexCount : number;
  vertexCount : number;
  instanceCount : number;
  elementCount : option number;   (* absent unless an element buffer is set *)
  indexType : option field        (* absent unless an element buffer is set *)
}.

(** ** The object *)

Record VertexArray : Type := mkVertexArray {
  id : option string;
  gl : GLContext;
  configuration : option Configuration;
  elements : option Buffer;
  values : jsarray value;
  accessors : jsarray (option Accessor);
  unused : list (key * value);     (* property writes, most recent first *)
  drawParams : option DrawParams;
  buffer : option Buffer;
  vertexArrayObject : VertexArrayObject;
  bindOnUse : bool
}.

Definition set_configuration (c : option Configuration) (o : VertexArray) : VertexArray :=
  mkVertexArray (id o) (gl o) c (elements o) (values o) (accessors o) (unused o)
                (drawParams o) (buffer o) (vertexArrayObject o) (bindOnUse o).

Definition set_elements (e : option Buffer) (o : VertexArray) : VertexArray :=
  mkVertexArray (id o) (gl o) (configuration o) e (values o) (accessors o) (unused o)
                (drawParams o) (buffer o) (vertexArrayObject o) (bindOnUse o).

Definition set_values (v : jsarray value) (o : VertexArray) : VertexArray :=
  mkVertexArray (id o) (gl o) (configuration o) (elements o) v (accessors o) (unused o)
                (drawParams o) (buffer o) (vertexArrayObject o) (bindOnUse o).

Definition set_accessors (a : jsarray (option Accessor)) (o : VertexArray) : VertexArray :=
  mkVertexArray (id o) (gl o) (configuration o) (elements o) (values o) a (unused o)
                (drawParams o) (buffer o) (vertexArrayObject o) (bindOnUse o).

Definition set_unused (u : list (key * value)) (o : VertexArray) : VertexArray :=
  mkVertexArray (id o) (gl o) (configuration o) (elements o) (values o) (accessors o) u
                (drawParams o) (buffer o) (vertexArrayObject o) (bindOnUse o).

Definition set_drawParams (d : option DrawParams) (o : VertexArray) : VertexArray :=
  mkVertexArray (id o) (gl o) (configuration o) (elements o) (values o) (accessors o)
                (unused o) d (buffer o) (vertexArrayObject o) (bindOnUse o).

Definition set_buffer (b : option Buffer) (o : VertexArray) : VertexArray :=
  mkVertexArray (id o) (gl o) (configuration o) (elements o) (values o) (accessors o)
                (unused o) (drawParams o) b (vertexArrayObject o) (bindOnUse o).

Definition set_bindOnUse (b : bool) (o : VertexArray) : VertexArray :=
  mkVertexArray (id o) (gl o) (configuration o) (elements o) (values o) (accessors o)
                (unused o) (drawParams o) (buffer o) (vertexArrayObject o) b.

(** ** Effects

    A method runs on the object, a counter for the identities of new
    objects, and the trace of calls made so far.  What it wrote before
    throwing stays written. *)

Record World : Type := mkWorld {
  this : VertexArray;
  fresh : nat;
  trace : list event
}.

Definition M (A : Type) : Type := World -> outcome A * World.

#[export] Instance outcome_ret : MRet outcome := fun A a => Normal a.
#[export] Instance outcome_bind : MBind outcome := fun A B f m =>
  match m with
  | Normal a => f a
  | Throws e => Throws e
  end.

#[export] Instance M_ret : MRet M := fun A a w => (Normal a, w).
#[export] Instance M_bind : MBind M := fun A B f m w =>
  match m w with
  | (Normal a, w') => f a w'
  | (Throws e, w') => (Throws e, w')
  end.

Definition throw {A} (e : error) : M A := fun w => (Throws e, w).

Definition lift {A} (r : outcome A) : M A := fun w => (r, w).

Definition get_this : M VertexArray := fun w => (Normal (this w), w).

Definition update (f : VertexArray -> VertexArray) : M unit :=
  fun w => (Normal tt, mkWorld (f (this w)) (fresh w) (trace w)).

(** A call into code outside the file (the delegate, [Buffer], the WebGL
    context, the log) is recorded, and returns.  Modelled from the spec:
    the callees are not part of the sources, and "every operation is a
    thin pass-through to driver calls".  An error thrown by a callee is
    not modelled: what is proved of a method that returns, and of the
    calls it makes, is proved of the runs in which its callees return. *)
Definition emit (e : event) : M unit :=
  fun w => (Normal tt, mkWorld (this w) (fresh w) (trace w ++ [e])).

Definition new_identity : M nat :=
  fun w => (Normal (fresh w), mkWorld (this w) (S (fresh w)) (trace w)).

Definition when (c : bool) (m : M unit) : M unit :=
  if c then m else mret tt.

Fixpoint for_each {A} (l : list A) (body : A -> M unit) : M unit :=
  match l with
  | [] => mret tt
  | x :: l' => body x ;; for_each l' body
  end.

(** [for (let location = 0; location < n; location++) body(location)];
    no loop body of the class assigns [vertexArrayObject], so the bound is
    read once. *)
Definition for_locations (n : nat) (body : nat -> M unit) : M unit :=
  for_each (seq 0 n) body.

(** Modelled from the spec: [assert] of [../utils] is not part of the
    sources; it is one of the "handful of assertions" and throws when its
    condition is false. *)
Definition assert (c : bool) : M unit :=
  if c then mret tt else throw AssertionError.

(** Modelled from the spec: [vertex-array-object.js] is not part of the
    sources; [vertexArrayObject.bind(func)] of the delegate binds, runs
    [func] and unbinds ("bind/unbind the resulting state around" an
    operation), and returns what [func] returned. *)
Definition vao_bind_with {A} (func : M A) : M A :=
  o ← get_this;
  emit (EvVaoEnter (vertexArrayObject o));;
  r ← func;
  o ← get_this;
  emit (EvVaoLeave (vertexArrayObject o));;
  mret r.

(** [new Buffer(this.gl, {size})] *)
Definition new_Buffer (size : number) : M Buffer :=
  o ← get_this;
  oid ← new_identity;
  emit (EvNewBuffer (gl o) size oid);;
  mret (newBuffer (gl o) size oid).

(** ** Methods of [VertexArray] *)

(** Constructor options and [setProps] properties.  The outer [option]
    tells whether the key is in the object, the inner one whether its
    value is an object or [null]/[undefined]. *)
Record Props : Type := mkProps {
  props_id : option string;
  props_program : option (option Program);
  props_configuration : option (option Configuration);
  props_attributes : option (list (string * value));   (* in [for ... in] order *)
  props_elements : option (option Buffer);
  props_bindOnUse : option value
}.

(** [opts = {}] *)
Definition no_props : Props := mkProps None None None None None None.

(** [this.hasVertexArrays]: the class defines no such property, so the
    read yields [undefined]. *)
Definition hasVertexArrays (o : VertexArray) : value := JUndefined.

(** A defaulted parameter [optAccessor = {}]. *)
Definition default_object (accessor : value) : value :=
  match accessor with
  | JUndefined => JObject emptyObject
  | _ => accessor
  end.

Definition clearDrawParams : M unit :=
  update (set_drawParams None).

Definition setElementBuffer (elementBuffer : option Buffer) (accessor : value) : M unit :=
  let accessor := default_object accessor in
  update (set_elements elementBuffer);;
  clearDrawParams;;
  o ← get_this;
  when (negb (isDefaultArray (vertexArrayObject o)))
       (emit (EvVaoSetElementBuffer (vertexArrayObject o) elementBuffer accessor)).

Definition setElements (elementBuffer : option Buffer) (accessor : value) : M unit :=
  let accessor := default_object accessor in
  emit (EvLogDeprecated "setElements" "setElementBuffer");;
  setElementBuffer elementBuffer accessor.

Definition _getAttributeInfo (attributeName : key) : M (option AttributeInfo) :=
  o ← get_this;
  mret (match configuration o with
        | Some c => getAttributeInfo c attributeName
        | None => None
        end).

(** [Number(locationOrName)] *)
Definition Number_of_key (k : key) : number :=
  match k with
  | KNum n => n
  | KStr s => Number_of_string s
  end.

Definition _getAttributeIndex (locationOrName : key) : M field :=
  o ← get_this;
  match configuration o with
  | Some c => mret (getLocation c locationOrName)
  | None =>
      let location := Number_of_key locationOrName in
      if isFinite location then mret (FNum location) else mret (FNum (of_Z (-1)))
  end.

(** What [_resolveLocationAndAccessor] returns: the vertex array itself
    when the location is not finite, or an object with the two
    properties. *)
Inductive resolved : Type :=
| ResolvedThis
| Resolved (location : field) (accessor : Accessor).

(** [const {location, accessor} = ...]: the vertex array has neither
    property. *)
Definition resolved_location (r : resolved) : field :=
  match r with
  | ResolvedThis => FUndefined
  | Resolved location _ => location
  end.

Definition resolved_accessor (r : resolved) : option Accessor :=
  match r with
  | ResolvedThis => None
  | Resolved _ accessor => Some accessor
  end.

Definition _resolveLocationAndAccessor (locationOrName : key) (v : value)
    (accessor1 : Accessor) (accessor2 : value) : M resolved :=
  location ← _getAttributeIndex locationOrName;
  if negb (Number_isFinite location) then
    update (fun o => set_unused ((locationOrName, v) :: unused o) o);;
    o ← get_this;
    emit (EvLogOnce locationOrName (id o));;
    mret ResolvedThis
  else
    accessInfo ← _getAttributeInfo locationOrName;
    let accessor := match accessInfo with
                    | Some info => info_accessor info
                    | None => newAccessor
                    end in
    let accessor := getOptions accessor v accessor1 accessor2 in
    assert (Number_isFinite (accessor_size accessor) &&
            Number_isFinite (accessor_type accessor));;
    mret (Resolved location accessor).

(** [this.values[location] = v; this.accessors[location] = accessor] for a
    location that passed [location >= 0]. *)
Definition store (location : number) (v : value) (accessor : option Accessor) : M unit :=
  update (fun o => set_values (array_set JUndefined (values o) location v) o);;
  update (fun o => set_accessors (array_set None (accessors o) location accessor) o).

Definition setBuffer (locationOrName : key) (buffer : Buffer) (optAccessor : value) : M unit :=
  let optAccessor := default_object optAccessor in
  if strict_eq (buffer_target buffer) GL_ELEMENT_ARRAY_BUFFER then
    setElements (Some buffer) JUndefined
  else
    r ← _resolveLocationAndAccessor locationOrName (JBuffer buffer)
          (buffer_accessor buffer) optAccessor;
    (* [if (location >= 0)], which is false for [undefined] *)
    match resolved_location r, resolved_accessor r with
    | FNum location, Some accessor =>
        when (ge location zero)
          (store location (JBuffer buffer) (Some accessor);;
           clearDrawParams;;
           o ← get_this;
           when (negb (isDefaultArray (vertexArrayObject o)))
                (emit (EvVaoSetBuffer (vertexArrayObject o) location buffer accessor)))
    | _, _ => mret tt
    end.

Definition setConstant (locationOrName : key) (arrayValue : value) (optAccessor : value)
    : M unit :=
  let optAccessor := default_object optAccessor in
  r ← _resolveLocationAndAccessor locationOrName arrayValue emptyObject optAccessor;
  (* [if (location >= 0)], which is false for [undefined] *)
  match resolved_location r, resolved_accessor r with
  | FNum location, Some accessor =>
      when (ge location zero)
        (o ← get_this;
         let arrayValue :=
           _normalizeConstantArrayValue (vertexArrayObject o) arrayValue accessor in
         store location arrayValue (Some accessor);;
         clearDrawParams;;
         o ← get_this;
         when (negb (isDefaultArray (vertexArrayObject o)))
              (emit (EvVaoEnable (vertexArrayObject o) location false)))
  | _, _ => mret tt
  end.

(** The body of the loop of [setAttributes]: the tests
    [value instanceof Buffer], [Array.isArray(value) && value.length &&
    value[0] instanceof Buffer] and [ArrayBuffer.isView(value) ||
    Array.isArray(value)], in this order. *)
Definition setAttribute (entry : string * value) : M unit :=
  let (locationOrName, v) := entry in
  match v with
  | JBuffer buffer =>
      setBuffer (KStr locationOrName) buffer JUndefined
  | JArray (JBuffer buffer :: rest) =>
      let accessor := default JUndefined (head rest) in     (* [value[1]] *)
      setBuffer (KStr locationOrName) buffer accessor
  | JView _ | JArray _ =>
      setConstant (KStr locationOrName) v JUndefined
  | _ => throw (Error ERR_ATTRIBUTE_TYPE)
  end.

Definition setAttributes (attributes : list (string * value)) : M unit :=
  vao_bind_with
    (for_each attributes setAttribute;;
     o ← get_this;
     emit (EvBindBuffer (gl o) GL_ARRAY_BUFFER None)).

Definition setProps (props : Props) : M unit :=
  match props_program props with
  | Some program =>
      update (set_configuration (match program with
                                 | Some p => program_configuration p
                                 | None => None
                                 end))
  | None => mret tt
  end;;
  match props_configuration props with
  | Some c => update (set_configuration c)
  | None => mret tt
  end;;
  match props_attributes props with
  | Some attributes => setAttributes attributes
  | None => mret tt
  end;;
  match props_elements props with
  | Some e => setElements e JUndefined
  | None => mret tt
  end;;
  (* [if ('bindOnUse' in props) props = props.bindOnUse]: the parameter is
     assigned, no field is *)
  match props_bindOnUse props with
  | Some bindOnUse => let props := bindOnUse in mret tt
  | None => mret tt
  end.

Definition reset : M unit :=
  update (set_elements None);;
  o ← get_this;
  let n := MAX_ATTRIBUTES (vertexArrayObject o) in
  update (set_values (array_fill n JNull));;
  update (set_accessors (array_fill n None));;
  update (set_unused []);;
  update (set_drawParams None).

Definition initialize (props : Props) : M unit :=
  reset;;
  update (set_configuration None);;
  update (set_bindOnUse false);;
  setProps props.

(** [opts.id || opts.program && opts.program.id] *)
Definition constructor_id (opts : Props) : option string :=
  match props_id opts with
  | Some s => if negb (String.eqb s "") then Some s
              else match props_program opts with
                   | Some (Some p) => program_id p
                   | _ => None
                   end
  | None => match props_program opts with
            | Some (Some p) => program_id p
            | _ => None
            end
  end.

(** [VertexArrayObject.isSupported(gl) ? new VertexArrayObject(gl) :
    VertexArrayObject.getDefaultArray(gl)], from the counter [fresh0] and
    the trace [trace0]. *)
Definition constructor_vertexArrayObject (gl0 : GLContext) (fresh0 : nat)
    (trace0 : list event) : VertexArrayObject * nat * list event :=
  if isSupported gl0
  then (newVertexArrayObject gl0 fresh0, S fresh0,
        trace0 ++ [EvNewVertexArrayObject gl0 fresh0])
  else (getDefaultArray gl0, fresh0, trace0).

(** [new VertexArray(gl, opts)].  The fields set to [null] are empty until
    [initialize] fills them; no method reads them before.  [Object.seal]
    adds nothing to the state.  The result is the world that holds the new
    object, and whether [initialize] threw. *)
Definition constructor (gl0 : GLContext) (opts : Props) (fresh0 : nat)
    (trace0 : list event) : outcome unit * World :=
  let id0 := constructor_id opts in
  let '(vao, fresh1, trace1) := constructor_vertexArrayObject gl0 fresh0 trace0 in
  let o := mkVertexArray id0 gl0 None None (mkArray [] []) (mkArray [] []) []
                         None None vao false in
  (emit EvStubRemovedMethods;; initialize opts) (mkWorld o fresh1 trace1).

(** The parameter [length] is not read by the body. *)
Definition _updateAttributeZeroBuffer (length : field) : M unit :=
  o ← get_this;
  match array_get JUndefined (values o) 0 with
  | JView _ =>
      match buffer o with
      | Some b => update (set_buffer (Some b))
      | None => b ← new_Buffer (of_Z 1); update (set_buffer (Some b))
      end
  | _ => mret tt
  end.

Definition _setConstantAttributes : M unit :=
  o ← get_this;
  for_locations (MAX_ATTRIBUTES (vertexArrayObject o)) (fun location =>
    o ← get_this;
    let constant := array_get JUndefined (values o) location in
    match constant with
    | JView _ =>
        emit (EvVaoEnable (vertexArrayObject o) (of_nat location) false);;
        emit (EvVaoSetConstant (gl o) location constant)
    | _ => mret tt
    end).

(** *** Draw parameters

    [_updateDrawParams] fills a local object and does not write the vertex
    array, so it is a function of the object. *)

Definition initial_drawParams : DrawParams :=
  mkDrawParams false false PosInf PosInf PosInf None None.

Definition _updateDrawParamsForLocation (o : VertexArray) (dp : DrawParams)
    (location : nat) : outcome DrawParams :=
  let v := array_get JUndefined (values o) location in
  let accessor := array_get None (accessors o) location in
  if negb (truthy v) then Normal dp
  else
    match accessor with
    | None => Throws TypeError       (* [const {divisor} = accessor] *)
    | Some accessor =>
        let instanced := field_gt0 (accessor_divisor accessor) in
        let dp := mkDrawParams (isIndexed dp) (isInstanced dp || instanced)
                    (indexCount dp) (vertexCount dp) (instanceCount dp)
                    (elementCount dp) (indexType dp) in
        match v with
        | JBuffer b =>
            if instanced then
              Normal (mkDrawParams (isIndexed dp) (isInstanced dp) (indexCount dp)
                        (vertexCount dp)
                        (Math_min (instanceCount dp) (getVertexCount b accessor))
                        (elementCount dp) (indexType dp))
            else
              Normal (mkDrawParams (isIndexed dp) (isInstanced dp) (indexCount dp)
                        (Math_min (vertexCount dp) (getVertexCount b accessor))
                        (instanceCount dp)
                        (elementCount dp) (indexType dp))
        | _ => Normal dp
        end
    end.

Fixpoint updateDrawParams_loop (o : VertexArray) (dp : DrawParams)
    (locations : list nat) : outcome DrawParams :=
  match locations with
  | [] => Normal dp
  | location :: rest =>
      dp' ← _updateDrawParamsForLocation o dp location;
      updateDrawParams_loop o dp' rest
  end.

Definition _updateDrawParams (o : VertexArray) : outcome DrawParams :=
  dp ← updateDrawParams_loop o initial_drawParams
         (seq 0 (MAX_ATTRIBUTES (vertexArrayObject o)));
  let dp := match elements o with
            | Some e =>
                mkDrawParams true (isInstanced dp) (indexCount dp) (vertexCount dp)
                  (instanceCount dp)
                  (Some (getElementCount e (buffer_accessor e)))
                  (Some (buffer_type e))
            | None => dp
            end in
  if isFinite (vertexCount dp) then
    let dp := if strict_eq (indexCount dp) PosInf
              then mkDrawParams (isIndexed dp) (isInstanced dp) zero (vertexCount dp)
                     (instanceCount dp) (elementCount dp) (indexType dp)
              else dp in
    let dp := if strict_eq (instanceCount dp) PosInf
              then mkDrawParams (isIndexed dp) (isInstanced dp) (indexCount dp)
                     (vertexCount dp) zero (elementCount dp) (indexType dp)
              else dp in
    Normal dp
  else Throws AssertionError.

(** [vertexCount || this.drawParams.vertexCount] *)
Definition or_vertexCount (requested : field) (dp : DrawParams) : field :=
  match requested with
  | FNum n => if Number.truthy n then FNum n else FNum (vertexCount dp)
  | FUndefined => FNum (vertexCount dp)
  end.

Definition getDrawParams (requested : field) : M (option DrawParams) :=
  o ← get_this;
  dp ← match drawParams o with
       | Some dp => mret dp
       | None => lift (_updateDrawParams o)
       end;
  update (set_drawParams (Some dp));;
  _updateAttributeZeroBuffer (or_vertexCount requested dp);;
  o ← get_this;
  mret (drawParams o).

(** *** Binding *)

Definition unbindBuffers : M unit :=
  vao_bind_with
    (o ← get_this;
     match buffer o with
     | Some b => update (set_buffer (Some b))
     | None => b ← new_Buffer (of_Z 4); update (set_buffer (Some b))
     end;;
     o ← get_this;
     for_locations (MAX_ATTRIBUTES (vertexArrayObject o)) (fun location =>
       o ← get_this;
       match array_get JUndefined (values o) location with
       | JBuffer _ =>
           emit (EvDisableVertexAttribArray (gl o) location);;
           emit (EvBindBuffer (gl o) GL_ARRAY_BUFFER (buffer o));;
           emit (EvVertexAttribPointer (gl o) location (of_Z 1) GL_FLOAT false zero zero)
       | _ => mret tt
       end)).

Definition bindBuffers : M unit :=
  vao_bind_with
    (o ← get_this;
     for_locations (MAX_ATTRIBUTES (vertexArrayObject o)) (fun location =>
       o ← get_this;
       match array_get JUndefined (values o) location with
       | JBuffer b => setBuffer (KNum (of_nat location)) b JUndefined
       | _ => mret tt
       end)).

Definition bindForUse {A} (length : field) (func : M A) : M A :=
  when (Number_isFinite length) (_updateAttributeZeroBuffer length);;
  _setConstantAttributes;;
  o ← get_this;
  when (negb (truthy (hasVertexArrays o)))
       (o ← get_this;
        match elements o with
        | Some e => setElementBuffer (Some e) JUndefined
        | None => mret tt
        end;;
        bindBuffers);;
  o ← get_this;
  emit (EvVaoBind (vertexArrayObject o));;
  v ← func;
  o ← get_this;
  emit (EvVaoUnbind (vertexArrayObject o));;
  o ← get_this;
  when (negb (truthy (hasVertexArrays o))) unbindBuffers;;
  mret v.


(** ** Vocabulary of the properties *)

(** A predicate on worlds that a computation keeps, whether it returns or
    throws. *)
Definition stable {A} (I : World -> Prop) (m : M A) : Prop :=
  forall w, I w -> I (snd (m w)).

(** A predicate that only looks at the object. *)
Definition on_object (P : VertexArray -> Prop) : World -> Prop :=
  fun w => P (this w).

(** The world after one more call has been recorded. *)
Definition record (e : event) (w : World) : World :=
  mkWorld (this w) (fresh w) (trace w ++ [e]).


(** The location [_getAttributeIndex] yields, which depends on the
    configuration only. *)
Definition index_of (c : option Configuration) (locationOrName : key) : field :=
  match c with
  | Some c => getLocation c locationOrName
  | None =>
      let location := Number_of_key locationOrName in
      if isFinite location then FNum location else FNum (of_Z (-1))
  end.

Definition attribute_index (o : VertexArray) (locationOrName : key) : field :=
  index_of (configuration o) locationOrName.

(** [locationOrName] resolves to an attribute location [>= 0]: the index
    is finite, so that it is not set aside as unused, and not negative. *)
Definition resolves (o : VertexArray) (locationOrName : key) : bool :=
  Number_isFinite (attribute_index o locationOrName) &&
  field_ge0 (attribute_index o locationOrName).

(** The accessor [_resolveLocationAndAccessor] builds for a value. *)
Definition resolved_options (o : VertexArray) (locationOrName : key) (v : value)
    (accessor1 : Accessor) (accessor2 : value) : Accessor :=
  getOptions
    (match configuration o with
     | Some c => match getAttributeInfo c locationOrName with
                 | Some info => info_accessor info
                 | None => newAccessor
                 end
     | None => newAccessor
     end) v accessor1 accessor2.

(** *** The attribute table *)

Definition table_size (o : VertexArray) : nat := MAX_ATTRIBUTES (vertexArrayObject o).

(** Both arrays have exactly [MAX_ATTRIBUTES] elements. *)
Definition fixed_size (o : VertexArray) : Prop :=
  array_length (values o) = table_size o /\
  array_length (accessors o) = table_size o.

(** The configuration [initialize(props)] leaves: it is cleared, then
    taken from the program, then from the [configuration] property. *)
Definition props_final_configuration (props : Props) : option Configuration :=
  match props_configuration props with
  | Some c => c
  | None =>
      match props_program props with
      | Some (Some p) => program_configuration p
      | _ => None
      end
  end.

(** The operations that write the table. *)
Inductive operation : Type :=
| OpReset
| OpInitialize (props : Props)
| OpSetAttributes (attributes : list (string * value))
| OpSetBuffer (locationOrName : key) (buffer : Buffer) (optAccessor : value)
| OpSetConstant (locationOrName : key) (arrayValue : value) (optAccessor : value).

Definition perform (op : operation) : M unit :=
  match op with
  | OpReset => reset
  | OpInitialize props => initialize props
  | OpSetAttributes attributes => setAttributes attributes
  | OpSetBuffer k b a => setBuffer k b a
  | OpSetConstant k v a => setConstant k v a
  end.

(** The operation starts from a table of fixed size, or builds one. *)
Definition starts_fixed (o : VertexArray) (op : operation) : Prop :=
  match op with
  | OpReset | OpInitialize _ => True
  | _ => fixed_size o
  end.

(** *** Draw parameters *)

Definition instanced (a : Accessor) : bool := field_gt0 (accessor_divisor a).

(** The attribute at a location of the table is set. *)
Definition is_set (o : VertexArray) (location : nat) : Prop :=
  truthy (array_get JUndefined (values o) location) = true.

(** The vertex count of the attribute at [location], if it is a buffer
    with an accessor that is instanced or not as [inst] says. *)
Definition count_at (o : VertexArray) (inst : bool) (location : nat) : option number :=
  match array_get JUndefined (values o) location,
        array_get None (accessors o) location with
  | JBuffer b, Some a =>
      if Bool.eqb (instanced a) inst then Some (getVertexCount b a) else None
  | _, _ => None
  end.

(** The counts of the buffer attributes of the table, location by
    location. *)
Definition counts (o : VertexArray) (inst : bool) : list number :=
  omap (count_at o inst) (seq 0 (table_size o)).

Definition is_minimum (m : number) (l : list number) : Prop :=
  In m l /\ forall c, In c l -> leq m c.

Definition all_finite (l : list number) : Prop :=
  forall c, In c l -> isFinite c = true.

(** Some attribute of the table is set with an instanced accessor. *)
Definition some_instanced (o : VertexArray) : Prop :=
  exists location a,
    location < table_size o /\ is_set o location /\
    array_get None (accessors o) location = Some a /\ instanced a = true.

(** Every attribute of the table that is set has an accessor, as
    [setBuffer] and [setConstant] leave it. *)
Definition accessors_present (o : VertexArray) : Prop :=
  forall location,
    location < table_size o -> is_set o location ->
    array_get None (accessors o) location <> None.

(** *** Mutations of the attribute state *)

Inductive mutation : Type :=
| MutSetElementBuffer (elementBuffer : option Buffer) (accessor : value)
| MutSetBuffer (locationOrName : key) (buffer : Buffer) (optAccessor : value)
| MutSetConstant (locationOrName : key) (arrayValue : value) (optAccessor : value).

Definition mutate (m : mutation) : M unit :=
  match m with
  | MutSetElementBuffer e a => setElementBuffer e a
  | MutSetBuffer k b a => setBuffer k b a
  | MutSetConstant k v a => setConstant k v a
  end.

(** The call sets the element buffer or stores at a location [>= 0]. *)
Definition writes_state (o : VertexArray) (m : mutation) : Prop :=
  match m with
  | MutSetElementBuffer _ _ => True
  | MutSetBuffer k b _ =>
      strict_eq (buffer_target b) GL_ELEMENT_ARRAY_BUFFER = true \/ resolves o k = true
  | MutSetConstant k _ _ => resolves o k = true
  end.

(** *** Attribute values, as [setAttributes] tells them apart *)



(** *** The bracket of [bindForUse] *)

(** What [bindForUse] does before it binds and calls [func], and after it
    has unbound. *)
Definition bindForUse_prepare (length : field) : M unit :=
  when (Number_isFinite length) (_updateAttributeZeroBuffer length);;
  _setConstantAttributes;;
  o ← get_this;
  when (negb (truthy (hasVertexArrays o)))
       (o ← get_this;
        match elements o with
        | Some e => setElementBuffer (Some e) JUndefined
        | None => mret tt
        end;;
        bindBuffers).

Definition bindForUse_restore : M unit :=
  o ← get_this;
  when (negb (truthy (hasVertexArrays o))) unbindBuffers.


(** The world in which [initialize] runs [setProps]: the one that [reset]
    and the two assignments leave. *)
Definition initialized (w : World) : World :=
  mkWorld
    (set_bindOnUse false
       (set_configuration None
          (set_drawParams None
             (set_unused []
                (set_accessors (array_fill (table_size (this w)) None)
                   (set_values (array_fill (table_size (this w)) JNull)
                      (set_elements None (this w))))))))
    (fresh w) (trace w).

(** The world after a value has been set aside as unused. *)
Definition set_aside (k : key) (v : value) (w : World) : World :=
  record (EvLogOnce k (id (this w)))
    (mkWorld (set_unused ((k, v) :: unused (this w)) (this w)) (fresh w) (trace w)).

(** The object that [setBuffer] and [setConstant] leave when they store. *)
Definition stored (location : number) (v : value) (accessor : Accessor)
    (o : VertexArray) : VertexArray :=
  set_drawParams None
    (set_accessors (array_set None (accessors o) location (Some accessor))
       (set_values (array_set JUndefined (values o) location v) o)).

(** The world [_updateAttributeZeroBuffer] leaves: when the value at
    location 0 is a typed array and there is no buffer yet, one is
    created. *)
Definition zero_buffer (w : World) : World :=
  match array_get JUndefined (values (this w)) 0 with
  | JView _ =>
      match buffer (this w) with
      | Some b => mkWorld (set_buffer (Some b) (this w)) (fresh w) (trace w)
      | None =>
          mkWorld (set_buffer (Some (newBuffer (gl (this w)) (of_Z 1) (fresh w))) (this w))
                  (S (fresh w))
                  (trace w ++ [EvNewBuffer (gl (this w)) (of_Z 1) (fresh w)])
      end
  | _ => w
  end.

(** The world [setBuffer] leaves when given an element buffer: through the
    deprecated [setElements], the buffer becomes the element buffer. *)
Definition element_set (b : Buffer) (w : World) : World :=
  let w1 := mkWorld (set_drawParams None (set_elements (Some b) (this w)))
                    (fresh w)
                    (trace w ++ [EvLogDeprecated "setElements" "setElementBuffer"]) in
  if negb (isDefaultArray (vertexArrayObject (this w)))
  then record (EvVaoSetElementBuffer (vertexArrayObject (this w)) (Some b)
                 (JObject emptyObject)) w1
  else w1.

(** *** What a call does with the value it is given

    [setBuffer], [setConstant] and the body of the loop of [setAttributes]
    throw, return without writing the tables, store at a location or set
    the element buffer.  Which of these depends on the arguments, on the
    configuration and on the delegate of the object only. *)

Inductive handling : Type :=
| Fails (e : error)
| Ignores
| Stores (location : number) (v : value) (a : Accessor)
| SetsElements (b : Buffer).

(** The tests of [_resolveLocationAndAccessor], then [location >= 0], for
    the value [v] to store and the accessor [a] that was resolved. *)
Definition store_handling (o : VertexArray) (k : key) (v : value) (a : Accessor)
    : handling :=
  match attribute_index o k with
  | FNum location =>
      if isFinite location then
        if Number_isFinite (accessor_size a) && Number_isFinite (accessor_type a) then
          if ge location zero then Stores location v a else Ignores
        else Fails AssertionError
      else Ignores
  | FUndefined => Ignores
  end.

Definition setBuffer_handling (o : VertexArray) (k : key) (b : Buffer) (acc : value)
    : handling :=
  if strict_eq (buffer_target b) GL_ELEMENT_ARRAY_BUFFER then SetsElements b
  else store_handling o k (JBuffer b)
         (resolved_options o k (JBuffer b) (buffer_accessor b) (default_object acc)).

Definition setConstant_handling (o : VertexArray) (k : key) (v : value) (acc : value)
    : handling :=
  let a := resolved_options o k v emptyObject (default_object acc) in
  store_handling o k (_normalizeConstantArrayValue (vertexArrayObject o) v a) a.

Definition setAttribute_handling (o : VertexArray) (entry : string * value) : handling :=
  let (name, v) := entry in
  match v with
  | JBuffer b => setBuffer_handling o (KStr name) b JUndefined
  | JArray (JBuffer b :: rest) =>
      setBuffer_handling o (KStr name) b (default JUndefined (head rest))
  | JView _ | JArray _ => setConstant_handling o (KStr name) v JUndefined
  | _ => Fails (Error ERR_ATTRIBUTE_TYPE)
  end.

(** The tables, the element buffer, the cache, the configuration and the
    delegate of [o'] are those of [o]. *)
Definition same_tables (o o' : VertexArray) : Prop :=
  values o' = values o /\ accessors o' = accessors o /\
  elements o' = elements o /\ drawParams o' = drawParams o /\
  configuration o' = configuration o /\
  vertexArrayObject o' = vertexArrayObject o.

(** The computation [m], run in [w], handles its value as [h] says. *)
Definition handles (h : handling) (m : M unit) (w : World) : Prop :=
  match h with
  | Fails e => m w = (Throws e, w)
  | Ignores => fst (m w) = Normal tt /\ same_tables (this w) (this (snd (m w)))
  | Stores location v a =>
      fst (m w) = Normal tt /\ this (snd (m w)) = stored location v a (this w)
  | SetsElements b =>
      fst (m w) = Normal tt /\
      this (snd (m w)) = set_drawParams None (set_elements (Some b) (this w))
  end.

(** The locations at which a call stores. *)
Definition handling_locations (h : handling) : list number :=
  match h with
  | Stores location _ _ => [location]
  | _ => []
  end.

(** The locations at which the loop of [setAttributes] stores: those of
    the entries that store, up to the first entry that throws. *)
Fixpoint setAttributes_locations (o : VertexArray) (attributes : list (string * value))
    : list number :=
  match attributes with
  | [] => []
  | entry :: rest =>
      match setAttribute_handling o entry with
      | Fails _ => []
      | h => handling_locations h ++ setAttributes_locations o rest
      end
  end.


(** The locations at which an operation stores.  [initialize] resolves
    the names of its attributes under the configuration it installs. *)
Definition stored_locations (o : VertexArray) (op : operation) : list number :=
  match op with
  | OpReset => []
  | OpInitialize props =>
      setAttributes_locations (set_configuration (props_final_configuration props) o)
        (default [] (props_attributes props))
  | OpSetAttributes attributes => setAttributes_locations o attributes
  | OpSetBuffer k b acc => handling_locations (setBuffer_handling o k b acc)
  | OpSetConstant k v acc => handling_locations (setConstant_handling o k v acc)
  end.

(** Every location of a list that is an array index lies in a table of
    [n] elements. *)
Definition in_table (n : nat) (locations : list number) : Prop :=
  forall location i, In location locations -> array_index location = Some i -> i < n.

(** Every location the operation stores at lies in the table. *)
Definition stores_in_table (o : VertexArray) (op : operation) : Prop :=
  in_table (table_size o) (stored_locations o op).

(** The world in which [setProps] handles the attributes and the
    elements: the configuration has been taken from the program, then
    from the [configuration] property. *)
Definition configured (props : Props) (w : World) : World :=
  let w1 := match props_program props with
            | Some program =>
                mkWorld (set_configuration
                           (match program with
                            | Some p => program_configuration p
                            | None => None
                            end) (this w)) (fresh w) (trace w)
            | None => w
            end in
  match props_configuration props with
  | Some c => mkWorld (set_configuration c (this w1)) (fresh w1) (trace w1)
  | None => w1
  end.

(** The table has its fixed size, under a given configuration and
    delegate. *)
Definition table_inv (c : option Configuration) (v : VertexArrayObject) : World -> Prop :=
  fun w => fixed_size (this w) /\ configuration (this w) = c /\
           vertexArrayObject (this w) = v.

(** The attribute at a location is set and its accessor is instanced. *)
Definition instanced_at (o : VertexArray) (location : nat) : bool :=
  truthy (array_get JUndefined (values o) location) &&
  match array_get None (accessors o) location with
  | Some a => instanced a
  | None => false
  end.

(** The cached draw parameters, if any, are those of the tables as they
    are; every method that writes the tables clears the cache. *)
Definition cache_current (o : VertexArray) : Prop :=
  forall dp, drawParams o = Some dp -> _updateDrawParams o = Normal dp.

(** Some buffer attribute of the table has an accessor that is not
    instanced. *)
Definition has_vertex_buffer (o : VertexArray) : Prop :=
  exists location b a,
    location < table_size o /\
    array_get JUndefined (values o) location = JBuffer b /\
    array_get None (accessors o) location = Some a /\
    instanced a = false.

(** [Math.min] of an initial value and the numbers of a list, as the loop
    of [_updateDrawParams] accumulates it. *)
Definition running_min (start : number) (l : list number) : number :=
  fold_left Math_min l start.

(** The world in which the function given to [vertexArrayObject.bind]
    starts. *)
Definition entered (w : World) : World :=
  record (EvVaoEnter (vertexArrayObject (this w))) w.


(** Checks of the two conditions on a table, by running over it. *)
Definition accessors_present_check (o : VertexArray) : bool :=
  forallb (fun location =>
             implb (truthy (array_get JUndefined (values o) location))
                   (match array_get None (accessors o) location with
                    | Some _ => true
                    | None => false
                    end))
          (seq 0 (table_size o)).

Definition all_finite_check (l : list number) : bool := forallb isFinite l.

Definition in_table_check (n : nat) (locations : list number) : bool :=
  forallb (fun location =>
             match array_index location with
             | Some i => i <? n
             | None => true
             end) locations.

(** *** The states the methods keep to *)

(** The cache is empty or current, and every set attribute of the table
    has its accessor. *)
Definition consistent (o : VertexArray) : Prop :=
  cache_current o /\ accessors_present o.

(** The methods of the class, but for [bindForUse], which runs a function
    of the caller. *)
Inductive method : Type :=
| CallReset
| CallInitialize (props : Props)
| CallSetProps (props : Props)
| CallClearDrawParams
| CallGetDrawParams (requested : field)
| CallSetAttributes (attributes : list (string * value))
| CallSetElementBuffer (elementBuffer : option Buffer) (accessor : value)
| CallSetElements (elementBuffer : option Buffer) (accessor : value)
| CallSetBuffer (locationOrName : key) (buffer : Buffer) (optAccessor : value)
| CallSetConstant (locationOrName : key) (arrayValue : value) (optAccessor : value)
| CallUnbindBuffers
| CallBindBuffers.

Definition call (c : method) : M unit :=
  match c with
  | CallReset => reset
  | CallInitialize props => initialize props
  | CallSetProps props => setProps props
  | CallClearDrawParams => clearDrawParams
  | CallGetDrawParams requested => getDrawParams requested;; mret tt
  | CallSetAttributes attributes => setAttributes attributes
  | CallSetElementBuffer e a => setElementBuffer e a
  | CallSetElements e a => setElements e a
  | CallSetBuffer k b a => setBuffer k b a
  | CallSetConstant k v a => setConstant k v a
  | CallUnbindBuffers => unbindBuffers
  | CallBindBuffers => bindBuffers
  end.

(** ** Vocabulary of the further properties *)

(** The two arrays have the same length, and it covers the table: the
    loops over the locations below [MAX_ATTRIBUTES] read elements of the
    arrays. *)
Definition covers_table (o : VertexArray) : Prop :=
  array_length (values o) = array_length (accessors o) /\
  table_size o <= array_length (values o).

(** The world after [this.buffer = this.buffer || new Buffer(this.gl,
    {size})]. *)
Definition with_buffer (size : number) (w : World) : World :=
  match buffer (this w) with
  | Some b => mkWorld (set_buffer (Some b) (this w)) (fresh w) (trace w)
  | None =>
      mkWorld (set_buffer (Some (newBuffer (gl (this w)) size (fresh w))) (this w))
              (S (fresh w))
              (trace w ++ [EvNewBuffer (gl (this w)) size (fresh w)])
  end.

(** The calls [_setConstantAttributes] makes for a location. *)
Definition constant_calls_at (o : VertexArray) (location : nat) : list event :=
  match array_get JUndefined (values o) location with
  | JView view =>
      [EvVaoEnable (vertexArrayObject o) (of_nat location) false;
       EvVaoSetConstant (gl o) location (JView view)]
  | _ => []
  end.

Definition constant_calls (o : VertexArray) : list event :=
  flat_map (constant_calls_at o) (seq 0 (table_size o)).

(** The calls [unbindBuffers] makes for a location. *)
Definition unbind_calls_at (o : VertexArray) (location : nat) : list event :=
  match array_get JUndefined (values o) location with
  | JBuffer _ =>
      [EvDisableVertexAttribArray (gl o) location;
       EvBindBuffer (gl o) GL_ARRAY_BUFFER (buffer o);
       EvVertexAttribPointer (gl o) location (of_Z 1) GL_FLOAT false zero zero]
  | _ => []
  end.

Definition unbind_calls (o : VertexArray) : list event :=
  flat_map (unbind_calls_at o) (seq 0 (table_size o)).

(** The configuration [setProps(props)] leaves on an object whose
    configuration was [c]. *)
Definition props_configuration_over (c : option Configuration) (props : Props)
    : option Configuration :=
  match props_configuration props with
  | Some c' => c'
  | None =>
      match props_program props with
      | Some (Some p) => program_configuration p
      | Some None => None
      | None => c
      end
  end.

(** An event is the creation of a buffer. *)
Definition creates_buffer (e : event) : bool :=
  match e with
  | EvNewBuffer _ _ _ => true
  | _ => false
  end.

(** The body of the loop of [bindBuffers]. *)
Definition rebind (location : nat) : M unit :=
  o ← get_this;
  match array_get JUndefined (values o) location with
  | JBuffer b => setBuffer (KNum (of_nat location)) b JUndefined
  | _ => mret tt
  end.

(** The accessor [setBuffer(location, buffer)] resolves without a
    configuration: from the buffer alone. *)
Definition rebound_accessor (b : Buffer) : Accessor :=
  getOptions newAccessor (JBuffer b) (buffer_accessor b) (JObject emptyObject).

(** The values array and the absence of a configuration, which the loop of
    [bindBuffers] keeps. *)
Definition rebinding (V : jsarray value) (w : World) : Prop :=
  values (this w) = V /\ configuration (this w) = None.

(** No draw parameters are cached. *)
Definition no_cache (o : VertexArray) : Prop := drawParams o = None.

End VertexArray.

(** ** A concrete set of collaborators

    Small stand-ins for the imported classes, on which the embedding runs:
    buffers that carry their vertex count, accessors that merge the way
    option objects do, a context with or without the vertex array object
    extension, and the conversions of the language from strings and
    arrays to numbers, with their rounding. *)

Module Demo.

Record Acc : Type := mkAccessor {
  a_size : field;
  a_type : field;
  a_divisor : field
}.

Record Buf : Type := mkBuffer {
  b_id : nat;
  b_target : number;
  b_count : number;
  b_accessor : Acc
}.

Record Ctx : Type := mkContext {
  c_extension : bool;
  c_max : nat
}.

Record Vao : Type := mkVao {
  v_context : Ctx;
  v_handle : option nat
}.

Definition or_field (over base : field) : field :=
  match over with
  | FUndefined => base
  | _ => over
  end.

Definition merge (base over : Acc) : Acc :=
  mkAccessor (or_field (a_size over) (a_size base))
             (or_field (a_type over) (a_type base))
             (or_field (a_divisor over) (a_divisor base)).

Definition no_accessor : Acc := mkAccessor FUndefined FUndefined FUndefined.

Definition options (a : Acc) (v : jsval Buf (list number) Acc)
    (a1 : Acc) (a2 : jsval Buf (list number) Acc) : Acc :=
  merge (merge a a1) (match a2 with JObject o => o | _ => no_accessor end).

(** [q], rounded to the nearest number with [prec] binary digits, ties to
    even; [emin] is the exponent of the least positive number, and numbers
    from [2^emax] on are infinite. *)
Definition round_binary (prec emin emax : Z) (q : Q) : number :=
  let n := Qnum q in
  let d := Zpos (Qden q) in
  if (n =? 0)%Z then Fin 0
  else
    let a := Z.abs n in
    (* [2^e <= a/d < 2^(e+1)] *)
    let e0 := (Z.log2 a - Z.log2 d)%Z in
    let e := if (if (0 <=? e0)%Z then (d * 2 ^ e0 <=? a)%Z else (d <=? a * 2 ^ (- e0))%Z)
             then e0 else (e0 - 1)%Z in
    (* the rounding step is [2^step] *)
    let step := Z.max (e - (prec - 1)) emin in
    let num := if (0 <=? step)%Z then a else (a * 2 ^ (- step))%Z in
    let den := if (0 <=? step)%Z then (d * 2 ^ step)%Z else d in
    let below := (num / den)%Z in
    let rest := (num mod den)%Z in
    let m := if (2 * rest <? den)%Z then below
             else if (den <? 2 * rest)%Z then (below + 1)%Z
             else if Z.even below then below else (below + 1)%Z in
    if ((0 <=? step) && (2 ^ emax <=? m * 2 ^ step))%Z%bool
    then (if (n <? 0)%Z then NegInf else PosInf)
    else
      let r := if (0 <=? step)%Z then inject_Z (m * 2 ^ step)
               else Qmake m (Z.to_pos (2 ^ (- step))) in
      Fin (Qred (if (n <? 0)%Z then Qopp r else r)).

Definition double : Q -> number := round_binary 53 (-1074) 1024.
Definition single : Q -> number := round_binary 24 (-149) 128.

(** *** [Number(s)]

    The conversion of a string to a number: surrounding blanks are
    dropped; the empty string is [0]; a decimal literal may have a sign, a
    fraction and an exponent; [Infinity] may have a sign; binary, octal
    and hexadecimal literals have none; everything else is [NaN].  The
    strings are taken as sequences of ASCII characters. *)

Fixpoint characters (s : string) : list Ascii.ascii :=
  match s with
  | EmptyString => []
  | String c s' => c :: characters s'
  end.

(** The character with a given code. *)
Definition is_char (code : N) (c : Ascii.ascii) : bool :=
  (Ascii.N_of_ascii c =? code)%N.

Definition is_blank (c : Ascii.ascii) : bool :=
  let n := Ascii.N_of_ascii c in
  ((n =? 9) || (n =? 10) || (n =? 11) || (n =? 12) || (n =? 13) || (n =? 32))%N.

Fixpoint drop_blanks (l : list Ascii.ascii) : list Ascii.ascii :=
  match l with
  | c :: l' => if is_blank c then drop_blanks l' else l
  | [] => []
  end.

Definition trim (l : list Ascii.ascii) : list Ascii.ascii :=
  rev (drop_blanks (rev (drop_blanks l))).

(** The value of a digit in a base up to 16. *)
Definition digit_in (base : N) (c : Ascii.ascii) : option N :=
  let n := Ascii.N_of_ascii c in
  let v := if ((48 <=? n) && (n <=? 57))%N then Some (n - 48)%N
           else if ((97 <=? n) && (n <=? 102))%N then Some (n - 87)%N
           else if ((65 <=? n) && (n <=? 70))%N then Some (n - 55)%N
           else None in
  match v with
  | Some d => if (d <? base)%N then Some d else None
  | None => None
  end.

(** The leading digits of a list: their value, their number and what
    follows them. *)
Fixpoint leading_digits (base : N) (l : list Ascii.ascii) (acc : N) (count : nat)
    : N * nat * list Ascii.ascii :=
  match l with
  | c :: l' =>
      match digit_in base c with
      | Some d => leading_digits base l' (base * acc + d)%N (S count)
      | None => (acc, count, l)
      end
  | [] => (acc, count, [])
  end.

(** A literal made of digits only, and of one digit at least. *)
Definition digits_only (base : N) (l : list Ascii.ascii) : option N :=
  match leading_digits base l 0%N 0 with
  | (v, S _, []) => Some v
  | _ => None
  end.

(** [e] or [E], a sign and digits; no exponent part is exponent 0. *)
Definition exponent_part (l : list Ascii.ascii) : option Z :=
  match l with
  | [] => Some 0%Z
  | c :: l' =>
      if (is_char 101 c || is_char 69 c)%bool then
        match l' with
        | s :: l'' =>
            if is_char 45 s then option_map (fun v => (- Z.of_N v)%Z) (digits_only 10 l'')
            else if is_char 43 s then option_map Z.of_N (digits_only 10 l'')
            else option_map Z.of_N (digits_only 10 l')
        | [] => None
        end
      else None
  end.

(** [m * 10^e] *)
Definition scaled (m : N) (e : Z) : Q :=
  if (0 <=? e)%Z then inject_Z (Z.of_N m * 10 ^ e)
  else Qmake (Z.of_N m) (Z.to_pos (10 ^ (- e))).

Definition unsigned_decimal (l : list Ascii.ascii) : option Q :=
  let '(whole, n_whole, after_whole) := leading_digits 10 l 0%N 0 in
  let '(fraction, n_fraction, after_fraction) :=
    match after_whole with
    | c :: l' => if is_char 46 c then leading_digits 10 l' whole 0
                 else (whole, 0, after_whole)
    | [] => (whole, 0, [])
    end in
  match n_whole + n_fraction with
  | 0 => None
  | S _ =>
      option_map (fun e => scaled fraction (e - Z.of_nat n_fraction))
                 (exponent_part after_fraction)
  end.

Definition infinity_literal : list Ascii.ascii := characters "Infinity".

Definition unsigned_literal (l : list Ascii.ascii) : option number :=
  if decide (l = infinity_literal) then Some PosInf
  else option_map double (unsigned_decimal l).

Definition negated (n : number) : number :=
  match n with
  | Fin q => Fin (Qred (Qopp q))
  | PosInf => NegInf
  | NegInf => PosInf
  | NaN => NaN
  end.

Definition prefixed (l : list Ascii.ascii) : option N :=
  match l with
  | z :: x :: l' =>
      if is_char 48 z then
        if (is_char 120 x || is_char 88 x)%bool then digits_only 16 l'
        else if (is_char 111 x || is_char 79 x)%bool then digits_only 8 l'
        else if (is_char 98 x || is_char 66 x)%bool then digits_only 2 l'
        else None
      else None
  | _ => None
  end.

Definition number_of_string (s : string) : number :=
  match trim (characters s) with
  | [] => zero
  | (c :: l') as l =>
      match prefixed l with
      | Some v => double (inject_Z (Z.of_N v))
      | None =>
          let r := if is_char 45 c then option_map negated (unsigned_literal l')
                   else if is_char 43 c then unsigned_literal l'
                   else unsigned_literal l in
          default NaN r
      end
  end.

(** *** [new Float32Array(array)]

    Each element is converted to a number, then rounded to a single.
    [Number(v)] of an array goes through its string: the empty array is
    [0], an array of one element is the number of that element ([0] for
    [null] and [undefined]), any longer one is [NaN]. *)

Fixpoint number_of_value (v : jsval Buf (list number) Acc) : number :=
  match v with
  | JUndefined => NaN
  | JNull => zero
  | JBool b => if b then of_Z 1 else zero
  | JNum n => n
  | JStr s => number_of_string s
  | JBuffer _ | JObject _ => NaN
  | JView view =>
      match view with
      | [] => zero
      | [n] => n
      | _ => NaN
      end
  | JArray l =>
      match l with
      | [] => zero
      | [x] =>
          match x with
          | JUndefined | JNull => zero
          | JBool _ => NaN
          | _ => number_of_value x
          end
      | _ => NaN
      end
  end.

Definition float32 (v : jsval Buf (list number) Acc) : number :=
  match number_of_value v with
  | Fin q => single q
  | n => n
  end.

(** [_normalizeConstantArrayValue]: an array becomes a [Float32Array], a
    typed array is kept. *)
Definition normalize (_ : Vao) (v : jsval Buf (list number) Acc) (_ : Acc)
    : jsval Buf (list number) Acc :=
  match v with
  | JArray l => JView (map float32 l)
  | _ => v
  end.

(** A configuration lists the attributes of a program: name, location
    and accessor.  Unknown names have location [-1] and no info; a number
    is its own location. *)
Definition Config : Type := list (string * (number * Acc)).

Definition named (s : string) (e : string * (number * Acc)) : bool :=
  String.eqb (fst e) s.

Definition located (n : number) (e : string * (number * Acc)) : bool :=
  strict_eq (fst (snd e)) n.

Definition location_in (c : Config) (k : key) : field :=
  match k with
  | KNum n => FNum n
  | KStr s =>
      match find (named s) c with
      | Some e => FNum (fst (snd e))
      | None => FNum (of_Z (-1))
      end
  end.

Definition info_in (c : Config) (k : key) : option Acc :=
  match k with
  | KNum n => option_map (fun e => snd (snd e)) (find (located n) c)
  | KStr s => option_map (fun e => snd (snd e)) (find (named s) c)
  end.

#[export] Instance collaborators : Collaborators := {
  GLContext := Ctx;
  Buffer := Buf;
  TypedArray := list number;
  Accessor := Acc;
  AttributeInfo := Acc;
  Configuration := Config;
  Program := option Config;
  VertexArrayObject := Vao;
  Number_of_string := number_of_string;
  newBuffer := fun _ _ oid => mkBuffer oid GL_ARRAY_BUFFER zero no_accessor;
  buffer_target := b_target;
  buffer_accessor := b_accessor;
  buffer_type := fun _ => FNum (of_Z 5125);
  getVertexCount := fun b _ => b_count b;
  getElementCount := fun b _ => b_count b;
  newAccessor := no_accessor;
  emptyObject := no_accessor;
  getOptions := options;
  accessor_divisor := a_divisor;
  accessor_size := a_size;
  accessor_type := a_type;
  getLocation := location_in;
  getAttributeInfo := info_in;
  info_accessor := fun a => a;
  program_id := fun _ => None;
  program_configuration := fun p => p;
  isSupported := c_extension;
  newVertexArrayObject := fun g oid => mkVao g (Some oid);
  getDefaultArray := fun g => mkVao g None;
  MAX_ATTRIBUTES := fun v => c_max (v_context v);
  isDefaultArray := fun v => match v_handle v with None => true | Some _ => false end;
  _normalizeConstantArrayValue := normalize
}.

Definition webgl1 : Ctx := mkContext false 16.
Definition webgl2 : Ctx := mkContext true 16.

Definition float3 : Acc := mkAccessor (FNum (of_Z 3)) (FNum GL_FLOAT) FUndefined.
Definition per_instance : Acc := mkAccessor (FNum (of_Z 1)) (FNum GL_FLOAT) (FNum (of_Z 1)).

Definition positions : Buf := mkBuffer 100 GL_ARRAY_BUFFER (of_Z 36) float3.
Definition offsets : Buf := mkBuffer 101 GL_ARRAY_BUFFER (of_Z 5) per_instance.
Definition indices : Buf := mkBuffer 102 GL_ELEMENT_ARRAY_BUFFER (of_Z 12) no_accessor.

(** A buffer that does not describe its own layout. *)
Definition bare : Buf := mkBuffer 103 GL_ARRAY_BUFFER (of_Z 3) no_accessor.

(** A vertex array without attributes, on a context without the
    extension. *)
Definition empty_array : World := snd (constructor webgl1 no_props 0 []).

(** One buffer at location 0. *)
Definition with_positions : World :=
  snd (setBuffer (KStr "0") positions JUndefined empty_array).

(** The same, after its draw parameters have been computed and cached. *)
Definition with_cache : World := snd (getDrawParams FUndefined with_positions).

(** One buffer at location 16, the first past a table of 16. *)
Definition past_the_table : World :=
  snd (setBuffer (KNum (of_Z 16)) positions JUndefined empty_array).

(** A program with positions, offsets per instance and a colour; its
    vertex array, on a context with the extension, is given a buffer for
    each of the first two, a constant colour and an element buffer. *)
Definition shader : Config :=
  [("positions", (of_Z 0, float3));
   ("instanceOffsets", (of_Z 1, per_instance));
   ("color", (of_Z 2, float3))].

Definition scene_attributes : list (string * jsval Buf (list number) Acc) :=
  [("positions", JBuffer positions);
   ("instanceOffsets", JArray [JBuffer offsets; JObject per_instance]);
   ("color", JArray [JNum (of_Z 1); JNum zero; JNum zero])].

Definition scene_props : Props :=
  mkProps None None (Some (Some shader)) (Some scene_attributes) (Some (Some indices)) None.

Definition scene : World := snd (constructor webgl2 scene_props 0 []).

(** The vertex array of the program before any attribute is given, and
    after the loop of [setAttributes] has handled the positions. *)
Definition configured_array : World :=
  snd (constructor webgl2
         (mkProps None None (Some (Some shader)) None None None) 0 []).


Definition null_first : list (string * jsval Buf (list number) Acc) :=
  [("0", JNull); ("1", JBuffer positions)].

Definition indices_past_the_table : list (string * jsval Buf (list number) Acc) :=
  [("3", JBuffer positions); ("16", JBuffer indices)].

(** The scene, prepared for use, and a function to call on it. *)
Definition prepared : World := snd (bindForUse_prepare (FNum (of_Z 4)) scene).

Definition draw : M nat := mret 7.


(** Setting the offsets per instance, as a mutation of the vertex array
    whose draw parameters are cached; and the draw parameters computed,
    and cached, after it. *)
Definition set_offsets : mutation := MutSetBuffer (KStr "1") offsets JUndefined.

Definition offsets_set : World := snd (mutate set_offsets with_cache).

Definition instanced_params : DrawParams :=
  mkDrawParams false true zero (of_Z 36) (of_Z 5) None None.

Definition offsets_cached : World := snd (getDrawParams FUndefined offsets_set).


(** The buffer without layout, set at location 0 together with an
    accessor. *)
Definition with_bare : World :=
  snd (setBuffer (KStr "0") bare (JObject float3) empty_array).

(** A constant colour at location 1. *)
Definition red : jsval Buf (list number) Acc :=
  JArray [JNum (of_Z 1); JNum zero; JNum zero].

Definition with_colour : World :=
  snd (setConstant (KStr "1") red (JObject float3) empty_array).

(** The positions at location 3/2, which is not an array index. *)
Definition between : World :=
  snd (setBuffer (KNum (Fin (3 # 2))) positions JUndefined empty_array).

(** The positions, made instanced by the accessor given with them, and
    the same after [bindBuffers]. *)
Definition instanced_positions : World :=
  snd (setBuffer (KStr "0") positions (JObject per_instance) empty_array).

Definition rebound : World := snd (bindBuffers instanced_positions).

(** The draw parameters of the positions alone. *)
Definition positions_params : DrawParams :=
  mkDrawParams false false zero (of_Z 36) zero None None.

(** A function that throws. *)
Definition lost : M nat := throw (Error "context lost").

(** The world in which [bindForUse] stops on the buffer without layout. *)
Definition bare_rejected : World := snd (bindForUse_prepare (FNum (of_Z 4)) with_bare).

(** The attributes of the scene, set on the vertex array of the program;
    and the world in which the loop of [setAttributes] stops on a value
    that is no attribute. *)
Definition attributes_set : World :=
  snd (setAttributes scene_attributes configured_array).

Definition no_attribute : list (string * jsval Buf (list number) Acc) :=
  [("color", JNull)].

Definition rejected : World :=
  snd (for_each no_attribute setAttribute (entered configured_array)).

(** The positions with their cached draw parameters, prepared for use. *)
Definition cache_dropped : World := snd (bindForUse_prepare (FNum (of_Z 4)) with_cache).

(** The scene after its constants have been set on the context, and after
    its buffers have been unbound. *)
Definition constants_set : World := snd (_setConstantAttributes scene).

Definition buffers_unbound : World := snd (unbindBuffers scene).

End Demo.

(** * Properties *)

Section Properties.
Context `{Collaborators}.

(** ** Invariants of methods *)

Lemma stable_ret {A} (I : World -> Prop) (a : A) : stable I (mret a).
Proof. intros w Hw. exact Hw. Qed.

Lemma stable_throw {A} (I : World -> Prop) (e : error) : stable I (@throw _ A e).
Proof. intros w Hw. exact Hw. Qed.

Lemma stable_bind {A B} (I : World -> Prop) (m : M A) (f : A -> M B) :
  stable I m -> (forall a, stable I (f a)) -> stable I (m ≫= f).
Proof.
  intros Hm Hf w Hw. specialize (Hm w Hw).
  unfold mbind, M_bind. destruct (m w) as [[a|e] w']; cbn in *.
  - apply Hf, Hm.
  - exact Hm.
Qed.

Lemma stable_when (I : World -> Prop) (c : bool) (m : M unit) :
  stable I m -> stable I (when c m).
Proof. intros Hm. destruct c; [exact Hm | apply stable_ret]. Qed.

Lemma stable_for_each {A} (I : World -> Prop) (l : list A) (body : A -> M unit) :
  (forall x, In x l -> stable I (body x)) -> stable I (for_each l body).
Proof.
  induction l as [|x l IH]; intros Hbody; cbn [for_each].
  - apply stable_ret.
  - apply stable_bind.
    + apply Hbody. now left.
    + intros _. apply IH. intros y Hy. apply Hbody. now right.
Qed.

Lemma stable_get_this (I : World -> Prop) : stable I get_this.
Proof. intros w Hw. exact Hw. Qed.

Lemma stable_assert (I : World -> Prop) (c : bool) : stable I (assert c).
Proof. intros w Hw. unfold assert. destruct c; exact Hw. Qed.

Lemma stable_lift {A} (I : World -> Prop) (r : outcome A) : stable I (lift r).
Proof. intros w Hw. exact Hw. Qed.

Lemma stable_update (I : World -> Prop) (f : VertexArray -> VertexArray) :
  (forall w, I w -> I (mkWorld (f (this w)) (fresh w) (trace w))) ->
  stable I (update f).
Proof. intros Hf w Hw. apply Hf, Hw. Qed.

(** The methods under an invariant that is closed under the assignments
    they make; each lemma names the assignments its method makes. *)
Section Invariant.
Context (I : World -> Prop).
Hypothesis I_record : forall e w, I w -> I (record e w).
Hypothesis I_fresh : forall w, I w -> I (mkWorld (this w) (S (fresh w)) (trace w)).
Hypothesis I_elements :
  forall x w, I w -> I (mkWorld (set_elements x (this w)) (fresh w) (trace w)).
Hypothesis I_values :
  forall x w, I w -> I (mkWorld (set_values x (this w)) (fresh w) (trace w)).
Hypothesis I_accessors :
  forall x w, I w -> I (mkWorld (set_accessors x (this w)) (fresh w) (trace w)).
Hypothesis I_unused :
  forall x w, I w -> I (mkWorld (set_unused x (this w)) (fresh w) (trace w)).
Hypothesis I_drawParams :
  forall x w, I w -> I (mkWorld (set_drawParams x (this w)) (fresh w) (trace w)).
Hypothesis I_configuration :
  forall x w, I w -> I (mkWorld (set_configuration x (this w)) (fresh w) (trace w)).
Hypothesis I_buffer :
  forall x w, I w -> I (mkWorld (set_buffer x (this w)) (fresh w) (trace w)).

Lemma stable_emit e : stable I (emit e).
Proof using I_record. intros w Hw. apply (I_record e), Hw. Qed.

Lemma stable_new_identity : stable I new_identity.
Proof using I_fresh. intros w Hw. apply I_fresh, Hw. Qed.

Lemma stable_vao_bind_with {A} (func : M A) :
  stable I func -> stable I (vao_bind_with func).
Proof using I_record.
  intros Hf. unfold vao_bind_with.
  apply stable_bind; [apply stable_get_this | intros o].
  apply stable_bind; [apply stable_emit | intros _].
  apply stable_bind; [exact Hf | intros r].
  apply stable_bind; [apply stable_get_this | intros o'].
  apply stable_bind; [apply stable_emit | intros _].
  apply stable_ret.
Qed.

Ltac stable_step :=
  lazymatch goal with
  | |- stable _ (mret _) => apply stable_ret
  | |- stable _ (throw _) => apply stable_throw
  | |- stable _ (lift _) => apply stable_lift
  | |- stable _ (assert _) => apply stable_assert
  | |- stable _ get_this => apply stable_get_this
  | |- stable _ new_identity => apply stable_new_identity
  | |- stable _ (emit _) => apply stable_emit
  | |- stable _ (when _ _) => apply stable_when
  | |- stable _ (vao_bind_with _) => apply stable_vao_bind_with
  | |- stable _ (for_each _ _) => apply stable_for_each; intros ? _
  | |- stable _ (for_locations _ _) => apply stable_for_each; intros ? _
  | |- stable _ (_ ≫= _) => apply stable_bind; [| intros ?]
  | |- stable _ (update _) => apply stable_update; intros ? ?; auto
  | |- stable _ (match ?x with _ => _ end) => destruct x
  | |- stable _ (let _ := _ in _) => cbv zeta
  end.

Lemma stable_clearDrawParams : stable I clearDrawParams.
Proof using I_drawParams. unfold clearDrawParams. repeat stable_step. Qed.

Lemma stable_setElementBuffer e a : stable I (setElementBuffer e a).
Proof using I_record I_elements I_drawParams.
  unfold setElementBuffer, clearDrawParams. repeat stable_step.
Qed.

Lemma stable_setElements e a : stable I (setElements e a).
Proof using I_record I_elements I_drawParams.
  unfold setElements. cbv zeta.
  apply stable_bind; [apply stable_emit | intros _; apply stable_setElementBuffer].
Qed.

Lemma stable_resolve k v a1 a2 : stable I (_resolveLocationAndAccessor k v a1 a2).
Proof using I_record I_unused.
  unfold _resolveLocationAndAccessor, _getAttributeIndex, _getAttributeInfo.
  repeat stable_step.
Qed.

Lemma stable_store l v a : stable I (store l v a).
Proof using I_values I_accessors. unfold store. repeat stable_step. Qed.

Lemma stable_setBuffer k b a : stable I (setBuffer k b a).
Proof using I_record I_elements I_values I_accessors I_unused I_drawParams.
  unfold setBuffer. cbv zeta.
  destruct (strict_eq _ _); [apply stable_setElements|].
  apply stable_bind; [apply stable_resolve | intros r].
  destruct (resolved_location r), (resolved_accessor r); try apply stable_ret.
  apply stable_when.
  apply stable_bind; [apply stable_store | intros _].
  apply stable_bind; [apply stable_clearDrawParams | intros _].
  repeat stable_step.
Qed.

Lemma stable_setConstant k v a : stable I (setConstant k v a).
Proof using I_record I_values I_accessors I_unused I_drawParams.
  unfold setConstant. cbv zeta.
  apply stable_bind; [apply stable_resolve | intros r].
  destruct (resolved_location r), (resolved_accessor r); try apply stable_ret.
  apply stable_when.
  apply stable_bind; [apply stable_get_this | intros o].
  apply stable_bind; [apply stable_store | intros _].
  apply stable_bind; [apply stable_clearDrawParams | intros _].
  repeat stable_step.
Qed.

Lemma stable_setAttribute entry : stable I (setAttribute entry).
Proof using I_record I_elements I_values I_accessors I_unused I_drawParams.
  destruct entry as [name v]. unfold setAttribute.
  destruct v as [| | | | | |?|[|[] ?]|];
    first [apply stable_throw | apply stable_setBuffer | apply stable_setConstant].
Qed.

Lemma stable_setAttributes attributes : stable I (setAttributes attributes).
Proof using I_record I_elements I_values I_accessors I_unused I_drawParams.
  unfold setAttributes. apply stable_vao_bind_with.
  apply stable_bind.
  - apply stable_for_each. intros e _. apply stable_setAttribute.
  - intros _. repeat stable_step.
Qed.

Lemma stable_setProps props : stable I (setProps props).
Proof using I_record I_elements I_values I_accessors I_unused I_drawParams
            I_configuration.
  unfold setProps.
  apply stable_bind; [destruct (props_program props); repeat stable_step | intros _].
  apply stable_bind; [destruct (props_configuration props); repeat stable_step | intros _].
  apply stable_bind;
    [destruct (props_attributes props);
     [apply stable_setAttributes | apply stable_ret] | intros _].
  apply stable_bind;
    [destruct (props_elements props);
     [apply stable_setElements | apply stable_ret] | intros _].
  destruct (props_bindOnUse props); cbv zeta; apply stable_ret.
Qed.

Lemma stable_new_Buffer size : stable I (new_Buffer size).
Proof using I_record I_fresh. unfold new_Buffer. repeat stable_step. Qed.

Lemma stable_unbindBuffers : stable I unbindBuffers.
Proof using I_record I_fresh I_buffer.
  unfold unbindBuffers. apply stable_vao_bind_with.
  apply stable_bind; [apply stable_get_this | intros o].
  apply stable_bind.
  - destruct (buffer o); [repeat stable_step|].
    apply stable_bind; [apply stable_new_Buffer | intros b]. repeat stable_step.
  - intros _. repeat stable_step.
Qed.

End Invariant.

Lemma initialize_unfold props w :
  initialize props w = setProps props (initialized w).
Proof. reflexivity. Qed.

(** C10 (setProps does not write bindOnUse): for every [props], with or
    without a [bindOnUse] key, [setProps] leaves the field [bindOnUse] as
    it was, whether it returns or throws; after [initialize] the field is
    [false]. *)
Theorem setProps_keeps_bindOnUse :
  (forall props w, bindOnUse (this (snd (setProps props w))) = bindOnUse (this w)) /\
  (forall props w, bindOnUse (this (snd (initialize props w))) = false).
Proof.
  assert (Hkeep : forall b props,
            stable (fun w => bindOnUse (this w) = b) (setProps props)).
  { intros b props. apply stable_setProps; intros x w Hw; exact Hw. }
  split.
  - intros props w. apply (Hkeep (bindOnUse (this w))). reflexivity.
  - intros props w. rewrite initialize_unfold. apply (Hkeep false). reflexivity.
Qed.

(** C7 (the delegate chosen by the constructor): for every context, the
    constructed object holds a vertex array object created by this very
    call (it carries the identity the counter stood at, its creation is
    recorded and the counter has moved on) when
    [VertexArrayObject.isSupported(gl)] is true, and the default array of
    the context otherwise. *)
Theorem constructor_delegate :
  forall gl0 opts fresh0 trace0,
    let w := snd (constructor gl0 opts fresh0 trace0) in
    (isSupported gl0 = true /\
     vertexArrayObject (this w) = newVertexArrayObject gl0 fresh0 /\
     In (EvNewVertexArrayObject gl0 fresh0) (trace w) /\
     fresh0 < fresh w) \/
    (isSupported gl0 = false /\
     vertexArrayObject (this w) = getDefaultArray gl0).
Proof.
  intros gl0 opts fresh0 trace0.
  assert (Hkeep : forall v t n,
    stable (fun w => vertexArrayObject (this w) = v /\
                     (exists t', trace w = t ++ t') /\ n <= fresh w)
           (setProps opts)).
  { intros v t n. apply stable_setProps; try (intros x w Hw; exact Hw).
    - intros e w (Hv & [t' Ht] & Hn). repeat split; auto.
      exists (t' ++ [e]). cbn. rewrite Ht. now rewrite <- app_assoc. }
  unfold constructor, constructor_vertexArrayObject.
  destruct (isSupported gl0) eqn:Hs; [left | right]; cbv zeta.
  - match goal with
    | |- context [(emit ?e ;; initialize opts) ?w0] =>
        change ((emit e ;; initialize opts) w0) with (initialize opts (record e w0))
    end.
    rewrite initialize_unfold.
    match goal with
    | |- context [setProps opts ?w1] =>
        destruct (Hkeep (newVertexArrayObject gl0 fresh0)
                    (trace0 ++ [EvNewVertexArrayObject gl0 fresh0]) (S fresh0) w1)
          as (Hv & [t' Ht] & Hn)
    end.
    { cbn. repeat split; auto. now exists [EvStubRemovedMethods]. }
    repeat split; auto.
    + rewrite Ht. apply in_or_app. left. apply in_or_app. right. now left.
  - match goal with
    | |- context [(emit ?e ;; initialize opts) ?w0] =>
        change ((emit e ;; initialize opts) w0) with (initialize opts (record e w0))
    end.
    rewrite initialize_unfold.
    match goal with
    | |- context [setProps opts ?w1] =>
        destruct (Hkeep (getDefaultArray gl0) trace0 fresh0 w1) as (Hv & _)
    end.
    { cbn. repeat split; auto. now exists [EvStubRemovedMethods]. }
    auto.
Qed.

(** [setBuffer] for an element buffer. *)
Lemma setBuffer_element_eq k b acc w :
  strict_eq (buffer_target b) GL_ELEMENT_ARRAY_BUFFER = true ->
  setBuffer k b acc w = (Normal tt, element_set b w).
Proof.
  intros Ht. unfold setBuffer. cbv zeta. rewrite Ht.
  unfold setElements, setElementBuffer, clearDrawParams, element_set, record.
  cbv [mbind M_bind mret M_ret when update emit get_this default_object].
  cbn [this fresh trace].
  destruct (isDefaultArray _); reflexivity.
Qed.

(** C8 (an element buffer given to setBuffer): for every buffer whose
    target is [GL.ELEMENT_ARRAY_BUFFER], whatever the location or name and
    the accessor, [setBuffer] returns, the buffer is the element buffer,
    the draw parameters are cleared, and the two arrays are as before. *)
Theorem setBuffer_element_buffer :
  forall locationOrName b optAccessor w,
    strict_eq (buffer_target b) GL_ELEMENT_ARRAY_BUFFER = true ->
    exists w',
      setBuffer locationOrName b optAccessor w = (Normal tt, w') /\
      elements (this w') = Some b /\
      drawParams (this w') = None /\
      values (this w') = values (this w) /\
      accessors (this w') = accessors (this w).
Proof.
  intros k b acc w Ht. exists (element_set b w).
  split; [apply setBuffer_element_eq, Ht|].
  unfold element_set. destruct (isDefaultArray _); cbn; auto.
Qed.

(** ** Resolving a location *)

Lemma getAttributeIndex_run k w :
  _getAttributeIndex k w = (Normal (attribute_index (this w) k), w).
Proof.
  unfold _getAttributeIndex, attribute_index, index_of.
  cbv [mbind M_bind mret M_ret get_this].
  destruct (configuration (this w)); [reflexivity|].
  cbv zeta. destruct (isFinite _); reflexivity.
Qed.

(** The three ways [_resolveLocationAndAccessor] ends: the value is set
    aside as unused, the assertion on the accessor fails, or the location
    and the accessor are returned. *)
Lemma resolve_run k v a1 a2 w :
  _resolveLocationAndAccessor k v a1 a2 w =
  if negb (Number_isFinite (attribute_index (this w) k)) then
    (Normal ResolvedThis, set_aside k v w)
  else if Number_isFinite (accessor_size (resolved_options (this w) k v a1 a2)) &&
          Number_isFinite (accessor_type (resolved_options (this w) k v a1 a2))
  then (Normal (Resolved (attribute_index (this w) k)
                         (resolved_options (this w) k v a1 a2)), w)
  else (Throws AssertionError, w).
Proof.
  unfold _resolveLocationAndAccessor.
  unfold mbind at 1. unfold M_bind at 1. rewrite getAttributeIndex_run.
  destruct (negb _); [reflexivity|].
  unfold _getAttributeInfo, resolved_options.
  cbv [mbind M_bind mret M_ret get_this assert throw].
  destruct (configuration (this w)) as [c|].
  - destruct (getAttributeInfo c k); cbv zeta;
      destruct (Number_isFinite _ && Number_isFinite _); reflexivity.
  - cbv zeta. destruct (Number_isFinite _ && Number_isFinite _); reflexivity.
Qed.

(** A finite field holds a number. *)
Lemma finite_field v : Number_isFinite v = true -> exists n, v = FNum n.
Proof. destruct v; [discriminate | eauto]. Qed.

(** [setBuffer] for a buffer that is not an element buffer, and
    [setConstant], outcome by outcome. *)
Lemma setBuffer_eq k b acc w :
  strict_eq (buffer_target b) GL_ELEMENT_ARRAY_BUFFER = false ->
  setBuffer k b acc w =
  let a := resolved_options (this w) k (JBuffer b) (buffer_accessor b)
             (default_object acc) in
  if negb (Number_isFinite (attribute_index (this w) k)) then
    (Normal tt, set_aside k (JBuffer b) w)
  else if Number_isFinite (accessor_size a) && Number_isFinite (accessor_type a) then
    match attribute_index (this w) k with
    | FNum location =>
        if ge location zero then
          (Normal tt,
           let w' := mkWorld (stored location (JBuffer b) a (this w)) (fresh w) (trace w) in
           if negb (isDefaultArray (vertexArrayObject (this w)))
           then record (EvVaoSetBuffer (vertexArrayObject (this w)) location b a) w'
           else w')
        else (Normal tt, w)
    | FUndefined => (Normal tt, w)
    end
  else (Throws AssertionError, w).
Proof.
  intros Ht. unfold setBuffer. cbv zeta. rewrite Ht.
  unfold mbind at 1. unfold M_bind at 1. rewrite resolve_run.
  destruct (negb _); [reflexivity|].
  destruct (Number_isFinite _ && Number_isFinite _); [|reflexivity].
  cbn [resolved_location resolved_accessor].
  destruct (attribute_index (this w) k) as [|n]; [reflexivity|].
  destruct (ge n zero); [|reflexivity].
  unfold store, clearDrawParams, stored, record.
  cbv [mbind M_bind mret M_ret when update emit get_this]. cbn [this fresh trace].
  destruct (isDefaultArray _); reflexivity.
Qed.

Lemma setConstant_eq k v acc w :
  setConstant k v acc w =
  let a := resolved_options (this w) k v emptyObject (default_object acc) in
  if negb (Number_isFinite (attribute_index (this w) k)) then
    (Normal tt, set_aside k v w)
  else if Number_isFinite (accessor_size a) && Number_isFinite (accessor_type a) then
    match attribute_index (this w) k with
    | FNum location =>
        if ge location zero then
          (Normal tt,
           let w' := mkWorld
                       (stored location
                          (_normalizeConstantArrayValue (vertexArrayObject (this w)) v a)
                          a (this w))
                       (fresh w) (trace w) in
           if negb (isDefaultArray (vertexArrayObject (this w)))
           then record (EvVaoEnable (vertexArrayObject (this w)) location false) w'
           else w')
        else (Normal tt, w)
    | FUndefined => (Normal tt, w)
    end
  else (Throws AssertionError, w).
Proof.
  unfold setConstant. cbv zeta.
  unfold mbind at 1. unfold M_bind at 1. rewrite resolve_run.
  destruct (negb _); [reflexivity|].
  destruct (Number_isFinite _ && Number_isFinite _); [|reflexivity].
  cbn [resolved_location resolved_accessor].
  destruct (attribute_index (this w) k) as [|n]; [reflexivity|].
  destruct (ge n zero); [|reflexivity].
  unfold store, clearDrawParams, stored, record.
  cbv [mbind M_bind mret M_ret when update emit get_this]. cbn [this fresh trace].
  destruct (isDefaultArray _); reflexivity.
Qed.

(** C6 (values that do not resolve are ignored): when the location or
    name does not resolve to a location [>= 0], [setConstant], and
    [setBuffer] for a buffer whose target is not
    [GL.ELEMENT_ARRAY_BUFFER], leave the values array, the accessors array
    and the draw parameters as they were, whether the call returns or the
    assertion on the accessor throws. *)
Theorem unresolved_is_ignored :
  forall locationOrName w,
    resolves (this w) locationOrName = false ->
    (forall b optAccessor,
        strict_eq (buffer_target b) GL_ELEMENT_ARRAY_BUFFER = false ->
        let o' := this (snd (setBuffer locationOrName b optAccessor w)) in
        values o' = values (this w) /\
        accessors o' = accessors (this w) /\
        drawParams o' = drawParams (this w)) /\
    (forall arrayValue optAccessor,
        let o' := this (snd (setConstant locationOrName arrayValue optAccessor w)) in
        values o' = values (this w) /\
        accessors o' = accessors (this w) /\
        drawParams o' = drawParams (this w)).
Proof.
  intros k w Hres. unfold resolves in Hres. split.
  - intros b acc Ht. cbv zeta. rewrite (setBuffer_eq _ _ _ _ Ht). cbv zeta.
    destruct (Number_isFinite (attribute_index (this w) k)) eqn:Hfin; cbn [negb].
    + destruct (finite_field _ Hfin) as [n Hn]. rewrite Hn in *.
      cbn [andb field_ge0] in Hres. rewrite Hres.
      destruct (Number_isFinite _ && Number_isFinite _); cbn; auto.
    + cbn. auto.
  - intros v acc. cbv zeta. rewrite setConstant_eq. cbv zeta.
    destruct (Number_isFinite (attribute_index (this w) k)) eqn:Hfin; cbn [negb].
    + destruct (finite_field _ Hfin) as [n Hn]. rewrite Hn in *.
      cbn [andb field_ge0] in Hres. rewrite Hres.
      destruct (Number_isFinite _ && Number_isFinite _); cbn; auto.
    + cbn. auto.
Qed.

(** ** The cache of draw parameters *)

Lemma updateAttributeZeroBuffer_run length w :
  _updateAttributeZeroBuffer length w = (Normal tt, zero_buffer w).
Proof.
  unfold _updateAttributeZeroBuffer, zero_buffer, new_Buffer.
  cbv [mbind M_bind mret M_ret update emit get_this new_identity].
  destruct (array_get _ _ _); try reflexivity.
  destruct (buffer (this w)); reflexivity.
Qed.

Lemma zero_buffer_keeps w :
  values (this (zero_buffer w)) = values (this w) /\
  accessors (this (zero_buffer w)) = accessors (this w) /\
  elements (this (zero_buffer w)) = elements (this w) /\
  drawParams (this (zero_buffer w)) = drawParams (this w) /\
  vertexArrayObject (this (zero_buffer w)) = vertexArrayObject (this w).
Proof.
  unfold zero_buffer. destruct (array_get _ _ _); auto.
  destruct (buffer (this w)); cbn; auto.
Qed.

(** [getDrawParams] returns the cached parameters, or computes and caches
    them; it throws only if [_updateDrawParams] does. *)
Lemma getDrawParams_eq requested w :
  getDrawParams requested w =
  match match drawParams (this w) with
        | Some dp => Normal dp
        | None => _updateDrawParams (this w)
        end with
  | Normal dp =>
      (Normal (Some dp),
       zero_buffer (mkWorld (set_drawParams (Some dp) (this w)) (fresh w) (trace w)))
  | Throws e => (Throws e, w)
  end.
Proof.
  unfold getDrawParams.
  cbv [mbind M_bind mret M_ret update get_this lift]. cbn [this fresh trace].
  destruct (drawParams (this w)) as [dp|].
  - rewrite updateAttributeZeroBuffer_run.
    now destruct (zero_buffer_keeps
                    (mkWorld (set_drawParams (Some dp) (this w)) (fresh w) (trace w)))
      as (_ & _ & _ & -> & _).
  - destruct (_updateDrawParams (this w)) as [dp|e]; [|reflexivity].
    rewrite updateAttributeZeroBuffer_run.
    now destruct (zero_buffer_keeps
                    (mkWorld (set_drawParams (Some dp) (this w)) (fresh w) (trace w)))
      as (_ & _ & _ & -> & _).
Qed.


(** ** The size of the table *)

Lemma list_store_length {A} (hole : A) (l : list A) i x :
  i < length l -> length (list_store hole l i x) = length l.
Proof.
  intros Hi. unfold list_store.
  destruct (Nat.ltb_spec i (length l)); [apply length_insert | lia].
Qed.

Lemma list_store_grows {A} (hole : A) (l : list A) i x :
  length l <= i -> length (list_store hole l i x) = S i.
Proof.
  intros Hi. unfold list_store.
  destruct (Nat.ltb_spec i (length l)); [lia|].
  rewrite !length_app, length_replicate. cbn. lia.
Qed.

Lemma array_set_grows {A} (hole : A) (a : jsarray A) k i x :
  array_index k = Some i -> array_length a <= i ->
  array_length (array_set hole a k x) = S i.
Proof.
  intros Hk Hi. unfold array_set, array_length in *. rewrite Hk. cbn [items].
  now apply list_store_grows.
Qed.

Lemma array_set_length {A} (hole : A) (a : jsarray A) k x :
  (forall i, array_index k = Some i -> i < array_length a) ->
  array_length (array_set hole a k x) = array_length a.
Proof.
  intros Hk. unfold array_set, array_length in *.
  destruct (array_index k) as [i|]; cbn [items]; [|reflexivity].
  apply list_store_length, Hk. reflexivity.
Qed.

Lemma array_index_of_Z z :
  (0 <= z < 4294967295)%Z -> array_index (of_Z z) = Some (Z.to_nat z).
Proof.
  intros Hz. unfold array_index, of_Z, inject_Z, Qred.
  pose proof (Z.ggcd_gcd z 1) as Hg. pose proof (Z.ggcd_correct_divisors z 1) as Hd.
  destruct (Z.ggcd z 1) as [g [q1 q2]]. cbn [fst snd] in *.
  rewrite Z.gcd_1_r in Hg. subst g. destruct Hd as [Hq1 Hq2].
  rewrite Z.mul_1_l in Hq1, Hq2. subst q1 q2. cbn [Qnum Qden Z.to_pos].
  destruct (Z.leb_spec 0 z); [|lia].
  destruct (Z.ltb_spec z 4294967295); [reflexivity | lia].
Qed.

Lemma setProps_unfold props w :
  setProps props w =
  (match props_attributes props with
   | Some attributes => setAttributes attributes
   | None => mret tt
   end;;
   match props_elements props with
   | Some e => setElements e JUndefined
   | None => mret tt
   end;;
   match props_bindOnUse props with
   | Some _ => mret tt
   | None => mret tt
   end) (configured props w).
Proof.
  unfold setProps, configured. cbv zeta.
  destruct (props_program props), (props_configuration props); reflexivity.
Qed.

Lemma configured_initialized props w :
  table_inv (props_final_configuration props) (vertexArrayObject (this w))
            (configured props (initialized w)).
Proof.
  unfold table_inv, fixed_size, configured, initialized, props_final_configuration,
    table_size.
  destruct (props_program props) as [[p|]|], (props_configuration props) as [c|];
    cbn; unfold array_length, array_fill; cbn [items];
    rewrite !length_replicate; auto.
Qed.

(** ** Minima *)

Lemma leq_refl a : isFinite a = true -> leq a a.
Proof. destruct a; try discriminate. intros _. apply Qle_refl. Qed.

Lemma leq_trans a b c : leq a b -> leq b c -> leq a c.
Proof.
  destruct a, b, c; cbn; try tauto. apply Qle_trans.
Qed.

Lemma Math_min_finite a b :
  isFinite a = true -> isFinite b = true ->
  (Math_min a b = a \/ Math_min a b = b) /\
  leq (Math_min a b) a /\ leq (Math_min a b) b.
Proof.
  destruct a as [x| | |], b as [y| | |]; try discriminate. intros _ _.
  cbn [Math_min lt]. destruct (Qle_bool x y) eqn:E; cbn [negb leq].
  - apply Qle_bool_iff in E. split; [now left|]. split; [apply Qle_refl | exact E].
  - split; [now right|]. split; [|apply Qle_refl].
    apply Qlt_le_weak, Qnot_le_lt. intros Hle. apply Qle_bool_iff in Hle. congruence.
Qed.

Lemma Math_min_PosInf b : isFinite b = true -> Math_min PosInf b = b.
Proof. destruct b; try discriminate. reflexivity. Qed.

Lemma running_min_finite l : forall m,
  isFinite m = true -> all_finite l ->
  isFinite (running_min m l) = true /\
  (running_min m l = m \/ In (running_min m l) l) /\
  leq (running_min m l) m /\
  (forall c, In c l -> leq (running_min m l) c).
Proof.
  induction l as [|c l IH]; intros m Hm Hl; cbn [running_min fold_left].
  - repeat split; auto using leq_refl. intros c [].
  - assert (isFinite c = true) as Hc by (apply Hl; now left).
    destruct (Math_min_finite m c Hm Hc) as (Hor & Hlm & Hlc).
    assert (isFinite (Math_min m c) = true) as Hmin by (destruct Hor as [-> | ->]; auto).
    destruct (IH (Math_min m c) Hmin) as (Hf & Hin & Hle & Hall).
    { intros x Hx. apply Hl. now right. }
    fold (running_min (Math_min m c) l).
    repeat split; auto.
    + destruct Hin as [E | Hin]; [|right; now right].
      rewrite E. destruct Hor as [-> | ->]; [now left | right; now left].
    + eapply leq_trans; eauto.
    + intros x [<- | Hx]; [eapply leq_trans; eauto | auto].
Qed.

(** From [Infinity], the running minimum of a non-empty list of finite
    numbers is finite and is the minimum of the list. *)
Lemma running_min_is_minimum l :
  l <> [] -> all_finite l ->
  isFinite (running_min PosInf l) = true /\ is_minimum (running_min PosInf l) l.
Proof.
  destruct l as [|c l]; [congruence|]. intros _ Hl.
  assert (isFinite c = true) as Hc by (apply Hl; now left).
  cbn [running_min fold_left]. rewrite (Math_min_PosInf c Hc).
  destruct (running_min_finite l c Hc) as (Hf & Hin & Hle & Hall).
  { intros x Hx. apply Hl. now right. }
  fold (running_min c l). split; [exact Hf|]. split.
  - destruct Hin as [-> | Hin]; [now left | now right].
  - intros x [<- | Hx]; auto.
Qed.

(** ** What [_updateDrawParams] computes *)

(** One location: the flag and the two minima move on. *)
Lemma updateDrawParamsForLocation_eq o dp location :
  (is_set o location -> array_get None (accessors o) location <> None) ->
  _updateDrawParamsForLocation o dp location =
  Normal (mkDrawParams (isIndexed dp)
            (isInstanced dp || instanced_at o location)
            (indexCount dp)
            (running_min (vertexCount dp) (omap (count_at o false) [location]))
            (running_min (instanceCount dp) (omap (count_at o true) [location]))
            (elementCount dp) (indexType dp)).
Proof.
  intros Hacc. unfold _updateDrawParamsForLocation, instanced_at, count_at, is_set in *.
  cbn [omap list_omap running_min].
  destruct (truthy (array_get JUndefined (values o) location)) eqn:Hset; cbn [negb andb].
  - destruct (array_get None (accessors o) location) as [a|]; [|now destruct Hacc].
    fold (instanced a). cbv zeta. cbn [isIndexed isInstanced indexCount vertexCount
      instanceCount elementCount indexType].
    destruct (array_get JUndefined (values o) location); try reflexivity.
    destruct (instanced a); reflexivity.
  - rewrite orb_false_r.
    destruct (array_get JUndefined (values o) location); try discriminate;
      destruct dp; reflexivity.
Qed.

Lemma updateDrawParams_loop_eq o locations : forall dp,
  (forall location, In location locations -> is_set o location ->
                    array_get None (accessors o) location <> None) ->
  updateDrawParams_loop o dp locations =
  Normal (mkDrawParams (isIndexed dp)
            (isInstanced dp || existsb (instanced_at o) locations)
            (indexCount dp)
            (running_min (vertexCount dp) (omap (count_at o false) locations))
            (running_min (instanceCount dp) (omap (count_at o true) locations))
            (elementCount dp) (indexType dp)).
Proof.
  induction locations as [|location rest IH]; intros dp Hacc.
  - cbn. rewrite orb_false_r. now destruct dp.
  - cbn [updateDrawParams_loop].
    rewrite updateDrawParamsForLocation_eq by (apply Hacc; now left).
    cbv [mbind outcome_bind]. rewrite IH by (intros l Hl; apply Hacc; now right).
    cbn [isIndexed isInstanced indexCount vertexCount instanceCount elementCount
         indexType existsb].
    rewrite orb_assoc. f_equal. unfold running_min.
    cbn [omap list_omap].
    destruct (count_at o false location), (count_at o true location); reflexivity.
Qed.

Lemma updateDrawParams_eq o :
  accessors_present o ->
  _updateDrawParams o =
  if isFinite (running_min PosInf (counts o false)) then
    Normal (mkDrawParams
              (match elements o with Some _ => true | None => false end)
              (existsb (instanced_at o) (seq 0 (table_size o)))
              zero
              (running_min PosInf (counts o false))
              (if strict_eq (running_min PosInf (counts o true)) PosInf
               then zero else running_min PosInf (counts o true))
              (match elements o with
               | Some e => Some (getElementCount e (buffer_accessor e))
               | None => None
               end)
              (match elements o with
               | Some e => Some (buffer_type e)
               | None => None
               end))
  else Throws AssertionError.
Proof.
  intros Hacc. unfold _updateDrawParams.
  rewrite updateDrawParams_loop_eq.
  2:{ intros location Hin. apply Hacc. apply in_seq in Hin. unfold table_size. lia. }
  cbv [mbind outcome_bind]. cbv zeta.
  fold (table_size o). fold (counts o false). fold (counts o true).
  cbn [initial_drawParams isIndexed isInstanced indexCount vertexCount instanceCount
       elementCount indexType orb].
  destruct (elements o);
    cbn [isIndexed isInstanced indexCount vertexCount instanceCount elementCount indexType];
    destruct (isFinite (running_min PosInf (counts o false))); try reflexivity;
    cbn [strict_eq];
    cbn [isIndexed isInstanced indexCount vertexCount instanceCount elementCount indexType];
    destruct (strict_eq (running_min PosInf (counts o true)) PosInf); reflexivity.
Qed.

Lemma count_in_counts o inst location c :
  location < table_size o -> count_at o inst location = Some c ->
  In c (counts o inst).
Proof.
  intros Hl Hc. unfold counts. apply list_elem_of_In, list_elem_of_omap.
  exists location. split; [|exact Hc]. apply list_elem_of_In, in_seq. lia.
Qed.

Lemma vertex_buffer_counts o : has_vertex_buffer o -> counts o false <> [].
Proof.
  intros (location & b & a & Hl & Hv & Ha & Hi) E.
  assert (In (getVertexCount b a) (counts o false)) as Hin.
  { apply (count_in_counts _ _ location); [exact Hl|].
    unfold count_at. now rewrite Hv, Ha, Hi. }
  rewrite E in Hin. destruct Hin.
Qed.

Lemma instanced_flag o :
  existsb (instanced_at o) (seq 0 (table_size o)) = true <-> some_instanced o.
Proof.
  unfold some_instanced, instanced_at, is_set. rewrite existsb_exists. split.
  - intros (location & Hin & Hb). apply in_seq in Hin.
    apply andb_prop in Hb as [Hset Hi].
    destruct (array_get None (accessors o) location) as [a|] eqn:Ha; [|discriminate].
    exists location, a. repeat split; auto. lia.
  - intros (location & a & Hl & Hset & Ha & Hi). exists location. split.
    + apply in_seq. lia.
    + now rewrite Hset, Ha.
Qed.

Lemma accessors_present_checked o :
  accessors_present_check o = true -> accessors_present o.
Proof.
  unfold accessors_present_check, accessors_present, is_set.
  rewrite forallb_forall. intros Hall location Hl Hset.
  specialize (Hall location). rewrite Hset in Hall.
  destruct (array_get None (accessors o) location); [discriminate|].
  cbn in Hall. assert (false = true) as E; [|discriminate E].
  apply Hall, in_seq. lia.
Qed.

Lemma all_finite_checked l : all_finite_check l = true -> all_finite l.
Proof. unfold all_finite_check, all_finite. now rewrite forallb_forall. Qed.

Lemma in_table_checked n locations :
  in_table_check n locations = true -> in_table n locations.
Proof.
  unfold in_table_check, in_table. rewrite forallb_forall.
  intros Hall location i Hin Hi. specialize (Hall location Hin).
  rewrite Hi in Hall. now apply Nat.ltb_lt.
Qed.

Lemma empty_cache_current o : drawParams o = None -> cache_current o.
Proof. intros E dp Hdp. rewrite E in Hdp. discriminate Hdp. Qed.

(** With a current cache, [getDrawParams] returns what
    [_updateDrawParams] computes. *)
Lemma getDrawParams_current requested w dp :
  cache_current (this w) ->
  _updateDrawParams (this w) = Normal dp ->
  getDrawParams requested w =
  (Normal (Some dp),
   zero_buffer (mkWorld (set_drawParams (Some dp) (this w)) (fresh w) (trace w))).
Proof.
  intros Hcache Hdp. rewrite getDrawParams_eq.
  destruct (drawParams (this w)) as [dp0|] eqn:E.
  - rewrite (Hcache dp0 E) in Hdp. now inversion Hdp.
  - now rewrite Hdp.
Qed.

(** C1 (the draw parameters inferred): in a state whose cache is empty or
    current, whose set attributes have accessors, and in which the table
    holds a buffer that is not instanced and the vertex counts of its
    buffers are finite, [getDrawParams] returns draw parameters such that
    [isInstanced] tells whether some set attribute of the table has a
    divisor [> 0], [vertexCount] is the minimum of the vertex counts of the
    buffers that are not instanced, [instanceCount] is the minimum over
    the instanced buffers or [0] if there are none, and [isIndexed] tells
    whether an element buffer is set, [indexType] being its type. *)
Theorem getDrawParams_infers :
  forall requested w,
    cache_current (this w) ->
    accessors_present (this w) ->
    has_vertex_buffer (this w) ->
    all_finite (counts (this w) false) ->
    all_finite (counts (this w) true) ->
    exists dp w',
      getDrawParams requested w = (Normal (Some dp), w') /\
      (isInstanced dp = true <-> some_instanced (this w)) /\
      is_minimum (vertexCount dp) (counts (this w) false) /\
      (counts (this w) true = [] -> instanceCount dp = zero) /\
      (counts (this w) true <> [] ->
       is_minimum (instanceCount dp) (counts (this w) true)) /\
      (isIndexed dp = true <-> elements (this w) <> None) /\
      (forall e, elements (this w) = Some e -> indexType dp = Some (buffer_type e)).
Proof.
  intros requested w Hcache Hacc Hbuf Hvert Hinst.
  destruct (running_min_is_minimum _ (vertex_buffer_counts _ Hbuf) Hvert) as [Hfin Hmin].
  pose proof (updateDrawParams_eq _ Hacc) as Hdp. rewrite Hfin in Hdp.
  eexists _, _. split; [apply (getDrawParams_current _ _ _ Hcache Hdp)|].
  cbn [isIndexed isInstanced indexCount vertexCount instanceCount elementCount indexType].
  split; [apply instanced_flag|]. split; [exact Hmin|].
  split; [|split; [|split]].
  - intros ->. reflexivity.
  - intros Hne. destruct (running_min_is_minimum _ Hne Hinst) as [Hfin' Hmin'].
    destruct (running_min PosInf (counts (this w) true)); try discriminate. exact Hmin'.
  - destruct (elements (this w)); split; congruence.
  - intros e ->. reflexivity.
Qed.

(** C3 (the assertion on the vertex count): in a state whose set
    attributes have accessors, if the table holds a buffer whose accessor
    is not instanced and the vertex counts of such buffers are finite,
    then the vertex count that [_updateDrawParams] asserts to be finite is
    finite, and [getDrawParams] returns. *)
Theorem getDrawParams_returns :
  forall requested w,
    accessors_present (this w) ->
    has_vertex_buffer (this w) ->
    all_finite (counts (this w) false) ->
    (exists dp, _updateDrawParams (this w) = Normal dp /\
                isFinite (vertexCount dp) = true) /\
    (exists dp w', getDrawParams requested w = (Normal (Some dp), w')).
Proof.
  intros requested w Hacc Hbuf Hvert.
  destruct (running_min_is_minimum _ (vertex_buffer_counts _ Hbuf) Hvert) as [Hfin Hmin].
  pose proof (updateDrawParams_eq _ Hacc) as Hdp. rewrite Hfin in Hdp.
  split.
  - eexists. split; [exact Hdp | exact Hfin].
  - rewrite getDrawParams_eq, Hdp.
    destruct (drawParams (this w)); eexists _, _; reflexivity.
Qed.

(** ** The cache after a mutation *)

Lemma running_min_NaN l : running_min NaN l = NaN.
Proof. induction l as [|c l IH]; [reflexivity | exact IH]. Qed.

Lemma running_min_NegInf l : isFinite (running_min NegInf l) = false.
Proof.
  induction l as [|c l IH]; [reflexivity|].
  cbn [running_min fold_left]. destruct c; cbn [Math_min lt]; try exact IH.
  fold (running_min NaN l). now rewrite running_min_NaN.
Qed.

(** A running minimum that is finite is the least of the start and the
    numbers of the list, whatever these are. *)
Lemma running_min_least l : forall start,
  start = PosInf \/ isFinite start = true ->
  isFinite (running_min start l) = true ->
  (running_min start l = start \/ In (running_min start l) l) /\
  leq (running_min start l) start /\
  (forall c, In c l -> leq (running_min start l) c).
Proof.
  induction l as [|c l IH]; intros start Hstart Hfin; cbn [running_min fold_left] in *.
  - split; [now left|]. split; [|intros c []].
    destruct start; try discriminate. apply Qle_refl.
  - fold (running_min (Math_min start c) l) in *.
    assert (Math_min start c <> NaN /\ Math_min start c <> NegInf) as [Hnan Hneg].
    { split; intros E; rewrite E in Hfin.
      - now rewrite running_min_NaN in Hfin.
      - now rewrite running_min_NegInf in Hfin. }
    assert ((Math_min start c = start \/ Math_min start c = c) /\
            (Math_min start c = PosInf \/ isFinite (Math_min start c) = true) /\
            (forall m, leq m (Math_min start c) -> leq m start /\ leq m c))
      as (Hor & Hstart' & Hle).
    { destruct Hstart as [-> | Hs].
      - destruct c as [y| | |]; cbn [Math_min lt] in *; try congruence.
        + split; [now right|]. split; [now right|].
          intros m Hm. split; [|exact Hm]. now destruct m.
        + split; [now left|]. split; [now left|]. intros m Hm. now split.
      - destruct start as [x| | |]; try discriminate.
        destruct c as [y| | |]; cbn [Math_min lt] in *; try congruence.
        + destruct (Qle_bool x y) eqn:E; cbn [negb].
          * apply Qle_bool_iff in E. split; [now left|]. split; [now right|].
            intros m Hm. split; [exact Hm|].
            apply (leq_trans m (Fin x) (Fin y)); [exact Hm | exact E].
          * split; [now right|]. split; [now right|].
            intros m Hm. split; [|exact Hm].
            apply (leq_trans m (Fin y) (Fin x)); [exact Hm|].
            apply Qlt_le_weak, Qnot_le_lt. intros Hxy.
            apply Qle_bool_iff in Hxy. congruence.
        + split; [now left|]. split; [now right|].
          intros m Hm. split; [exact Hm|]. now destruct m. }
    destruct (IH (Math_min start c) Hstart' Hfin) as (Hin & Hleq & Hall).
    destruct (Hle _ Hleq) as [Hls Hlc].
    split; [|split; [exact Hls|]].
    + destruct Hin as [E | Hin]; [|right; now right].
      rewrite E. destruct Hor as [-> | ->]; [now left | right; now left].
    + intros x [<- | Hx]; [exact Hlc | now apply Hall].
Qed.

Lemma running_min_finite_is_minimum l :
  isFinite (running_min PosInf l) = true -> is_minimum (running_min PosInf l) l.
Proof.
  intros Hfin.
  destruct (running_min_least l PosInf (or_introl eq_refl) Hfin) as (Hin & _ & Hall).
  split; [|exact Hall].
  destruct Hin as [E | Hin]; [|exact Hin]. rewrite E in Hfin. discriminate Hfin.
Qed.

(** When [_updateDrawParams] returns, no set attribute of the table
    lacked its accessor. *)
Lemma updateDrawParams_loop_present o locations : forall dp dp',
  updateDrawParams_loop o dp locations = Normal dp' ->
  forall location, In location locations -> is_set o location ->
                   array_get None (accessors o) location <> None.
Proof.
  induction locations as [|x rest IH]; intros dp dp' Hrun location Hin Hset;
    [destruct Hin|].
  cbn [updateDrawParams_loop] in Hrun. cbv [mbind outcome_bind] in Hrun.
  destruct (_updateDrawParamsForLocation o dp x) as [dp1|e] eqn:Hx; [|discriminate Hrun].
  destruct Hin as [<- | Hin]; [|now apply (IH dp1 dp')].
  unfold _updateDrawParamsForLocation, is_set in *. cbv zeta in Hx.
  rewrite Hset in Hx. cbn [negb] in Hx.
  destruct (array_get None (accessors o) x); [discriminate | discriminate Hx].
Qed.

Lemma updateDrawParams_present o dp :
  _updateDrawParams o = Normal dp -> accessors_present o.
Proof.
  intros Hrun location Hl. unfold _updateDrawParams in Hrun.
  cbv [mbind outcome_bind] in Hrun.
  destruct (updateDrawParams_loop o initial_drawParams
              (seq 0 (MAX_ATTRIBUTES (vertexArrayObject o)))) as [dp1|e] eqn:Hloop;
    [|discriminate Hrun].
  apply (updateDrawParams_loop_present _ _ _ _ Hloop). apply in_seq.
  unfold table_size in Hl. lia.
Qed.

(** C9 (every mutation clears the cache): after [setElementBuffer], and
    after a [setBuffer] or [setConstant] that returns having set the
    element buffer or stored at a location [>= 0], the draw parameters are
    [null], and the next [getDrawParams] computes them from the tables as
    they now are: it returns what [_updateDrawParams] yields on them, and
    the parameters it returns are cached, tell whether some set attribute
    of the table is instanced and whether an element buffer is set, and
    have as vertex count the minimum over the buffers of the table that
    are not instanced. *)
Theorem mutation_clears_drawParams :
  forall m w w',
    mutate m w = (Normal tt, w') ->
    writes_state (this w) m ->
    drawParams (this w') = None /\
    (forall requested,
        fst (getDrawParams requested w') =
          match _updateDrawParams (this w') with
          | Normal dp => Normal (Some dp)
          | Throws e => Throws e
          end) /\
    (forall requested dp w'',
        getDrawParams requested w' = (Normal (Some dp), w'') ->
        drawParams (this w'') = Some dp /\
        is_minimum (vertexCount dp) (counts (this w') false) /\
        (isInstanced dp = true <-> some_instanced (this w')) /\
        (isIndexed dp = true <-> elements (this w') <> None) /\
        (forall e, elements (this w') = Some e -> indexType dp = Some (buffer_type e))).
Proof.
  intros m w w' Hrun Hwrites.
  assert (Hnone : drawParams (this w') = None).
  { destruct m as [e a | k b a | k v a]; cbn [mutate writes_state] in *.
    - unfold setElementBuffer, clearDrawParams in Hrun.
      cbv [mbind M_bind mret M_ret when update emit get_this] in Hrun.
      cbn [this fresh trace] in Hrun.
      destruct (isDefaultArray _); cbn in Hrun; inversion Hrun; reflexivity.
    - destruct (strict_eq (buffer_target b) GL_ELEMENT_ARRAY_BUFFER) eqn:Ht.
      + rewrite (setBuffer_element_eq _ _ _ _ Ht) in Hrun. inversion Hrun.
        unfold element_set. destruct (isDefaultArray _); reflexivity.
      + destruct Hwrites as [Hw|Hw]; [discriminate|].
        rewrite (setBuffer_eq _ _ _ _ Ht) in Hrun. cbv zeta in Hrun.
        unfold resolves in Hw. apply andb_prop in Hw as [Hfin Hge].
        rewrite Hfin in Hrun. cbn [negb] in Hrun.
        destruct (Number_isFinite _ && Number_isFinite _); [|discriminate].
        destruct (attribute_index (this w) k) as [|n]; [discriminate|].
        cbn [field_ge0] in Hge. rewrite Hge in Hrun.
        destruct (isDefaultArray _); cbn in Hrun; inversion Hrun; reflexivity.
    - rewrite setConstant_eq in Hrun. cbv zeta in Hrun.
      unfold resolves in Hwrites. apply andb_prop in Hwrites as [Hfin Hge].
      rewrite Hfin in Hrun. cbn [negb] in Hrun.
      destruct (Number_isFinite _ && Number_isFinite _); [|discriminate].
      destruct (attribute_index (this w) k) as [|n]; [discriminate|].
      cbn [field_ge0] in Hge. rewrite Hge in Hrun.
      destruct (isDefaultArray _); cbn in Hrun; inversion Hrun; reflexivity. }
  split; [exact Hnone|]. split.
  - intros requested. rewrite getDrawParams_eq, Hnone.
    destruct (_updateDrawParams (this w')); reflexivity.
  - intros requested dp w'' Hget. rewrite getDrawParams_eq, Hnone in Hget.
    destruct (_updateDrawParams (this w')) as [dp0|e] eqn:Hdp; [|discriminate Hget].
    inversion Hget; subst dp0 w''. clear Hget.
    split.
    { now destruct (zero_buffer_keeps
                      (mkWorld (set_drawParams (Some dp) (this w')) (fresh w') (trace w')))
        as (_ & _ & _ & -> & _). }
    pose proof (updateDrawParams_present _ _ Hdp) as Hacc.
    rewrite (updateDrawParams_eq _ Hacc) in Hdp.
    destruct (isFinite (running_min PosInf (counts (this w') false))) eqn:Hfin;
      [|discriminate Hdp].
    inversion Hdp; subst dp. clear Hdp.
    cbn [isIndexed isInstanced vertexCount indexType].
    split; [now apply running_min_finite_is_minimum|].
    split; [apply instanced_flag|].
    split; [destruct (elements (this w')); split; congruence|].
    intros e ->. reflexivity.
Qed.

(** ** The loop of [setAttributes] *)


Lemma setAttributes_throws attributes e w w1 :
  for_each attributes setAttribute (entered w) = (Throws e, w1) ->
  setAttributes attributes w = (Throws e, w1).
Proof.
  intros E. unfold setAttributes, vao_bind_with.
  cbv [mbind M_bind mret M_ret get_this emit]. cbn [this fresh trace].
  change (mkWorld (this w) (fresh w) (trace w ++ [EvVaoEnter (vertexArrayObject (this w))]))
    with (entered w).
  now rewrite E.
Qed.

(** ** Computations that only record calls *)















(** [bindForUse] is its preparation, then the bind, [func], the unbind
    and the restoration. *)
Lemma bindForUse_eq {A} length (func : M A) w :
  bindForUse length func w =
  match bindForUse_prepare length w with
  | (Normal _, w1) =>
      match func (record (EvVaoBind (vertexArrayObject (this w1))) w1) with
      | (Normal v, w2) =>
          match bindForUse_restore
                  (record (EvVaoUnbind (vertexArrayObject (this w2))) w2) with
          | (Normal _, w3) => (Normal v, w3)
          | (Throws e, w3) => (Throws e, w3)
          end
      | (Throws e, w2) => (Throws e, w2)
      end
  | (Throws e, w1) => (Throws e, w1)
  end.
Proof.
  unfold bindForUse, bindForUse_prepare, bindForUse_restore, record.
  cbv [mbind M_bind mret M_ret get_this emit]. cbn [this fresh trace].
  destruct (when (Number_isFinite length) (_updateAttributeZeroBuffer length) w)
    as [[[]|e] wa]; [|reflexivity].
  destruct (_setConstantAttributes wa) as [[[]|e] wb]; [|reflexivity].
  destruct (when _ _ wb) as [[[]|e] wc]; [|reflexivity].
  destruct (func _) as [[v|e] wd]; [|reflexivity].
  destruct (when _ _ _) as [[[]|e] we]; reflexivity.
Qed.


(** A call that returns is determined by its result and the world it
    leaves. *)
Lemma returned {A} (m : M A) w a :
  fst (m w) = Normal a -> m w = (Normal a, snd (m w)).
Proof. intros E. rewrite <- E. apply surjective_pairing. Qed.

(** ** The states the methods keep to

    The side conditions of the theorems on draw parameters hold after the
    constructor and are kept by every method: the methods that write the
    tables store a value together with its accessor and clear the cache. *)

Lemma list_store_get_eq {A} (hole : A) (l : list A) i x :
  default hole (list_store hole l i x !! i) = x.
Proof.
  unfold list_store. destruct (Nat.ltb_spec i (length l)).
  - now rewrite list_lookup_insert_eq.
  - rewrite lookup_app_r by lia. rewrite lookup_app_r; rewrite length_replicate; [|lia].
    now replace (i - length l - (i - length l)) with 0 by lia.
Qed.

Lemma list_store_get_ne {A} (hole : A) (l : list A) i j x :
  i <> j -> default hole (list_store hole l i x !! j) = default hole (l !! j).
Proof.
  intros Hij. unfold list_store. destruct (Nat.ltb_spec i (length l)).
  - now rewrite list_lookup_insert_ne.
  - destruct (Nat.lt_ge_cases j (length l)) as [Hj|Hj].
    + now rewrite lookup_app_l.
    + rewrite (lookup_ge_None_2 l j) by lia. rewrite lookup_app_r by lia.
      destruct (Nat.lt_ge_cases (j - length l) (i - length l)) as [Hlt|Hge].
      * rewrite lookup_app_l by (rewrite length_replicate; lia).
        now rewrite lookup_replicate_2.
      * rewrite lookup_ge_None_2; [reflexivity|].
        rewrite length_app, length_replicate. cbn. lia.
Qed.

Lemma array_fill_not_set n location :
  truthy (array_get JUndefined (array_fill n (JNull : value)) location) = false.
Proof.
  unfold array_get, array_fill. cbn [items].
  destruct (_ !! location) as [x|] eqn:E; [|reflexivity].
  apply lookup_replicate in E as [-> _]. reflexivity.
Qed.

(** [_updateDrawParams] reads the two arrays, the element buffer and the
    delegate only. *)
Lemma updateDrawParams_ext o o' :
  values o' = values o -> accessors o' = accessors o ->
  elements o' = elements o -> vertexArrayObject o' = vertexArrayObject o ->
  _updateDrawParams o' = _updateDrawParams o.
Proof.
  intros Hv Ha He Hd.
  assert (forall dp location,
            _updateDrawParamsForLocation o' dp location =
            _updateDrawParamsForLocation o dp location) as Hstep.
  { intros dp location. unfold _updateDrawParamsForLocation. now rewrite Hv, Ha. }
  assert (forall l dp, updateDrawParams_loop o' dp l = updateDrawParams_loop o dp l)
    as Hloop.
  { induction l as [|location l IH]; intros dp; cbn [updateDrawParams_loop]; [reflexivity|].
    rewrite Hstep. cbv [mbind outcome_bind].
    destruct (_updateDrawParamsForLocation o dp location); [apply IH | reflexivity]. }
  unfold _updateDrawParams. now rewrite He, Hd, Hloop.
Qed.

Lemma consistent_ext o o' :
  values o' = values o -> accessors o' = accessors o ->
  elements o' = elements o -> vertexArrayObject o' = vertexArrayObject o ->
  drawParams o' = drawParams o ->
  consistent o -> consistent o'.
Proof.
  intros Hv Ha He Hd Hp [Hcache Hacc]. split.
  - intros dp E. rewrite (updateDrawParams_ext o o') by assumption.
    apply Hcache. now rewrite <- Hp.
  - intros location Hl Hset. unfold is_set, table_size in *.
    rewrite Hv in Hset. rewrite Ha. rewrite Hd in Hl. now apply Hacc.
Qed.

(** Clearing the cache keeps the state consistent whatever the element
    buffer has become. *)
Lemma consistent_cleared o o' :
  values o' = values o -> accessors o' = accessors o ->
  vertexArrayObject o' = vertexArrayObject o ->
  drawParams o' = None ->
  consistent o -> consistent o'.
Proof.
  intros Hv Ha Hd Hp [_ Hacc]. split.
  - apply empty_cache_current, Hp.
  - intros location Hl Hset. unfold is_set, table_size in *.
    rewrite Hv in Hset. rewrite Ha. rewrite Hd in Hl. now apply Hacc.
Qed.

Lemma consistent_stored o location v a :
  consistent o -> consistent (stored location v a o).
Proof.
  intros [_ Hacc]. split; [apply empty_cache_current; reflexivity|].
  intros j Hj Hset. unfold is_set, table_size, stored, array_get, array_set in *.
  cbn [values accessors vertexArrayObject set_drawParams set_accessors set_values] in *.
  destruct (array_index location) as [i|]; cbn [items] in *; [|now apply Hacc].
  destruct (Nat.eq_dec i j) as [<-|Hij].
  - now rewrite list_store_get_eq.
  - rewrite list_store_get_ne in Hset by assumption.
    rewrite list_store_get_ne by assumption. now apply Hacc.
Qed.

Lemma consistent_setElementBuffer e a : stable (on_object consistent) (setElementBuffer e a).
Proof.
  intros w Hw. unfold on_object, setElementBuffer, clearDrawParams.
  cbv [mbind M_bind mret M_ret when update emit get_this]. cbn [this fresh trace].
  destruct (negb (isDefaultArray _)); cbn [snd this];
    now apply (consistent_cleared (this w)).
Qed.

Lemma consistent_setElements e a : stable (on_object consistent) (setElements e a).
Proof.
  unfold setElements. cbv zeta. apply stable_bind; [|intros _].
  - apply stable_emit. intros x w Hw. exact Hw.
  - apply consistent_setElementBuffer.
Qed.

Lemma consistent_set_aside k v w :
  consistent (this w) -> consistent (this (set_aside k v w)).
Proof. intros Hw. now apply (consistent_ext (this w)). Qed.

Lemma consistent_setBuffer k b acc : stable (on_object consistent) (setBuffer k b acc).
Proof.
  destruct (strict_eq (buffer_target b) GL_ELEMENT_ARRAY_BUFFER) eqn:Ht.
  { unfold setBuffer. cbv zeta. rewrite Ht. apply consistent_setElements. }
  intros w Hw. unfold on_object in *. rewrite (setBuffer_eq _ _ _ _ Ht). cbv zeta.
  destruct (negb _); [apply consistent_set_aside, Hw|].
  destruct (Number_isFinite _ && Number_isFinite _); [|exact Hw].
  destruct (attribute_index (this w) k) as [|n]; [exact Hw|].
  destruct (ge n zero); [|exact Hw].
  cbn [snd]. destruct (negb (isDefaultArray _)); cbn [this record];
    apply consistent_stored, Hw.
Qed.

Lemma consistent_setConstant k v acc : stable (on_object consistent) (setConstant k v acc).
Proof.
  intros w Hw. unfold on_object in *. rewrite setConstant_eq. cbv zeta.
  destruct (negb _); [apply consistent_set_aside, Hw|].
  destruct (Number_isFinite _ && Number_isFinite _); [|exact Hw].
  destruct (attribute_index (this w) k) as [|n]; [exact Hw|].
  destruct (ge n zero); [|exact Hw].
  cbn [snd]. destruct (negb (isDefaultArray _)); cbn [this record];
    apply consistent_stored, Hw.
Qed.

Lemma consistent_setAttributes attributes :
  stable (on_object consistent) (setAttributes attributes).
Proof.
  unfold setAttributes. apply stable_vao_bind_with; [intros e w Hw; exact Hw|].
  apply stable_bind.
  - apply stable_for_each. intros [name x] _. unfold setAttribute.
    destruct x as [| | | | | |?|[|[] ?]|];
      first [apply stable_throw | apply consistent_setBuffer | apply consistent_setConstant].
  - intros _. apply stable_bind; [apply stable_get_this | intros o].
    apply stable_emit. intros e w Hw. exact Hw.
Qed.

Lemma consistent_setProps props : stable (on_object consistent) (setProps props).
Proof.
  intros w Hw. rewrite setProps_unfold.
  assert (on_object consistent (configured props w)) as Hc.
  { unfold on_object, configured.
    destruct (props_program props), (props_configuration props);
      cbn [this]; try exact Hw; now apply (consistent_ext (this w)). }
  revert Hc. generalize (configured props w). clear w Hw.
  change (stable (on_object consistent)
            (match props_attributes props with
             | Some attributes => setAttributes attributes
             | None => mret tt
             end;;
             match props_elements props with
             | Some e => setElements e JUndefined
             | None => mret tt
             end;;
             match props_bindOnUse props with
             | Some _ => mret tt
             | None => mret tt
             end)).
  apply stable_bind.
  - destruct (props_attributes props); [apply consistent_setAttributes | apply stable_ret].
  - intros _. apply stable_bind.
    + destruct (props_elements props); [apply consistent_setElements | apply stable_ret].
    + intros _. destruct (props_bindOnUse props); apply stable_ret.
Qed.

Lemma consistent_initialized w : consistent (this (initialized w)).
Proof.
  split; [apply empty_cache_current; reflexivity|].
  intros location _ Hset. unfold is_set, initialized in Hset.
  cbn [this values set_bindOnUse set_configuration set_drawParams set_unused
       set_accessors set_values] in Hset.
  now rewrite array_fill_not_set in Hset.
Qed.

Lemma consistent_getDrawParams requested :
  stable (on_object consistent) (getDrawParams requested).
Proof.
  intros w Hw. unfold on_object in *. rewrite getDrawParams_eq.
  destruct (match drawParams (this w) with
            | Some dp => Normal dp
            | None => _updateDrawParams (this w)
            end) as [dp|e] eqn:E; [|exact Hw].
  cbn [snd].
  destruct (zero_buffer_keeps
              (mkWorld (set_drawParams (Some dp) (this w)) (fresh w) (trace w)))
    as (Hv & Ha & He & Hp & Hd).
  cbn [this values accessors elements drawParams vertexArrayObject set_drawParams] in *.
  assert (_updateDrawParams (this w) = Normal dp) as Hdp.
  { destruct (drawParams (this w)) as [dp0|] eqn:E0; [|exact E].
    inversion E; subst dp0. now apply (proj1 Hw). }
  split.
  - intros dp' E'. rewrite Hp in E'. inversion E'; subst dp'.
    now rewrite (updateDrawParams_ext (this w)).
  - intros location Hl Hset. unfold is_set, table_size in *.
    rewrite Hv in Hset. rewrite Ha. rewrite Hd in Hl. now apply (proj2 Hw).
Qed.

(** X1 (the state stays consistent): the constructor leaves a state in
    which the cached draw parameters, if any, are the ones
    [_updateDrawParams] computes and every set attribute of the table has
    its accessor; every method keeps such a state, whether it returns or
    throws. *)
Theorem consistent_states :
  (forall gl0 opts fresh0 trace0,
      consistent (this (snd (constructor gl0 opts fresh0 trace0)))) /\
  (forall c w, consistent (this w) -> consistent (this (snd (call c w)))).
Proof.
  split.
  - intros gl0 opts fresh0 trace0. unfold constructor.
    destruct (constructor_vertexArrayObject gl0 fresh0 trace0) as [[v f] t].
    match goal with
    | |- context [(emit ?e ;; initialize opts) ?w0] =>
        change ((emit e ;; initialize opts) w0) with (initialize opts (record e w0))
    end.
    rewrite initialize_unfold. apply consistent_setProps, consistent_initialized.
  - intros c w Hw. destruct c; cbn [call].
    + unfold reset. cbv [mbind M_bind mret M_ret update get_this]. cbn [snd this fresh trace].
      split; [apply empty_cache_current; reflexivity|].
      intros location _ Hset. unfold is_set in Hset. cbn in Hset.
      now rewrite array_fill_not_set in Hset.
    + rewrite initialize_unfold. apply consistent_setProps, consistent_initialized.
    + now apply consistent_setProps.
    + now apply (consistent_cleared (this w)).
    + assert (stable (on_object consistent) (getDrawParams requested;; mret tt)) as Hs.
      { apply stable_bind; [apply consistent_getDrawParams | intros _; apply stable_ret]. }
      now apply Hs.
    + now apply consistent_setAttributes.
    + now apply consistent_setElementBuffer.
    + now apply consistent_setElements.
    + now apply consistent_setBuffer.
    + now apply consistent_setConstant.
    + assert (stable (on_object consistent) unbindBuffers) as Hs.
      { apply stable_unbindBuffers.
        - intros e w' Hw'. exact Hw'.
        - intros w' Hw'. exact Hw'.
        - intros x w' Hw'. now apply (consistent_ext (this w')). }
      now apply Hs.
    + assert (stable (on_object consistent) bindBuffers) as Hs.
      { unfold bindBuffers. apply stable_vao_bind_with; [intros e w' Hw'; exact Hw'|].
        apply stable_bind; [apply stable_get_this | intros o].
        apply stable_for_each. intros location _.
        apply stable_bind; [apply stable_get_this | intros o'].
        destruct (array_get _ _ _); try apply stable_ret. apply consistent_setBuffer. }
      now apply Hs.
Qed.


Lemma threw {A} (m : M A) w e :
  fst (m w) = Throws e -> m w = (Throws e, snd (m w)).
Proof. intros E. rewrite <- E. apply surjective_pairing. Qed.
(** * Further properties *)

(** ** What a store leaves in the arrays *)

Lemma list_store_length_max {A} (hole : A) (l : list A) i x :
  length (list_store hole l i x) = Nat.max (length l) (S i).
Proof.
  unfold list_store. destruct (Nat.ltb_spec i (length l)).
  - rewrite length_insert. lia.
  - rewrite !length_app, length_replicate. cbn. lia.
Qed.

Lemma list_store_gap {A} (hole : A) (l : list A) i j x :
  length l <= j -> j < i -> default hole (list_store hole l i x !! j) = hole.
Proof.
  intros Hj Hji. rewrite list_store_get_ne by lia.
  now rewrite lookup_ge_None_2.
Qed.

(** An array index is a finite number that is not negative. *)
Lemma array_index_ge0 n i :
  array_index n = Some i -> isFinite n = true /\ ge n zero = true.
Proof.
  destruct n as [q| | |]; try discriminate. cbn [array_index]. cbv zeta.
  destruct (_ && _ && _) eqn:E; [|discriminate]. intros _.
  split; [reflexivity|].
  apply andb_prop in E as [E _]. apply andb_prop in E as [_ E].
  apply Z.leb_le in E.
  assert (0 <= q)%Q as Hq.
  { rewrite <- (Qred_correct q). unfold Qle. cbn. lia. }
  unfold ge, le, lt, strict_eq, zero, of_Z.
  destruct (Qle_bool q (inject_Z 0)) eqn:Hle; [|reflexivity].
  apply Qle_bool_iff in Hle. cbn [negb orb].
  apply Qeq_bool_iff. now apply Qle_antisym.
Qed.

(** The arrays of the object in which a value has been stored. *)
Lemma stored_get_eq o location i v a :
  array_index location = Some i ->
  array_get JUndefined (values (stored location v a o)) i = v /\
  array_get None (accessors (stored location v a o)) i = Some a.
Proof.
  intros Hi. unfold stored, array_get, array_set. cbn. rewrite Hi. cbn [items].
  now rewrite !list_store_get_eq.
Qed.

Lemma stored_get_ne o location i j v a :
  array_index location = Some i -> j <> i ->
  array_get JUndefined (values (stored location v a o)) j =
    array_get JUndefined (values o) j /\
  array_get None (accessors (stored location v a o)) j =
    array_get None (accessors o) j.
Proof.
  intros Hi Hj. unfold stored, array_get, array_set. cbn. rewrite Hi. cbn [items].
  rewrite !list_store_get_ne by lia. split; reflexivity.
Qed.

(** What a [setBuffer] or [setConstant] that returns after resolving its
    location has done to the object. *)
Lemma setBuffer_stores k b acc w w' location i :
  strict_eq (buffer_target b) GL_ELEMENT_ARRAY_BUFFER = false ->
  setBuffer k b acc w = (Normal tt, w') ->
  attribute_index (this w) k = FNum location ->
  array_index location = Some i \/ (isFinite location = true /\ ge location zero = true) ->
  this w' = stored location (JBuffer b)
              (resolved_options (this w) k (JBuffer b) (buffer_accessor b)
                 (default_object acc)) (this w).
Proof.
  intros Ht Hrun Hloc Hi.
  assert (isFinite location = true /\ ge location zero = true) as [Hfin Hge].
  { destruct Hi as [Hi|Hi]; [now apply (array_index_ge0 _ i) | exact Hi]. }
  rewrite (setBuffer_eq _ _ _ _ Ht) in Hrun. cbv zeta in Hrun.
  rewrite Hloc in Hrun. cbn [Number_isFinite] in Hrun. rewrite Hfin, Hge in Hrun.
  cbn [negb] in Hrun.
  destruct (Number_isFinite _ && Number_isFinite _); [|discriminate].
  destruct (negb (isDefaultArray _)); inversion Hrun; reflexivity.
Qed.

Lemma setConstant_stores k v acc w w' location i :
  setConstant k v acc w = (Normal tt, w') ->
  attribute_index (this w) k = FNum location ->
  array_index location = Some i \/ (isFinite location = true /\ ge location zero = true) ->
  let a := resolved_options (this w) k v emptyObject (default_object acc) in
  this w' = stored location
              (_normalizeConstantArrayValue (vertexArrayObject (this w)) v a) a (this w).
Proof.
  intros Hrun Hloc Hi a.
  assert (isFinite location = true /\ ge location zero = true) as [Hfin Hge].
  { destruct Hi as [Hi|Hi]; [now apply (array_index_ge0 _ i) | exact Hi]. }
  rewrite setConstant_eq in Hrun. cbv zeta in Hrun.
  rewrite Hloc in Hrun. cbn [Number_isFinite] in Hrun. rewrite Hfin, Hge in Hrun.
  cbn [negb] in Hrun. fold a in Hrun.
  destruct (Number_isFinite _ && Number_isFinite _); [|discriminate].
  destruct (negb (isDefaultArray _)); inversion Hrun; reflexivity.
Qed.

(** X4 (what is stored is read back): when [setBuffer], for a buffer that
    is not an element buffer, or [setConstant] returns after resolving its
    location to the array index [i], element [i] of the values array is
    the buffer (the normalized constant) and element [i] of the accessors
    array is the accessor that was resolved; every other element of both
    arrays, and the element buffer, are as before. *)
Theorem stored_value_is_read_back :
  (forall k b acc w w' location i,
      strict_eq (buffer_target b) GL_ELEMENT_ARRAY_BUFFER = false ->
      setBuffer k b acc w = (Normal tt, w') ->
      attribute_index (this w) k = FNum location ->
      array_index location = Some i ->
      array_get JUndefined (values (this w')) i = JBuffer b /\
      array_get None (accessors (this w')) i =
        Some (resolved_options (this w) k (JBuffer b) (buffer_accessor b)
                (default_object acc)) /\
      elements (this w') = elements (this w) /\
      (forall j, j <> i ->
         array_get JUndefined (values (this w')) j =
           array_get JUndefined (values (this w)) j /\
         array_get None (accessors (this w')) j =
           array_get None (accessors (this w)) j)) /\
  (forall k v acc w w' location i,
      setConstant k v acc w = (Normal tt, w') ->
      attribute_index (this w) k = FNum location ->
      array_index location = Some i ->
      let a := resolved_options (this w) k v emptyObject (default_object acc) in
      array_get JUndefined (values (this w')) i =
        _normalizeConstantArrayValue (vertexArrayObject (this w)) v a /\
      array_get None (accessors (this w')) i = Some a /\
      elements (this w') = elements (this w) /\
      (forall j, j <> i ->
         array_get JUndefined (values (this w')) j =
           array_get JUndefined (values (this w)) j /\
         array_get None (accessors (this w')) j =
           array_get None (accessors (this w)) j)).
Proof.
  split.
  - intros k b acc w w' location i Ht Hrun Hloc Hi.
    rewrite (setBuffer_stores _ _ _ _ _ _ i Ht Hrun Hloc (or_introl Hi)).
    destruct (stored_get_eq (this w) location i (JBuffer b)
                (resolved_options (this w) k (JBuffer b) (buffer_accessor b)
                   (default_object acc)) Hi) as [Hv Ha].
    split; [exact Hv|]. split; [exact Ha|]. split; [reflexivity|].
    intros j Hj. now apply (stored_get_ne _ _ i).
  - intros k v acc w w' location i Hrun Hloc Hi a.
    rewrite (setConstant_stores _ _ _ _ _ _ i Hrun Hloc (or_introl Hi)). fold a.
    destruct (stored_get_eq (this w) location i
                (_normalizeConstantArrayValue (vertexArrayObject (this w)) v a) a Hi)
      as [Hv Ha].
    split; [exact Hv|]. split; [exact Ha|]. split; [reflexivity|].
    intros j Hj. now apply (stored_get_ne _ _ i).
Qed.

(** X5 (a store past the end grows the arrays): when [setBuffer], for a
    buffer that is not an element buffer, returns after resolving its
    location to an array index [i] at or past the end of both arrays,
    both arrays have [i + 1] elements afterwards, and the elements between
    the old end and [i] are holes: no attribute is set there. *)
Theorem store_past_the_end_grows :
  forall k b acc w w' location i,
    strict_eq (buffer_target b) GL_ELEMENT_ARRAY_BUFFER = false ->
    setBuffer k b acc w = (Normal tt, w') ->
    attribute_index (this w) k = FNum location ->
    array_index location = Some i ->
    array_length (values (this w)) <= i ->
    array_length (accessors (this w)) <= i ->
    array_length (values (this w')) = S i /\
    array_length (accessors (this w')) = S i /\
    (forall j, array_length (values (this w)) <= j -> j < i -> ~ is_set (this w') j).
Proof.
  intros k b acc w w' location i Ht Hrun Hloc Hi Hv Ha.
  rewrite (setBuffer_stores _ _ _ _ _ _ i Ht Hrun Hloc (or_introl Hi)).
  unfold stored. cbn [values accessors set_drawParams set_accessors set_values].
  split; [now apply array_set_grows|]. split; [now apply array_set_grows|].
  intros j Hj Hji. unfold is_set, array_get, array_set.
  cbn [values set_drawParams set_accessors set_values]. rewrite Hi. cbn [items].
  rewrite list_store_gap by assumption. discriminate.
Qed.

(** X6 (a location that is not an array index): when [setBuffer], for a
    buffer that is not an element buffer, returns after resolving its
    location to a number [>= 0] that is not an array index (a fraction,
    say), the buffer and its accessor are written to a property of each
    array and no element of either array changes; the draw parameters are
    cleared all the same. *)
Theorem store_outside_the_indices :
  forall k b acc w w' location,
    strict_eq (buffer_target b) GL_ELEMENT_ARRAY_BUFFER = false ->
    setBuffer k b acc w = (Normal tt, w') ->
    attribute_index (this w) k = FNum location ->
    isFinite location = true -> ge location zero = true ->
    array_index location = None ->
    items (values (this w')) = items (values (this w)) /\
    items (accessors (this w')) = items (accessors (this w)) /\
    props (values (this w')) = (location, JBuffer b) :: props (values (this w)) /\
    props (accessors (this w')) =
      (location, Some (resolved_options (this w) k (JBuffer b) (buffer_accessor b)
                         (default_object acc))) :: props (accessors (this w)) /\
    drawParams (this w') = None.
Proof.
  intros k b acc w w' location Ht Hrun Hloc Hfin Hge Hi.
  rewrite (setBuffer_stores _ _ _ _ _ _ 0 Ht Hrun Hloc (or_intror (conj Hfin Hge))).
  unfold stored, array_set. cbn. rewrite Hi. cbn. repeat split.
Qed.

(** ** The cache of [getDrawParams] *)

Lemma set_drawParams_same o : set_drawParams (drawParams o) o = o.
Proof. now destruct o. Qed.

Lemma set_buffer_same o : set_buffer (buffer o) o = o.
Proof. now destruct o. Qed.

Lemma world_eta w : mkWorld (this w) (fresh w) (trace w) = w.
Proof. now destruct w. Qed.

(** Once [_updateAttributeZeroBuffer] has run, running it again changes
    nothing. *)
Lemma zero_buffer_again w : zero_buffer (zero_buffer w) = zero_buffer w.
Proof.
  unfold zero_buffer at 1.
  destruct (zero_buffer_keeps w) as (Hv & _). rewrite Hv.
  destruct (array_get JUndefined (values (this w)) 0) eqn:E; try reflexivity.
  unfold zero_buffer. rewrite E.
  destruct (buffer (this w)) as [b|]; cbn [this fresh trace buffer set_buffer];
    f_equal; now destruct (this w).
Qed.

(** X7 (no vertex buffer, no draw parameters): in a state whose set
    attributes have accessors and whose cache is empty, if the table holds
    no buffer with an accessor that is not instanced, [getDrawParams]
    throws the assertion error and leaves the object, the cache included,
    as it was. *)
Theorem getDrawParams_without_vertex_buffer :
  forall requested w,
    accessors_present (this w) ->
    drawParams (this w) = None ->
    counts (this w) false = [] ->
    getDrawParams requested w = (Throws AssertionError, w).
Proof.
  intros requested w Hacc Hnone Hcounts.
  rewrite getDrawParams_eq, Hnone, (updateDrawParams_eq _ Hacc), Hcounts.
  reflexivity.
Qed.

(** X8 (the draw parameters are cached): when [getDrawParams] has returned
    draw parameters, they are the cached ones, and a second call, whatever
    its argument, returns the same parameters and changes nothing: no
    field is written, no call is made, no buffer is created. *)
Theorem getDrawParams_twice :
  forall requested requested' w dp w',
    getDrawParams requested w = (Normal (Some dp), w') ->
    drawParams (this w') = Some dp /\
    getDrawParams requested' w' = (Normal (Some dp), w').
Proof.
  intros requested requested' w dp w' Hrun.
  rewrite getDrawParams_eq in Hrun.
  destruct (match drawParams (this w) with
            | Some d => Normal d
            | None => _updateDrawParams (this w)
            end) as [d|e]; [|discriminate].
  inversion Hrun; subst d. clear Hrun.
  set (w1 := mkWorld (set_drawParams (Some dp) (this w)) (fresh w) (trace w)) in *.
  subst w'.
  assert (drawParams (this (zero_buffer w1)) = Some dp) as Hdp.
  { now destruct (zero_buffer_keeps w1) as (_ & _ & _ & -> & _). }
  split; [exact Hdp|].
  rewrite getDrawParams_eq, Hdp.
  assert (set_drawParams (Some dp) (this (zero_buffer w1)) = this (zero_buffer w1)) as ->.
  { rewrite <- Hdp. apply set_drawParams_same. }
  now rewrite world_eta, zero_buffer_again.
Qed.

(** X9 (arguments that are not used): the vertex count given to
    [getDrawParams] has no effect, and neither has the length given to
    [bindForUse] as long as it is finite: [_updateAttributeZeroBuffer]
    does not read its parameter. *)
Theorem arguments_are_not_used :
  (forall requested requested' w,
      getDrawParams requested w = getDrawParams requested' w) /\
  (forall A length length' (func : M A) w,
      Number_isFinite length = true -> Number_isFinite length' = true ->
      bindForUse length func w = bindForUse length' func w).
Proof.
  split.
  - intros requested requested' w. now rewrite !getDrawParams_eq.
  - intros A length length' func w Hl Hl'.
    rewrite !bindForUse_eq. unfold bindForUse_prepare. now rewrite Hl, Hl'.
Qed.

(** ** Errors in [bindForUse] *)

(** X10 (no unbinding after an error): if the steps of [bindForUse] before
    the bind throw, [func] is not run; if [func] throws, [bindForUse]
    throws the same error and stops in the world [func] left: the vertex
    array object is not unbound and the buffers are not unbound. *)
Theorem bindForUse_stops_at_an_error :
  forall A length (func : M A) w,
    (forall e w1,
        bindForUse_prepare length w = (Throws e, w1) ->
        bindForUse length func w = (Throws e, w1)) /\
    (forall e w1 w2,
        bindForUse_prepare length w = (Normal tt, w1) ->
        func (record (EvVaoBind (vertexArrayObject (this w1))) w1) = (Throws e, w2) ->
        bindForUse length func w = (Throws e, w2)).
Proof.
  intros A length func w. split.
  - intros e w1 Hprepare. now rewrite bindForUse_eq, Hprepare.
  - intros e w1 w2 Hprepare Hfunc. now rewrite bindForUse_eq, Hprepare, Hfunc.
Qed.

(** ** Loops that only make calls *)

Lemma for_each_emits {A} (l : list A) (body : A -> M unit)
    (calls : VertexArray -> A -> list event) :
  (forall x w,
      body x w = (Normal tt, mkWorld (this w) (fresh w) (trace w ++ calls (this w) x))) ->
  forall w,
    for_each l body w =
    (Normal tt, mkWorld (this w) (fresh w) (trace w ++ flat_map (calls (this w)) l)).
Proof.
  intros Hbody. induction l as [|x l IH]; intros w; cbn [for_each flat_map].
  - cbv [mret M_ret]. now rewrite app_nil_r, world_eta.
  - unfold mbind, M_bind. rewrite Hbody, IH. cbn [this fresh trace].
    now rewrite app_assoc.
Qed.

Lemma setConstantAttributes_eq w :
  _setConstantAttributes w =
    (Normal tt, mkWorld (this w) (fresh w) (trace w ++ constant_calls (this w))).
Proof.
  unfold _setConstantAttributes, for_locations, constant_calls, table_size.
  unfold mbind at 1. unfold M_bind at 1. cbv [get_this].
  apply (for_each_emits _ _ constant_calls_at). intros location w0.
  unfold constant_calls_at. cbv [mbind M_bind mret M_ret get_this emit].
  cbn [this fresh trace].
  destruct (array_get JUndefined (values (this w0)) location);
    try (now rewrite app_nil_r, world_eta).
  now rewrite <- app_assoc.
Qed.

(** X11 (which constants are set on the context): when
    [_setConstantAttributes] returns, it has written no field, and the
    calls it has made are, location by location in increasing order,
    [enable(location, false)] followed by
    [VertexArrayObject.setConstant(gl, location, constant)], for exactly
    the locations of the table whose value is a typed array. *)
Theorem setConstantAttributes_calls :
  forall w w',
    _setConstantAttributes w = (Normal tt, w') ->
    this w' = this w /\
    trace w' = trace w ++ constant_calls (this w) /\
    (forall g location c,
        In (EvVaoSetConstant g location c) (constant_calls (this w)) <->
        g = gl (this w) /\ location < table_size (this w) /\
        array_get JUndefined (values (this w)) location = c /\
        exists view, c = JView view).
Proof.
  intros w w' Hrun. rewrite setConstantAttributes_eq in Hrun.
  inversion Hrun; subst w'. cbn [this trace].
  split; [reflexivity|]. split; [reflexivity|].
  - intros g location c. unfold constant_calls. rewrite in_flat_map. split.
    + intros (x & Hx & Hin). apply in_seq in Hx. unfold constant_calls_at in Hin.
      destruct (array_get JUndefined (values (this w)) x) eqn:E;
        try (now destruct Hin).
      destruct Hin as [Hin | [Hin | []]]; [discriminate|].
      inversion Hin; subst. repeat split; eauto. lia.
    + intros (-> & Hl & Hc & view & ->). exists location. split.
      * apply in_seq. lia.
      * unfold constant_calls_at. rewrite Hc. right. now left.
Qed.

Lemma with_buffer_keeps size w :
  values (this (with_buffer size w)) = values (this w) /\
  accessors (this (with_buffer size w)) = accessors (this w) /\
  elements (this (with_buffer size w)) = elements (this w) /\
  drawParams (this (with_buffer size w)) = drawParams (this w) /\
  configuration (this (with_buffer size w)) = configuration (this w) /\
  vertexArrayObject (this (with_buffer size w)) = vertexArrayObject (this w) /\
  gl (this (with_buffer size w)) = gl (this w).
Proof. unfold with_buffer. destruct (buffer (this w)); cbn; repeat split. Qed.

Lemma unbindBuffers_eq w :
  unbindBuffers w =
  (Normal tt,
   let w1 := with_buffer (of_Z 4) (entered w) in
   record (EvVaoLeave (vertexArrayObject (this w)))
     (mkWorld (this w1) (fresh w1) (trace w1 ++ unbind_calls (this w1)))).
Proof.
  unfold unbindBuffers, vao_bind_with.
  assert (forall w0,
    for_locations (MAX_ATTRIBUTES (vertexArrayObject (this w0)))
      (fun location =>
         o ← get_this;
         match array_get JUndefined (values o) location with
         | JBuffer _ =>
             emit (EvDisableVertexAttribArray (gl o) location);;
             emit (EvBindBuffer (gl o) GL_ARRAY_BUFFER (buffer o));;
             emit (EvVertexAttribPointer (gl o) location (of_Z 1) GL_FLOAT false
                     zero zero)
         | _ => mret tt
         end) w0 =
    (Normal tt, mkWorld (this w0) (fresh w0) (trace w0 ++ unbind_calls (this w0))))
    as Hloop.
  { intros w0. unfold for_locations, unbind_calls, table_size.
    apply (for_each_emits _ _ unbind_calls_at). intros location w2.
    unfold unbind_calls_at. cbv [mbind M_bind mret M_ret get_this emit].
    cbn [this fresh trace].
    destruct (array_get JUndefined (values (this w2)) location);
      try (now rewrite app_nil_r, world_eta).
    now rewrite <- !app_assoc. }
  cbv zeta. unfold with_buffer, entered, record, new_Buffer.
  cbv [mbind M_bind mret M_ret get_this emit update new_identity].
  cbn [this fresh trace].
  destruct (buffer (this w)) as [b|].
  - rewrite Hloop. cbn [this fresh trace vertexArrayObject set_buffer]. reflexivity.
  - rewrite Hloop. cbn [this fresh trace vertexArrayObject set_buffer]. reflexivity.
Qed.

Lemma unbind_calls_create_nothing o e :
  In e (unbind_calls o) -> creates_buffer e = false.
Proof.
  unfold unbind_calls. rewrite in_flat_map. intros (x & _ & Hin).
  unfold unbind_calls_at in Hin.
  destruct (array_get JUndefined (values o) x); try (now destruct Hin).
  destruct Hin as [<- | [<- | [<- | []]]]; reflexivity.
Qed.

(** X12 (unbinding the buffers): when [unbindBuffers] returns, the two
    arrays, the element buffer, the draw parameters and the configuration
    are as they were.  The dummy buffer is created only when the object
    has none, and reused otherwise: with a buffer, the field is the same
    afterwards, no identity is drawn and no creation is recorded.  The
    attribute is disabled and pointed to the dummy buffer for exactly the
    locations of the table whose value is a buffer. *)
Theorem unbindBuffers_effect :
  forall w w',
    unbindBuffers w = (Normal tt, w') ->
    let vao := vertexArrayObject (this w) in
    (values (this w') = values (this w) /\
     accessors (this w') = accessors (this w) /\
     elements (this w') = elements (this w) /\
     drawParams (this w') = drawParams (this w) /\
     configuration (this w') = configuration (this w)) /\
    match buffer (this w) with
    | Some b =>
        buffer (this w') = Some b /\ fresh w' = fresh w /\
        trace w' = trace w ++ EvVaoEnter vao :: unbind_calls (this w') ++ [EvVaoLeave vao]
    | None =>
        buffer (this w') = Some (newBuffer (gl (this w)) (of_Z 4) (fresh w)) /\
        fresh w' = S (fresh w) /\
        trace w' = trace w ++ EvVaoEnter vao :: EvNewBuffer (gl (this w)) (of_Z 4) (fresh w)
                           :: unbind_calls (this w') ++ [EvVaoLeave vao]
    end /\
    (forall e, In e (unbind_calls (this w')) -> creates_buffer e = false) /\
    (forall g location,
        In (EvDisableVertexAttribArray g location) (unbind_calls (this w')) <->
        g = gl (this w) /\ location < table_size (this w) /\
        exists b, array_get JUndefined (values (this w)) location = JBuffer b).
Proof.
  intros w w' Hrun vao. subst vao. rewrite unbindBuffers_eq in Hrun. cbv zeta in Hrun.
  inversion Hrun; subst w'. clear Hrun.
  destruct (with_buffer_keeps (of_Z 4) (entered w)) as (Hv & Ha & He & Hd & Hc & Hvao & Hgl).
  cbn [this record entered] in *.
  split; [now rewrite Hv, Ha, He, Hd, Hc|].
  split.
  { unfold with_buffer, entered, record. cbn [this fresh trace].
    destruct (buffer (this w)) as [b|]; cbn [this fresh trace buffer set_buffer];
      repeat split; rewrite <- !app_assoc; reflexivity. }
  split; [intros e; apply unbind_calls_create_nothing|].
  intros g location. unfold unbind_calls, table_size. rewrite Hvao, in_flat_map. split.
  - intros (x & Hx & Hin). apply in_seq in Hx. unfold unbind_calls_at in Hin.
    rewrite Hv, Hgl in Hin.
    destruct (array_get JUndefined (values (this w)) x) eqn:E; try (now destruct Hin).
    destruct Hin as [Hin | [Hin | [Hin | []]]]; try discriminate.
    inversion Hin; subst. repeat split; eauto. lia.
  - intros (-> & Hl & b & Hb). exists location. split.
    + apply in_seq. lia.
    + unfold unbind_calls_at. rewrite Hv, Hgl, Hb. now left.
Qed.

(** ** The configuration against which names are resolved *)

Lemma configuration_kept_by_rest c props :
  stable (fun w => configuration (this w) = c)
    (match props_attributes props with
     | Some attributes => setAttributes attributes
     | None => mret tt
     end;;
     match props_elements props with
     | Some e => setElements e JUndefined
     | None => mret tt
     end;;
     match props_bindOnUse props with
     | Some _ => mret tt
     | None => mret tt
     end).
Proof.
  apply stable_bind.
  - destruct (props_attributes props); [|apply stable_ret].
    apply stable_setAttributes; intros x w Hw; exact Hw.
  - intros _. apply stable_bind.
    + destruct (props_elements props); [|apply stable_ret].
      apply stable_setElements; intros x w Hw; exact Hw.
    + intros _. destruct (props_bindOnUse props); apply stable_ret.
Qed.

(** X13 (which configuration wins): whether it returns or throws,
    [setProps] leaves the configuration given under the key
    [configuration] if there is one, else the configuration of the
    program given under [program] if there is one ([null] for a null
    program), else the configuration the object had; handling the
    attributes and the elements does not change it.  [initialize] starts
    from no configuration. *)
Theorem setProps_configuration :
  (forall props w,
      configuration (this (snd (setProps props w))) =
      props_configuration_over (configuration (this w)) props) /\
  (forall props w,
      configuration (this (snd (initialize props w))) =
      props_configuration_over None props).
Proof.
  assert (forall props w,
             configuration (this (snd (setProps props w))) =
             props_configuration_over (configuration (this w)) props) as Hset.
  { intros props w. rewrite setProps_unfold.
    apply (configuration_kept_by_rest _ props (configured props w)).
    unfold configured, props_configuration_over.
    destruct (props_program props) as [[p|]|], (props_configuration props); reflexivity. }
  split; [exact Hset|].
  intros props w. rewrite initialize_unfold, Hset. reflexivity.
Qed.

(** ** Values that are set aside *)

(** X14 (values set aside as unused): when the configuration gives a
    location that is not a finite number, [setBuffer] (for a buffer that
    is not an element buffer) and [setConstant] return without evaluating
    the assertion on the accessor: the value is put under its name in
    [unused], the fact is logged, and nothing else changes.  Without a
    configuration this never happens: a name that is not a number has
    location [-1], and the call writes nothing to [unused]. *)
Theorem unresolved_values_are_set_aside :
  (forall k b acc w,
      strict_eq (buffer_target b) GL_ELEMENT_ARRAY_BUFFER = false ->
      Number_isFinite (attribute_index (this w) k) = false ->
      setBuffer k b acc w = (Normal tt, set_aside k (JBuffer b) w)) /\
  (forall k v acc w,
      Number_isFinite (attribute_index (this w) k) = false ->
      setConstant k v acc w = (Normal tt, set_aside k v w)) /\
  (forall k w,
      configuration (this w) = None ->
      Number_isFinite (attribute_index (this w) k) = true /\
      (isFinite (Number_of_key k) = false ->
       attribute_index (this w) k = FNum (of_Z (-1))) /\
      (forall b acc,
          strict_eq (buffer_target b) GL_ELEMENT_ARRAY_BUFFER = false ->
          unused (this (snd (setBuffer k b acc w))) = unused (this w)) /\
      (forall v acc, unused (this (snd (setConstant k v acc w))) = unused (this w))).
Proof.
  split; [|split].
  - intros k b acc w Ht Hfin. rewrite (setBuffer_eq _ _ _ _ Ht). cbv zeta.
    now rewrite Hfin.
  - intros k v acc w Hfin. rewrite setConstant_eq. cbv zeta. now rewrite Hfin.
  - intros k w Hc.
    assert (Number_isFinite (attribute_index (this w) k) = true) as Hfin.
    { unfold attribute_index, index_of. rewrite Hc. cbv zeta.
      destruct (isFinite (Number_of_key k)) eqn:E; [exact E | reflexivity]. }
    split; [exact Hfin|]. split.
    { intros E. unfold attribute_index, index_of. rewrite Hc. cbv zeta. now rewrite E. }
    split.
    + intros b acc Ht. rewrite (setBuffer_eq _ _ _ _ Ht). cbv zeta. rewrite Hfin.
      cbn [negb].
      destruct (Number_isFinite _ && Number_isFinite _); [|reflexivity].
      destruct (attribute_index (this w) k) as [|n]; [reflexivity|].
      destruct (ge n zero); [|reflexivity].
      cbn [snd]. destruct (negb (isDefaultArray _)); reflexivity.
    + intros v acc. rewrite setConstant_eq. cbv zeta. rewrite Hfin. cbn [negb].
      destruct (Number_isFinite _ && Number_isFinite _); [|reflexivity].
      destruct (attribute_index (this w) k) as [|n]; [reflexivity|].
      destruct (ge n zero); [|reflexivity].
      cbn [snd]. destruct (negb (isDefaultArray _)); reflexivity.
Qed.

(** ** The calls around [setAttributes] *)

Lemma loop_keeps_delegate attributes v g t :
  stable (fun w => vertexArrayObject (this w) = v /\ gl (this w) = g /\
                   exists t', trace w = t ++ t')
         (for_each attributes setAttribute).
Proof.
  apply stable_for_each. intros e _. apply stable_setAttribute;
    try (intros x w Hw; exact Hw).
  intros e' w (Hv & Hg & [t' Ht]). repeat split; auto.
  exists (t' ++ [e']). cbn. rewrite Ht. now rewrite <- app_assoc.
Qed.

(** X15 (no binding is left behind): when [setAttributes] returns, the
    calls it has made start with the bind of the vertex array object and
    end with [gl.bindBuffer(GL.ARRAY_BUFFER, null)] followed by the
    unbind.  When an entry throws, [setAttributes] throws the same error
    in the world the loop left: neither of the two closing calls is
    made. *)
Theorem setAttributes_closing_calls :
  forall attributes w,
    (forall w', setAttributes attributes w = (Normal tt, w') ->
       exists t,
         trace w' =
         trace w ++ EvVaoEnter (vertexArrayObject (this w)) :: t ++
           [EvBindBuffer (gl (this w)) GL_ARRAY_BUFFER None;
            EvVaoLeave (vertexArrayObject (this w))]) /\
    (forall e w1,
        for_each attributes setAttribute (entered w) = (Throws e, w1) ->
        setAttributes attributes w = (Throws e, w1)).
Proof.
  intros attributes w. split; [|intros e w1; apply setAttributes_throws].
  intros w' Hrun.
  pose proof (loop_keeps_delegate attributes (vertexArrayObject (this w)) (gl (this w))
                (trace (entered w)) (entered w)) as Hkeep.
  unfold setAttributes, vao_bind_with in Hrun.
  cbv [mbind M_bind mret M_ret get_this emit] in Hrun. cbn [this fresh trace] in Hrun.
  change (mkWorld (this w) (fresh w) (trace w ++ [EvVaoEnter (vertexArrayObject (this w))]))
    with (entered w) in Hrun.
  destruct (for_each attributes setAttribute (entered w)) as [[[]|e] w1];
    [|discriminate].
  destruct Hkeep as (Hv & Hg & [t Ht]).
  { repeat split. exists []. now rewrite app_nil_r. }
  cbn [snd] in *. inversion Hrun. cbn [trace this]. rewrite Hv, Hg, Ht.
  exists t. cbn [entered record trace]. rewrite <- !app_assoc. reflexivity.
Qed.

(** ** Invariants that every method keeps

    A property of the object that depends on the two arrays, the element
    buffer, the delegate and the cache only, that a store keeps, that
    clearing the cache keeps and that caching what [_updateDrawParams]
    computes keeps, is kept by every method, [bindForUse] included when
    the function it runs keeps it. *)

Section Kept.
Context (P : VertexArray -> Prop).
Hypothesis P_ext :
  forall o o',
    values o' = values o -> accessors o' = accessors o ->
    elements o' = elements o -> vertexArrayObject o' = vertexArrayObject o ->
    drawParams o' = drawParams o -> P o -> P o'.
Hypothesis P_cleared :
  forall o o',
    values o' = values o -> accessors o' = accessors o ->
    vertexArrayObject o' = vertexArrayObject o -> drawParams o' = None ->
    P o -> P o'.
Hypothesis P_stored : forall o location v a, P o -> P (stored location v a o).
Hypothesis P_cached :
  forall o dp,
    P o ->
    match drawParams o with
    | Some d => Normal d
    | None => _updateDrawParams o
    end = Normal dp ->
    P (set_drawParams (Some dp) o).

Lemma kept_record e : stable (on_object P) (emit e).
Proof using Type. intros w Hw. exact Hw. Qed.

Lemma kept_setElementBuffer e a : stable (on_object P) (setElementBuffer e a).
Proof using P_cleared.
  intros w Hw. unfold on_object, setElementBuffer, clearDrawParams.
  cbv [mbind M_bind mret M_ret when update emit get_this]. cbn [this fresh trace].
  destruct (negb (isDefaultArray _)); cbn [snd this];
    now apply (P_cleared (this w)).
Qed.

Lemma kept_setElements e a : stable (on_object P) (setElements e a).
Proof using P_cleared.
  unfold setElements. cbv zeta.
  apply stable_bind; [apply kept_record | intros _; apply kept_setElementBuffer].
Qed.

Lemma kept_set_aside k v w : P (this w) -> P (this (set_aside k v w)).
Proof using P_ext. intros Hw. now apply (P_ext (this w)). Qed.

Lemma kept_setBuffer k b acc : stable (on_object P) (setBuffer k b acc).
Proof using P_ext P_cleared P_stored.
  destruct (strict_eq (buffer_target b) GL_ELEMENT_ARRAY_BUFFER) eqn:Ht.
  { unfold setBuffer. cbv zeta. rewrite Ht. apply kept_setElements. }
  intros w Hw. unfold on_object in *. rewrite (setBuffer_eq _ _ _ _ Ht). cbv zeta.
  destruct (negb _); [apply kept_set_aside, Hw|].
  destruct (Number_isFinite _ && Number_isFinite _); [|exact Hw].
  destruct (attribute_index (this w) k) as [|n]; [exact Hw|].
  destruct (ge n zero); [|exact Hw].
  cbn [snd]. destruct (negb (isDefaultArray _)); cbn [this record];
    apply P_stored, Hw.
Qed.

Lemma kept_setConstant k v acc : stable (on_object P) (setConstant k v acc).
Proof using P_ext P_stored.
  intros w Hw. unfold on_object in *. rewrite setConstant_eq. cbv zeta.
  destruct (negb _); [apply kept_set_aside, Hw|].
  destruct (Number_isFinite _ && Number_isFinite _); [|exact Hw].
  destruct (attribute_index (this w) k) as [|n]; [exact Hw|].
  destruct (ge n zero); [|exact Hw].
  cbn [snd]. destruct (negb (isDefaultArray _)); cbn [this record];
    apply P_stored, Hw.
Qed.

Lemma kept_setAttributes attributes : stable (on_object P) (setAttributes attributes).
Proof using P_ext P_cleared P_stored.
  unfold setAttributes. apply stable_vao_bind_with; [intros e w Hw; exact Hw|].
  apply stable_bind.
  - apply stable_for_each. intros [name x] _. unfold setAttribute.
    destruct x as [| | | | | |?|[|[] ?]|];
      first [apply stable_throw | apply kept_setBuffer | apply kept_setConstant].
  - intros _. apply stable_bind; [apply stable_get_this | intros o].
    apply kept_record.
Qed.

Lemma kept_setProps props : stable (on_object P) (setProps props).
Proof using P_ext P_cleared P_stored.
  intros w Hw. rewrite setProps_unfold.
  assert (on_object P (configured props w)) as Hc.
  { unfold on_object, configured.
    destruct (props_program props), (props_configuration props);
      cbn [this]; try exact Hw; now apply (P_ext (this w)). }
  revert Hc. generalize (configured props w). clear w Hw.
  change (stable (on_object P)
            (match props_attributes props with
             | Some attributes => setAttributes attributes
             | None => mret tt
             end;;
             match props_elements props with
             | Some e => setElements e JUndefined
             | None => mret tt
             end;;
             match props_bindOnUse props with
             | Some _ => mret tt
             | None => mret tt
             end)).
  apply stable_bind.
  - destruct (props_attributes props); [apply kept_setAttributes | apply stable_ret].
  - intros _. apply stable_bind.
    + destruct (props_elements props); [apply kept_setElements | apply stable_ret].
    + intros _. destruct (props_bindOnUse props); apply stable_ret.
Qed.

Lemma kept_zero_buffer w : P (this w) -> P (this (zero_buffer w)).
Proof using P_ext.
  intros Hw. destruct (zero_buffer_keeps w) as (Hv & Ha & He & Hp & Hd).
  now apply (P_ext (this w)).
Qed.

Lemma kept_getDrawParams requested : stable (on_object P) (getDrawParams requested).
Proof using P_ext P_cached.
  intros w Hw. unfold on_object in *. rewrite getDrawParams_eq.
  destruct (match drawParams (this w) with
            | Some dp => Normal dp
            | None => _updateDrawParams (this w)
            end) as [dp|e] eqn:E; [|exact Hw].
  cbn [snd]. apply kept_zero_buffer. cbn [this]. now apply P_cached.
Qed.

Lemma kept_unbindBuffers : stable (on_object P) unbindBuffers.
Proof using P_ext.
  intros w Hw. unfold on_object in *. rewrite unbindBuffers_eq. cbv zeta.
  cbn [snd this record].
  destruct (with_buffer_keeps (of_Z 4) (entered w)) as (Hv & Ha & He & Hd & _ & Hvao & _).
  now apply (P_ext (this w)).
Qed.

Lemma kept_bindBuffers : stable (on_object P) bindBuffers.
Proof using P_ext P_cleared P_stored.
  unfold bindBuffers. apply stable_vao_bind_with; [intros e w Hw; exact Hw|].
  apply stable_bind; [apply stable_get_this | intros o].
  apply stable_for_each. intros location _.
  apply stable_bind; [apply stable_get_this | intros o'].
  destruct (array_get _ _ _); try apply stable_ret. apply kept_setBuffer.
Qed.

Lemma kept_prepare length : stable (on_object P) (bindForUse_prepare length).
Proof using P_ext P_cleared P_stored.
  unfold bindForUse_prepare.
  apply stable_bind; [|intros _].
  { apply stable_when. intros w Hw. rewrite updateAttributeZeroBuffer_run.
    now apply kept_zero_buffer. }
  apply stable_bind; [|intros _].
  { intros w Hw. rewrite setConstantAttributes_eq. exact Hw. }
  apply stable_bind; [apply stable_get_this | intros o].
  apply stable_when.
  apply stable_bind; [apply stable_get_this | intros o'].
  apply stable_bind; [|intros _; apply kept_bindBuffers].
  destruct (elements o'); [apply kept_setElementBuffer | apply stable_ret].
Qed.

Lemma kept_bindForUse {A} length (func : M A) :
  stable (on_object P) func -> stable (on_object P) (bindForUse length func).
Proof using P_ext P_cleared P_stored.
  intros Hfunc w Hw. rewrite bindForUse_eq.
  pose proof (kept_prepare length w Hw) as H1.
  destruct (bindForUse_prepare length w) as [[[]|e] w1]; cbn [snd] in *; [|exact H1].
  pose proof (Hfunc (record (EvVaoBind (vertexArrayObject (this w1))) w1) H1) as H2.
  destruct (func _) as [[v|e] w2]; cbn [snd] in *; [|exact H2].
  assert (stable (on_object P) bindForUse_restore) as Hrestore.
  { unfold bindForUse_restore.
    apply stable_bind; [apply stable_get_this | intros o].
    apply stable_when, kept_unbindBuffers. }
  pose proof (Hrestore (record (EvVaoUnbind (vertexArrayObject (this w2))) w2) H2) as H3.
  destruct (bindForUse_restore _) as [[[]|e] w3]; exact H3.
Qed.

(** The object that [reset] leaves, and so the one that [initialize] and
    the constructor start from. *)
Hypothesis P_reset :
  forall o o',
    vertexArrayObject o' = vertexArrayObject o ->
    values o' = array_fill (table_size o) JNull ->
    accessors o' = array_fill (table_size o) None ->
    elements o' = None -> drawParams o' = None -> P o'.

Lemma kept_call c : stable (on_object P) (call c).
Proof using P_ext P_cleared P_stored P_cached P_reset.
  intros w Hw. unfold on_object in *. destruct c; cbn [call].
  - apply (P_reset (this w)); reflexivity.
  - rewrite initialize_unfold. apply kept_setProps.
    apply (P_reset (this w)); reflexivity.
  - now apply kept_setProps.
  - now apply (P_cleared (this w)).
  - assert (stable (on_object P) (getDrawParams requested;; mret tt)) as Hs.
    { apply stable_bind; [apply kept_getDrawParams | intros _; apply stable_ret]. }
    now apply Hs.
  - now apply kept_setAttributes.
  - now apply kept_setElementBuffer.
  - now apply kept_setElements.
  - now apply kept_setBuffer.
  - now apply kept_setConstant.
  - now apply kept_unbindBuffers.
  - now apply kept_bindBuffers.
Qed.

Lemma kept_constructor gl0 opts fresh0 trace0 :
  P (this (snd (constructor gl0 opts fresh0 trace0))).
Proof using P_ext P_cleared P_stored P_reset.
  unfold constructor.
  destruct (constructor_vertexArrayObject gl0 fresh0 trace0) as [[v f] t].
  match goal with
  | |- context [(emit ?e ;; initialize opts) ?w0] =>
      change ((emit e ;; initialize opts) w0) with (initialize opts (record e w0));
      rewrite initialize_unfold; apply kept_setProps;
      apply (P_reset (this (record e w0))); reflexivity
  end.
Qed.
End Kept.

(** ** The arrays cover the table *)

Lemma covers_table_stored o location v a :
  covers_table o -> covers_table (stored location v a o).
Proof.
  intros [Hlen Hmax]. unfold covers_table, stored, table_size, array_length, array_set in *.
  cbn [values accessors vertexArrayObject set_drawParams set_accessors set_values].
  destruct (array_index location) as [i|]; cbn [items]; [|split; assumption].
  rewrite !list_store_length_max. rewrite <- Hlen. split; [reflexivity|].
  etransitivity; [exact Hmax | apply Nat.le_max_l].
Qed.

(** X2 (the arrays never fall short of the table): after the constructor,
    and after every method whether it returns or throws, the values array
    and the accessors array have the same length, and it is at least
    [MAX_ATTRIBUTES]; so the loops over the locations of the table always
    read elements of the arrays.  [bindForUse] keeps this too when the
    function it runs does. *)
Theorem arrays_cover_the_table :
  (forall gl0 opts fresh0 trace0,
      covers_table (this (snd (constructor gl0 opts fresh0 trace0)))) /\
  (forall c w, covers_table (this w) -> covers_table (this (snd (call c w)))) /\
  (forall A length (func : M A) w,
      stable (on_object covers_table) func ->
      covers_table (this w) ->
      covers_table (this (snd (bindForUse length func w)))).
Proof.
  assert (Hext : forall o o',
             values o' = values o -> accessors o' = accessors o ->
             vertexArrayObject o' = vertexArrayObject o ->
             covers_table o -> covers_table o').
  { intros o o' Hv Ha Hd. unfold covers_table, table_size. now rewrite Hv, Ha, Hd. }
  assert (Hreset : forall o o',
             vertexArrayObject o' = vertexArrayObject o ->
             values o' = array_fill (table_size o) JNull ->
             accessors o' = array_fill (table_size o) None ->
             elements o' = None -> drawParams o' = None -> covers_table o').
  { intros o o' Hd Hv Ha _ _. unfold covers_table, table_size, array_length.
    rewrite Hv, Ha, Hd. unfold array_fill, table_size. cbn [items].
    rewrite !length_replicate. split; reflexivity. }
  pose (Hext5 := fun o o' Hv Ha (_ : elements o' = elements o) Hd
                     (_ : drawParams o' = drawParams o) => Hext o o' Hv Ha Hd).
  pose (Hext4 := fun o o' Hv Ha Hd (_ : drawParams o' = None) => Hext o o' Hv Ha Hd).
  split; [|split].
  - intros gl0 opts fresh0 trace0.
    exact (kept_constructor covers_table Hext5 Hext4 covers_table_stored Hreset
             gl0 opts fresh0 trace0).
  - intros c w Hw.
    refine (kept_call covers_table Hext5 Hext4 covers_table_stored _ Hreset c w Hw).
    intros o dp Ho _. now apply (Hext o).
  - intros A length func w Hfunc Hw.
    exact (kept_bindForUse covers_table Hext5 Hext4 covers_table_stored length func
             Hfunc w Hw).
Qed.

(** X3 (bindForUse keeps the state consistent): in a state where the
    cache is empty or current and every set attribute has its accessor,
    [bindForUse] leaves such a state again, whether it returns or throws,
    provided the function it runs does. *)
Theorem bindForUse_keeps_consistent :
  forall A length (func : M A) w,
    stable (on_object consistent) func ->
    consistent (this w) ->
    consistent (this (snd (bindForUse length func w))).
Proof.
  intros A length func w Hfunc Hw.
  exact (kept_bindForUse consistent
           (fun o o' Hv Ha He Hd Hp => consistent_ext o o' Hv Ha He Hd Hp)
           (fun o o' Hv Ha Hd Hp => consistent_cleared o o' Hv Ha Hd Hp)
           (fun o location v a => consistent_stored o location v a)
           length func Hfunc w Hw).
Qed.

(** ** What [bindBuffers] does to the accessors *)

Lemma array_get_buffer (a : jsarray value) i b :
  array_get JUndefined a i = JBuffer b -> items a !! i = Some (JBuffer b).
Proof.
  unfold array_get. intros Hget.
  destruct (_ !! _) as [x|] in Hget |- *; cbn in Hget; [now subst x | discriminate].
Qed.

Lemma array_set_same {A} (hole : A) (a : jsarray A) k i x :
  array_index k = Some i -> items a !! i = Some x -> array_set hole a k x = a.
Proof.
  intros Hk Hx. unfold array_set, list_store. rewrite Hk.
  assert (i < length (items a)) as Hi by (eapply lookup_lt_Some; eauto).
  destruct (Nat.ltb_spec i (length (items a))); [|lia].
  rewrite list_insert_id by assumption. now destruct a.
Qed.

Lemma array_index_of_nat i :
  (Z.of_nat i < 4294967295)%Z -> array_index (of_nat i) = Some i.
Proof.
  intros Hi. unfold of_nat. rewrite array_index_of_Z by lia. now rewrite Nat2Z.id.
Qed.

(** One turn of the loop. *)
Lemma rebind_step V i w :
  rebinding V w -> (Z.of_nat i < 4294967295)%Z ->
  rebinding V (snd (rebind i w)) /\
  (fst (rebind i w) = Normal tt ->
   (forall b, array_get JUndefined V i = JBuffer b ->
              strict_eq (buffer_target b) GL_ELEMENT_ARRAY_BUFFER = false ->
              array_get None (accessors (this (snd (rebind i w)))) i =
                Some (rebound_accessor b)) /\
   (forall j, j <> i ->
              array_get None (accessors (this (snd (rebind i w)))) j =
                array_get None (accessors (this w)) j) /\
   (forall b, array_get JUndefined V i = JBuffer b ->
              drawParams (this (snd (rebind i w))) = None)).
Proof.
  intros [HV Hc] Hi. unfold rebind, rebinding. cbv [mbind M_bind get_this].
  destruct (array_get JUndefined (values (this w)) i) as [| | | | |b| | |] eqn:E;
    try (split; [split; assumption|]; intros _; split; [|split; [reflexivity|]];
         intros b0 Hb0; rewrite <- HV, E in Hb0; discriminate).
  destruct (strict_eq (buffer_target b) GL_ELEMENT_ARRAY_BUFFER) eqn:Ht.
  - rewrite (setBuffer_element_eq _ _ _ _ Ht). cbn [fst snd].
    assert (this (element_set b w) = set_drawParams None (set_elements (Some b) (this w)))
      as Hthis.
    { unfold element_set. cbv zeta. now destruct (negb _). }
    rewrite Hthis. split; [split; [exact HV | exact Hc]|]. intros _.
    split; [|split; [reflexivity|intros _ _; reflexivity]].
    intros b' Hb' Ht'. rewrite <- HV, E in Hb'. inversion Hb'; subst b'. congruence.
  - assert (attribute_index (this w) (KNum (of_nat i)) = FNum (of_nat i)) as Hloc.
    { unfold attribute_index, index_of. now rewrite Hc. }
    pose proof (array_index_of_nat i Hi) as Hidx.
    destruct (array_index_ge0 _ _ Hidx) as [_ Hge].
    assert (resolved_options (this w) (KNum (of_nat i)) (JBuffer b) (buffer_accessor b)
              (default_object JUndefined) = rebound_accessor b) as Hopt.
    { unfold resolved_options, rebound_accessor. now rewrite Hc. }
    rewrite (setBuffer_eq _ _ _ _ Ht). cbv zeta. rewrite Hloc, Hopt.
    cbn [Number_isFinite isFinite of_nat of_Z negb]. fold (of_Z (Z.of_nat i)).
    fold (of_nat i). rewrite Hge.
    destruct (Number_isFinite _ && Number_isFinite _); cbn [fst snd];
      [|split; [split; [exact HV | exact Hc] | discriminate]].
    assert (this (if negb (isDefaultArray (vertexArrayObject (this w)))
                  then record (EvVaoSetBuffer (vertexArrayObject (this w)) (of_nat i) b
                                 (rebound_accessor b))
                         (mkWorld (stored (of_nat i) (JBuffer b) (rebound_accessor b)
                                     (this w)) (fresh w) (trace w))
                  else mkWorld (stored (of_nat i) (JBuffer b) (rebound_accessor b)
                                  (this w)) (fresh w) (trace w))
            = stored (of_nat i) (JBuffer b) (rebound_accessor b) (this w)) as Hthis.
    { now destruct (negb _). }
    rewrite Hthis. split; [split|].
    + unfold stored. cbn [values set_drawParams set_accessors set_values].
      rewrite (array_set_same _ _ _ i); [exact HV | exact Hidx |].
      now apply array_get_buffer.
    + unfold stored. cbn. exact Hc.
    + intros _. split.
      * intros b' Hb' _. rewrite <- HV, E in Hb'. inversion Hb'; subst b'.
        now apply stored_get_eq.
      * split; [|intros _ _; reflexivity].
        intros j Hj. now apply (stored_get_ne _ _ i).
Qed.

Lemma rebind_loop V l : forall w,
  rebinding V w -> (forall i, In i l -> (Z.of_nat i < 4294967295)%Z) ->
  rebinding V (snd (for_each l rebind w)) /\
  (fst (for_each l rebind w) = Normal tt ->
   (forall i b, In i l -> array_get JUndefined V i = JBuffer b ->
                strict_eq (buffer_target b) GL_ELEMENT_ARRAY_BUFFER = false ->
                array_get None (accessors (this (snd (for_each l rebind w)))) i =
                  Some (rebound_accessor b)) /\
   (forall j, ~ In j l ->
              array_get None (accessors (this (snd (for_each l rebind w)))) j =
                array_get None (accessors (this w)) j)).
Proof.
  induction l as [|x l IH]; intros w Hw Hl.
  - cbn. split; [exact Hw|]. intros _. split; [intros i b []|reflexivity].
  - cbn [for_each]. unfold mbind, M_bind.
    destruct (rebind_step V x w Hw (Hl x (or_introl eq_refl))) as [Hw1 Hstep].
    destruct (rebind x w) as [[[]|e] w1]; cbn [fst snd] in *.
    2:{ split; [exact Hw1 | discriminate]. }
    destruct (Hstep eq_refl) as (Hx & Hother & _).
    destruct (IH w1 Hw1 (fun i Hi => Hl i (or_intror Hi))) as [Hw2 Hrest].
    split; [exact Hw2|]. intros Hok. destruct (Hrest Hok) as [Hin Hout].
    split.
    + intros i b Hi Hb Ht. destruct (in_dec Nat.eq_dec i l) as [Hil|Hil].
      * now apply Hin.
      * destruct Hi as [<-|Hi]; [|contradiction].
        rewrite (Hout x Hil). now apply Hx.
    + intros j Hj. rewrite Hout by (intros Hjl; apply Hj; now right).
      apply Hother. intros ->. apply Hj. now left.
Qed.

(** X16 (bindBuffers forgets the accessors given): without a
    configuration and with a table of at most 2^32 - 1 locations, when
    [bindBuffers] returns, the values array is as before, and the
    accessor of every buffer of the table that is not an element buffer
    is the one [setBuffer(location, buffer)] resolves from the buffer
    alone: an accessor given as third argument of [setBuffer], or next to
    the buffer in [setAttributes], is not among the accessors any more. *)
Theorem bindBuffers_forgets_accessors :
  forall w w',
    configuration (this w) = None ->
    (Z.of_nat (table_size (this w)) <= 4294967295)%Z ->
    bindBuffers w = (Normal tt, w') ->
    values (this w') = values (this w) /\
    (forall location b,
        location < table_size (this w) ->
        array_get JUndefined (values (this w)) location = JBuffer b ->
        strict_eq (buffer_target b) GL_ELEMENT_ARRAY_BUFFER = false ->
        array_get None (accessors (this w')) location = Some (rebound_accessor b)).
Proof.
  intros w w' Hc Hmax Hrun.
  unfold bindBuffers, vao_bind_with, for_locations in Hrun.
  cbv [mbind M_bind mret M_ret get_this emit] in Hrun. cbn [this fresh trace] in Hrun.
  change (mkWorld (this w) (fresh w) (trace w ++ [EvVaoEnter (vertexArrayObject (this w))]))
    with (entered w) in Hrun.
  fold (table_size (this w)) in Hrun.
  match type of Hrun with
  | context [for_each ?l ?f ?w0] => change (for_each l f w0) with (for_each l rebind w0) in Hrun
  end.
  destruct (rebind_loop (values (this w)) (seq 0 (table_size (this w))) (entered w))
    as [[HV _] Hloop].
  { split; [reflexivity | exact Hc]. }
  { intros i Hi. apply in_seq in Hi. lia. }
  destruct (for_each (seq 0 (table_size (this w))) rebind (entered w)) as [[[]|e] w1];
    [|discriminate].
  cbn [fst snd] in *. inversion Hrun; subst w'. cbn [this].
  destruct (Hloop eq_refl) as [Hin _].
  split; [exact HV|].
  intros location b Hl Hb Ht. apply Hin; auto. apply in_seq. lia.
Qed.

(** ** What binding does to the cached draw parameters *)

Lemma no_cache_ext o o' :
  values o' = values o -> accessors o' = accessors o ->
  elements o' = elements o -> vertexArrayObject o' = vertexArrayObject o ->
  drawParams o' = drawParams o -> no_cache o -> no_cache o'.
Proof. unfold no_cache. intros _ _ _ _ -> Ho. exact Ho. Qed.

Lemma no_cache_cleared o o' :
  values o' = values o -> accessors o' = accessors o ->
  vertexArrayObject o' = vertexArrayObject o -> drawParams o' = None ->
  no_cache o -> no_cache o'.
Proof. unfold no_cache. intros _ _ _ E _. exact E. Qed.

Lemma no_cache_stored o location v a : no_cache o -> no_cache (stored location v a o).
Proof. intros _. reflexivity. Qed.

Lemma no_cache_rebind i : stable (on_object no_cache) (rebind i).
Proof.
  unfold rebind. apply stable_bind; [apply stable_get_this | intros o].
  destruct (array_get JUndefined (values o) i); try apply stable_ret.
  exact (kept_setBuffer no_cache no_cache_ext no_cache_cleared no_cache_stored _ _ _).
Qed.

Lemma rebind_loop_clears V l : forall w,
  rebinding V w -> (forall i, In i l -> (Z.of_nat i < 4294967295)%Z) ->
  fst (for_each l rebind w) = Normal tt ->
  no_cache (this w) \/ (exists i b, In i l /\ array_get JUndefined V i = JBuffer b) ->
  no_cache (this (snd (for_each l rebind w))).
Proof.
  induction l as [|x l IH]; intros w Hw Hl Hok Hsome.
  - destruct Hsome as [Hn | (i & b & [] & _)]. exact Hn.
  - cbn [for_each] in *. unfold mbind, M_bind in *.
    destruct (rebind_step V x w Hw (Hl x (or_introl eq_refl))) as [Hw1 Hstep].
    pose proof (no_cache_rebind x w) as Hkeep. unfold on_object in Hkeep.
    destruct (rebind x w) as [[[]|e] w1]; cbn [fst snd] in *; [|discriminate Hok].
    destruct (Hstep eq_refl) as (_ & _ & Hclear).
    apply (IH w1 Hw1 (fun i Hi => Hl i (or_intror Hi)) Hok).
    destruct Hsome as [Hn | (i & b & [<- | Hi] & Hb)].
    + left. now apply Hkeep.
    + left. exact (Hclear b Hb).
    + right. now exists i, b.
Qed.

Lemma setElementBuffer_clears e a w :
  fst (setElementBuffer e a w) = Normal tt /\
  no_cache (this (snd (setElementBuffer e a w))).
Proof.
  unfold setElementBuffer, clearDrawParams, no_cache.
  cbv [mbind M_bind mret M_ret when update emit get_this]. cbn [this fresh trace].
  destruct (negb (isDefaultArray _)); cbn [fst snd this]; split; reflexivity.
Qed.

Lemma zero_buffer_configuration w :
  configuration (this (zero_buffer w)) = configuration (this w).
Proof.
  unfold zero_buffer. destruct (array_get _ _ _); auto.
  destruct (buffer (this w)); reflexivity.
Qed.

Lemma prepare_eq length w :
  bindForUse_prepare length w =
  let w1 := if Number_isFinite length then zero_buffer w else w in
  let w2 := mkWorld (this w1) (fresh w1) (trace w1 ++ constant_calls (this w1)) in
  match elements (this w1) with
  | Some e => (setElementBuffer (Some e) JUndefined;; bindBuffers) w2
  | None => bindBuffers w2
  end.
Proof.
  unfold bindForUse_prepare. cbv zeta.
  unfold mbind at 1. unfold M_bind at 1.
  assert (when (Number_isFinite length) (_updateAttributeZeroBuffer length) w
          = (Normal tt, if Number_isFinite length then zero_buffer w else w)) as ->.
  { unfold when. destruct (Number_isFinite length); [|reflexivity].
    apply updateAttributeZeroBuffer_run. }
  unfold mbind at 1. unfold M_bind at 1. rewrite setConstantAttributes_eq.
  unfold mbind at 1. unfold M_bind at 1. cbv [get_this].
  unfold hasVertexArrays. cbn [truthy negb when this].
  unfold mbind at 1. unfold M_bind at 1.
  unfold mbind at 1. unfold M_bind at 1. cbv [get_this]. cbn [this].
  destruct (elements _); [reflexivity|].
  cbv [mret M_ret]. reflexivity.
Qed.

(** X17 (binding drops the cached draw parameters): when the steps of
    [bindForUse] before the bind return, they leave no cached draw
    parameters if an element buffer is set, and also on an object without
    configuration whose table (of at most 2^32 - 1 locations) holds a
    buffer.  The function given to [bindForUse] then starts without cached
    draw parameters; the first [getDrawParams] it makes computes them
    anew. *)
Theorem bindForUse_drops_the_cache :
  (forall length w w1,
      elements (this w) <> None ->
      bindForUse_prepare length w = (Normal tt, w1) ->
      drawParams (this w1) = None) /\
  (forall length w w1 location b,
      configuration (this w) = None ->
      (Z.of_nat (table_size (this w)) <= 4294967295)%Z ->
      location < table_size (this w) ->
      array_get JUndefined (values (this w)) location = JBuffer b ->
      bindForUse_prepare length w = (Normal tt, w1) ->
      drawParams (this w1) = None).
Proof.
  assert (stable (on_object no_cache) bindBuffers) as Hkeep.
  { exact (kept_bindBuffers no_cache no_cache_ext no_cache_cleared no_cache_stored). }
  split.
  - intros length w w1 He Hrun.
    replace w1 with (snd (bindForUse_prepare length w)) by now rewrite Hrun.
    clear Hrun. rewrite prepare_eq. cbv zeta.
    assert (elements (this (if Number_isFinite length then zero_buffer w else w))
            = elements (this w)) as ->.
    { destruct (Number_isFinite length); [apply zero_buffer_keeps | reflexivity]. }
    destruct (elements (this w)) as [e|]; [|contradiction].
    unfold mbind, M_bind.
    match goal with
    | |- context [setElementBuffer ?x ?a ?w0] =>
        destruct (setElementBuffer_clears x a w0) as [Hr Hn];
        destruct (setElementBuffer x a w0) as [[[]|err] w']; [|discriminate Hr]
    end.
    cbn [fst snd] in *. now apply Hkeep.
  - intros length w w1 location b Hc Hmax Hl Hb Hrun.
    rewrite prepare_eq in Hrun. cbv zeta in Hrun.
    set (wz := if Number_isFinite length then zero_buffer w else w) in *.
    assert (values (this wz) = values (this w) /\
            elements (this wz) = elements (this w) /\
            configuration (this wz) = configuration (this w) /\
            vertexArrayObject (this wz) = vertexArrayObject (this w))
      as (Hv & He & Hcz & Hvao).
    { unfold wz. destruct (Number_isFinite length); [|auto].
      pose proof (zero_buffer_keeps w) as (E1 & _ & E3 & _ & E5).
      pose proof (zero_buffer_configuration w). auto. }
    destruct (elements (this wz)) as [e|].
    + unfold mbind, M_bind in Hrun.
      match type of Hrun with
      | context [setElementBuffer ?x ?a ?w0] =>
          destruct (setElementBuffer_clears x a w0) as [Hr Hn];
          destruct (setElementBuffer x a w0) as [[[]|err] w']; [|discriminate Hr]
      end.
      cbn [fst snd] in *.
      pose proof (Hkeep w' Hn) as Hdone. rewrite Hrun in Hdone. exact Hdone.
    + unfold bindBuffers, vao_bind_with, for_locations in Hrun.
      cbv [mbind M_bind mret M_ret get_this emit] in Hrun.
      cbn [this fresh trace] in Hrun.
      match type of Hrun with
      | context [for_each ?l ?f ?w0] =>
          change (for_each l f w0) with (for_each l rebind w0) in Hrun;
          pose proof (rebind_loop_clears (values (this w)) l w0) as Hloop
      end.
      cbn [this] in Hloop. rewrite Hvao in *. fold (table_size (this w)) in *.
      match type of Hrun with
      | context [for_each ?l ?f ?w0] =>
          destruct (for_each l f w0) as [[[]|err] w'] eqn:E; [|discriminate Hrun]
      end.
      inversion Hrun; subst w1. cbn [this fst snd] in *.
      apply Hloop.
      * split; [exact Hv | exact (eq_trans Hcz Hc)].
      * intros i Hi. apply in_seq in Hi. lia.
      * reflexivity.
      * right. exists location, b. split; [apply in_seq; lia | exact Hb].
Qed.

(** ** When a store fails *)

(** X18 (a failed store changes nothing): when the buffer is not an
    element buffer, the location is a finite number and the size or the
    type of the resolved accessor is not, [setBuffer] throws the assertion
    error; [setConstant] does when the location is a finite number and the
    size or the type of the resolved accessor is not.  The object, the
    counter of identities and the calls made are then as before: nothing
    is written to the arrays, the cache is not cleared.  The assertion is
    evaluated before the location is compared with 0, so this includes
    locations that would not be stored. *)
Theorem failed_store_changes_nothing :
  (forall k b acc w,
      strict_eq (buffer_target b) GL_ELEMENT_ARRAY_BUFFER = false ->
      Number_isFinite (attribute_index (this w) k) = true ->
      Number_isFinite
        (accessor_size (resolved_options (this w) k (JBuffer b) (buffer_accessor b)
                          (default_object acc))) &&
      Number_isFinite
        (accessor_type (resolved_options (this w) k (JBuffer b) (buffer_accessor b)
                          (default_object acc))) = false ->
      setBuffer k b acc w = (Throws AssertionError, w)) /\
  (forall k v acc w,
      Number_isFinite (attribute_index (this w) k) = true ->
      Number_isFinite
        (accessor_size (resolved_options (this w) k v emptyObject (default_object acc))) &&
      Number_isFinite
        (accessor_type (resolved_options (this w) k v emptyObject (default_object acc)))
      = false ->
      setConstant k v acc w = (Throws AssertionError, w)).
Proof.
  split.
  - intros k b acc w Ht Hf Hs.
    rewrite (setBuffer_eq _ _ _ _ Ht). cbv zeta. rewrite Hf, Hs. reflexivity.
  - intros k v acc w Hf Hs.
    rewrite setConstant_eq. cbv zeta. rewrite Hf, Hs. reflexivity.
Qed.

(** ** How a value is handled

    What [setBuffer], [setConstant] and the body of the loop of
    [setAttributes] do is what [setBuffer_handling],
    [setConstant_handling] and [setAttribute_handling] tell. *)

Lemma same_tables_refl o : same_tables o o.
Proof. repeat split. Qed.

Lemma setBuffer_handled k b acc w :
  handles (setBuffer_handling (this w) k b acc) (setBuffer k b acc) w.
Proof.
  unfold setBuffer_handling.
  destruct (strict_eq (buffer_target b) GL_ELEMENT_ARRAY_BUFFER) eqn:Ht.
  { cbn [handles]. rewrite (setBuffer_element_eq _ _ _ _ Ht). cbn [fst snd].
    split; [reflexivity|]. unfold element_set. cbv zeta.
    now destruct (negb (isDefaultArray _)). }
  unfold store_handling.
  destruct (attribute_index (this w) k) as [|location] eqn:Hidx.
  { cbn [handles]. rewrite (setBuffer_eq _ _ _ _ Ht). cbv zeta. rewrite Hidx.
    cbn [Number_isFinite negb fst snd]. split; [reflexivity | repeat split]. }
  destruct (isFinite location) eqn:Hfin.
  2:{ cbn [handles]. rewrite (setBuffer_eq _ _ _ _ Ht). cbv zeta. rewrite Hidx.
      cbn [Number_isFinite]. rewrite Hfin. cbn [negb fst snd].
      split; [reflexivity | repeat split]. }
  destruct (Number_isFinite _ && Number_isFinite _) eqn:Hs.
  2:{ cbn [handles]. rewrite (setBuffer_eq _ _ _ _ Ht). cbv zeta. rewrite Hidx, Hs.
      cbn [Number_isFinite]. rewrite Hfin. reflexivity. }
  destruct (ge location zero) eqn:Hge; cbn [handles];
    rewrite (setBuffer_eq _ _ _ _ Ht); cbv zeta; rewrite Hidx, Hs;
    cbn [Number_isFinite]; rewrite Hfin, Hge; cbn [negb fst snd].
  - split; [reflexivity|]. now destruct (negb (isDefaultArray _)).
  - split; [reflexivity | apply same_tables_refl].
Qed.

Lemma setConstant_handled k v acc w :
  handles (setConstant_handling (this w) k v acc) (setConstant k v acc) w.
Proof.
  unfold setConstant_handling. cbv zeta. unfold store_handling.
  destruct (attribute_index (this w) k) as [|location] eqn:Hidx.
  { cbn [handles]. rewrite setConstant_eq. cbv zeta. rewrite Hidx.
    cbn [Number_isFinite negb fst snd]. split; [reflexivity | repeat split]. }
  destruct (isFinite location) eqn:Hfin.
  2:{ cbn [handles]. rewrite setConstant_eq. cbv zeta. rewrite Hidx.
      cbn [Number_isFinite]. rewrite Hfin. cbn [negb fst snd].
      split; [reflexivity | repeat split]. }
  destruct (Number_isFinite _ && Number_isFinite _) eqn:Hs.
  2:{ cbn [handles]. rewrite setConstant_eq. cbv zeta. rewrite Hidx, Hs.
      cbn [Number_isFinite]. rewrite Hfin. reflexivity. }
  destruct (ge location zero) eqn:Hge; cbn [handles];
    rewrite setConstant_eq; cbv zeta; rewrite Hidx, Hs;
    cbn [Number_isFinite]; rewrite Hfin, Hge; cbn [negb fst snd].
  - split; [reflexivity|]. now destruct (negb (isDefaultArray _)).
  - split; [reflexivity | apply same_tables_refl].
Qed.

Lemma setAttribute_handled entry w :
  handles (setAttribute_handling (this w) entry) (setAttribute entry) w.
Proof.
  destruct entry as [name v]. unfold setAttribute_handling, setAttribute.
  destruct v as [| | | | | |?|[|[] ?]|];
    first [reflexivity | apply setBuffer_handled | apply setConstant_handled].
Qed.

(** The handling depends on the configuration and on the delegate only. *)
Lemma setAttribute_handling_ext o o' entry :
  configuration o' = configuration o ->
  vertexArrayObject o' = vertexArrayObject o ->
  setAttribute_handling o' entry = setAttribute_handling o entry.
Proof.
  intros Hc Hv. destruct entry as [name v].
  unfold setAttribute_handling, setBuffer_handling, setConstant_handling,
    store_handling, attribute_index, resolved_options.
  now rewrite Hc, Hv.
Qed.

Lemma setAttributes_locations_ext o o' attributes :
  configuration o' = configuration o ->
  vertexArrayObject o' = vertexArrayObject o ->
  setAttributes_locations o' attributes = setAttributes_locations o attributes.
Proof.
  intros Hc Hv. induction attributes as [|entry rest IH]; [reflexivity|].
  cbn [setAttributes_locations]. now rewrite IH, (setAttribute_handling_ext o o').
Qed.

(** The configuration and the delegate of the object are those of [o]. *)
Lemma handles_keeps o h m w :
  handles h m w ->
  configuration (this w) = configuration o /\
  vertexArrayObject (this w) = vertexArrayObject o ->
  configuration (this (snd (m w))) = configuration o /\
  vertexArrayObject (this (snd (m w))) = vertexArrayObject o.
Proof.
  intros Hm [Hc Hv]. destruct h as [e| |location v a|b]; cbn [handles] in Hm.
  - now rewrite Hm.
  - destruct Hm as (_ & _ & _ & _ & _ & -> & ->). now split.
  - destruct Hm as [_ ->]. now split.
  - destruct Hm as [_ ->]. now split.
Qed.

(** [setAttributes] leaves the object that its loop leaves, and returns
    or throws as its loop does. *)
Lemma setAttributes_loop attributes w :
  this (snd (setAttributes attributes w)) =
    this (snd (for_each attributes setAttribute (entered w))) /\
  fst (setAttributes attributes w) = fst (for_each attributes setAttribute (entered w)).
Proof.
  unfold setAttributes, vao_bind_with.
  cbv [mbind M_bind mret M_ret get_this emit]. cbn [this fresh trace].
  change (mkWorld (this w) (fresh w) (trace w ++ [EvVaoEnter (vertexArrayObject (this w))]))
    with (entered w).
  destruct (for_each attributes setAttribute (entered w)) as [[[]|e] w1];
    split; reflexivity.
Qed.

(** ** The size of the table after a store *)

Lemma stored_lengths o location v a :
  array_length (values (stored location v a o)) =
    match array_index location with
    | Some i => Nat.max (array_length (values o)) (S i)
    | None => array_length (values o)
    end /\
  array_length (accessors (stored location v a o)) =
    match array_index location with
    | Some i => Nat.max (array_length (accessors o)) (S i)
    | None => array_length (accessors o)
    end.
Proof.
  unfold stored, array_set, array_length. cbn.
  destruct (array_index location) as [i|]; cbn [items]; [|split; reflexivity].
  now rewrite !list_store_length_max.
Qed.

(** One call: the arrays keep their size if the location it stores at
    lies in the table, they reach past that location in any case, and
    they never shrink. *)
Lemma handles_fixed_size h m w :
  handles h m w ->
  fixed_size (this w) ->
  in_table (table_size (this w)) (handling_locations h) ->
  fixed_size (this (snd (m w))).
Proof.
  intros Hm [Hv Ha] Hin. destruct h as [e| |location v a|b]; cbn [handles] in Hm.
  - rewrite Hm. now split.
  - destruct Hm as (_ & Ev & Ea & _ & _ & _ & Evao).
    unfold fixed_size, table_size. now rewrite Ev, Ea, Evao.
  - destruct Hm as [_ ->]. destruct (stored_lengths (this w) location v a) as [Ev Ea].
    unfold fixed_size. rewrite Ev, Ea.
    change (table_size (stored location v a (this w))) with (table_size (this w)).
    destruct (array_index location) as [i|] eqn:Hi; [|now split].
    assert (i < table_size (this w)) as Hlt by (apply (Hin location); [now left | exact Hi]).
    split; lia.
  - destruct Hm as [_ ->]. now split.
Qed.

Lemma handles_reaches h m w location i :
  handles h m w ->
  In location (handling_locations h) -> array_index location = Some i ->
  S i <= array_length (values (this (snd (m w)))).
Proof.
  intros Hm Hin Hi.
  destruct h as [e| |l v a|b]; cbn [handling_locations] in Hin;
    [destruct Hin | destruct Hin | | destruct Hin].
  destruct Hin as [<- | []]. destruct Hm as [_ ->].
  destruct (stored_lengths (this w) l v a) as [-> _]. rewrite Hi. lia.
Qed.

Lemma handles_never_shrinks h m w n :
  handles h m w ->
  n <= array_length (values (this w)) ->
  n <= array_length (values (this (snd (m w)))).
Proof.
  intros Hm Hn. destruct h as [e| |l v a|b]; cbn [handles] in Hm.
  - now rewrite Hm.
  - destruct Hm as (_ & -> & _). exact Hn.
  - destruct Hm as [_ ->]. destruct (stored_lengths (this w) l v a) as [-> _].
    destruct (array_index l); lia.
  - destruct Hm as [_ ->]. exact Hn.
Qed.

Lemma loop_never_shrinks attributes : forall w n,
  n <= array_length (values (this w)) ->
  n <= array_length (values (this (snd (for_each attributes setAttribute w)))).
Proof.
  induction attributes as [|entry rest IH]; intros w n Hn; [exact Hn|].
  cbn [for_each]. unfold mbind, M_bind.
  pose proof (handles_never_shrinks _ _ _ n (setAttribute_handled entry w) Hn) as Hstep.
  destruct (setAttribute entry w) as [[[]|e] w1]; cbn [snd] in *; [|exact Hstep].
  now apply IH.
Qed.

(** The loop of [setAttributes], on an object with the configuration and
    the delegate of [o]. *)
Lemma loop_fixed_size o attributes : forall w,
  configuration (this w) = configuration o /\
  vertexArrayObject (this w) = vertexArrayObject o ->
  fixed_size (this w) ->
  in_table (table_size o) (setAttributes_locations o attributes) ->
  fixed_size (this (snd (for_each attributes setAttribute w))).
Proof.
  induction attributes as [|entry rest IH]; intros w Hw Hf Hin; [exact Hf|].
  cbn [for_each setAttributes_locations] in *. unfold mbind, M_bind.
  pose proof (setAttribute_handled entry w) as Hstep.
  rewrite (setAttribute_handling_ext o (this w)) in Hstep by apply Hw.
  pose proof (handles_keeps o _ _ _ Hstep Hw) as Hw1.
  assert (table_size (this w) = table_size o) as Hsize.
  { unfold table_size. now rewrite (proj2 Hw). }
  destruct (setAttribute_handling o entry) as [e| |location v a|b] eqn:Hh.
  - cbn [handles] in Hstep. now rewrite Hstep.
  - pose proof (handles_fixed_size _ _ _ Hstep Hf) as Hf1.
    destruct (setAttribute entry w) as [[[]|e] w1]; cbn [snd] in *;
      [|apply Hf1; intros l i []].
    apply (IH w1 Hw1); [apply Hf1; intros l i []|exact Hin].
  - pose proof (handles_fixed_size _ _ _ Hstep Hf) as Hf1.
    assert (in_table (table_size (this w)) (handling_locations (Stores location v a)))
      as Hfit.
    { rewrite Hsize. intros l i [<- | []] Hi.
      apply (Hin location i); [now left | exact Hi]. }
    destruct (setAttribute entry w) as [[[]|e] w1]; cbn [snd] in *; [|now apply Hf1].
    apply (IH w1 Hw1); [now apply Hf1|].
    intros l i Hl Hi. apply (Hin l i); [now right | exact Hi].
  - pose proof (handles_fixed_size _ _ _ Hstep Hf) as Hf1.
    destruct (setAttribute entry w) as [[[]|e] w1]; cbn [snd] in *;
      [|apply Hf1; intros l i []].
    apply (IH w1 Hw1); [apply Hf1; intros l i []|exact Hin].
Qed.

Lemma loop_reaches o attributes : forall w location i,
  configuration (this w) = configuration o /\
  vertexArrayObject (this w) = vertexArrayObject o ->
  In location (setAttributes_locations o attributes) ->
  array_index location = Some i ->
  S i <= array_length (values (this (snd (for_each attributes setAttribute w)))).
Proof.
  induction attributes as [|entry rest IH]; intros w location i Hw Hin Hi;
    [destruct Hin|].
  cbn [for_each setAttributes_locations] in *. unfold mbind, M_bind.
  pose proof (setAttribute_handled entry w) as Hstep.
  rewrite (setAttribute_handling_ext o (this w)) in Hstep by apply Hw.
  pose proof (handles_keeps o _ _ _ Hstep Hw) as Hw1.
  destruct (setAttribute_handling o entry) as [e| |l v a|b] eqn:Hh;
    [destruct Hin| | |].
  - destruct Hstep as [Hr _].
    destruct (setAttribute entry w) as [[[]|e] w1]; [|discriminate Hr].
    cbn [snd] in *. now apply (IH w1 location i).
  - pose proof (fun i' => handles_reaches _ _ _ l i' Hstep) as Hreach.
    destruct Hstep as [Hr _].
    destruct (setAttribute entry w) as [[[]|e] w1]; [|discriminate Hr].
    cbn [snd fst handling_locations app] in *.
    destruct Hin as [<- | Hin]; [|now apply (IH w1 location i)].
    apply loop_never_shrinks. apply (Hreach i); [now left | exact Hi].
  - destruct Hstep as [Hr _].
    destruct (setAttribute entry w) as [[[]|e] w1]; [|discriminate Hr].
    cbn [snd] in *. now apply (IH w1 location i).
Qed.

(** [setAttributes] on an object of fixed size. *)
Lemma setAttributes_fixed_size attributes w :
  fixed_size (this w) ->
  (fixed_size (this (snd (setAttributes attributes w))) <->
   in_table (table_size (this w)) (setAttributes_locations (this w) attributes)).
Proof.
  intros Hf. destruct (setAttributes_loop attributes w) as [-> _].
  assert (configuration (this (entered w)) = configuration (this w) /\
          vertexArrayObject (this (entered w)) = vertexArrayObject (this w)) as Hw
    by (split; reflexivity).
  split.
  - intros [Hv _] location i Hin Hi.
    pose proof (loop_reaches (this w) attributes (entered w) location i Hw Hin Hi) as Hr.
    rewrite Hv in Hr.
    assert (vertexArrayObject
              (this (snd (for_each attributes setAttribute (entered w))))
            = vertexArrayObject (this w)) as Hvao.
    { apply (stable_for_each
               (fun w' => vertexArrayObject (this w') = vertexArrayObject (this w)));
        [|reflexivity].
      intros e _. apply stable_setAttribute; intros x w' Hw'; exact Hw'. }
    unfold table_size in *. rewrite Hvao in Hr. lia.
  - intros Hin. now apply (loop_fixed_size (this w)).
Qed.

(** What follows the attributes in [setProps] writes neither array, nor
    the configuration, nor the delegate. *)
Lemma rest_keeps_tables props w :
  let attributes_part :=
    match props_attributes props with
    | Some attributes => setAttributes attributes
    | None => mret tt
    end in
  let w' := snd ((attributes_part;;
                  match props_elements props with
                  | Some e => setElements e JUndefined
                  | None => mret tt
                  end;;
                  match props_bindOnUse props with
                  | Some _ => mret tt
                  | None => mret tt
                  end) w) in
  values (this w') = values (this (snd (attributes_part w))) /\
  accessors (this w') = accessors (this (snd (attributes_part w))) /\
  configuration (this w') = configuration (this (snd (attributes_part w))) /\
  vertexArrayObject (this w') = vertexArrayObject (this (snd (attributes_part w))).
Proof.
  cbv zeta.
  set (m1 := match props_attributes props with
             | Some attributes => setAttributes attributes
             | None => mret tt
             end).
  set (m2 := (match props_elements props with
              | Some e => setElements e JUndefined
              | None => mret tt
              end;;
              match props_bindOnUse props with
              | Some _ => mret tt
              | None => mret tt
              end)).
  assert (snd ((m1;; m2) w) =
          match m1 w with
          | (Normal _, w1) => snd (m2 w1)
          | (Throws _, w1) => w1
          end) as ->.
  { unfold mbind, M_bind. now destruct (m1 w) as [[[]|e] w1]. }
  destruct (m1 w) as [[[]|e] w1]; cbn [snd]; [|repeat split].
  assert (stable (fun w' => values (this w') = values (this w1) /\
                            accessors (this w') = accessors (this w1) /\
                            configuration (this w') = configuration (this w1) /\
                            vertexArrayObject (this w') = vertexArrayObject (this w1))
            m2) as Hst.
  { apply stable_bind;
      [|intros _; destruct (props_bindOnUse props); apply stable_ret].
    destruct (props_elements props); [|apply stable_ret].
    apply stable_setElements; intros x w' Hw'; exact Hw'. }
  apply Hst. repeat split.
Qed.

Lemma initialize_fixed_size props w :
  let o' := this (snd (initialize props w)) in
  (fixed_size o' <->
   in_table (table_size (this w))
     (setAttributes_locations (set_configuration (props_final_configuration props) (this w))
        (default [] (props_attributes props)))) /\
  configuration o' = props_final_configuration props /\
  vertexArrayObject o' = vertexArrayObject (this w).
Proof.
  cbv zeta. rewrite initialize_unfold, setProps_unfold.
  destruct (configured_initialized props w) as (Hf & Hc & Hv).
  destruct (rest_keeps_tables props (configured props (initialized w)))
    as (Ev & Ea & Ec & Evao).
  set (w0 := configured props (initialized w)) in *.
  set (o := set_configuration (props_final_configuration props) (this w)).
  set (m1 := match props_attributes props with
             | Some attributes => setAttributes attributes
             | None => mret tt
             end) in *.
  match goal with
  | |- (fixed_size (this ?x) <-> _) /\ _ => set (w' := x) in *
  end.
  assert (configuration (this w0) = configuration o /\
          vertexArrayObject (this w0) = vertexArrayObject o) as Hw0 by now split.
  assert (table_size (this w0) = table_size (this w)) as Hsize.
  { unfold table_size. now rewrite Hv. }
  assert (fixed_size (this w') <-> fixed_size (this (snd (m1 w0)))) as ->.
  { unfold fixed_size, table_size. now rewrite Ev, Ea, Evao. }
  rewrite Ec, Evao. subst m1.
  destruct (props_attributes props) as [attributes|]; cbn [default].
  - split.
    + rewrite (setAttributes_fixed_size attributes w0 Hf), Hsize.
      now rewrite (setAttributes_locations_ext o (this w0)) by apply Hw0.
    + assert (stable (fun w1 => configuration (this w1) = props_final_configuration props /\
                                vertexArrayObject (this w1) = vertexArrayObject (this w))
                (setAttributes attributes)) as Hst
        by (apply stable_setAttributes; intros x w1 Hw1; exact Hw1).
      apply Hst. now split.
  - cbn [snd]. split; [|now split].
    split; [intros _ location i []|intros _; exact Hf].
Qed.

(** C4 (a table of fixed size): [reset] leaves a values array and an
    accessors array of exactly [MAX_ATTRIBUTES] elements; so do the
    constructor and [initialize], and [setAttributes], [setBuffer] and
    [setConstant] keep them so, exactly when every location they store at
    is below [MAX_ATTRIBUTES] or is not an array index. *)
Theorem table_has_fixed_size :
  (forall gl0 opts fresh0 trace0,
      let o' := this (snd (constructor gl0 opts fresh0 trace0)) in
      fixed_size o' <->
      in_table (table_size o')
        (setAttributes_locations o' (default [] (props_attributes opts)))) /\
  (forall op w,
      starts_fixed (this w) op ->
      (fixed_size (this (snd (perform op w))) <-> stores_in_table (this w) op)).
Proof.
  split.
  - intros gl0 opts fresh0 trace0. cbv zeta. unfold constructor.
    destruct (constructor_vertexArrayObject gl0 fresh0 trace0) as [[v f] t].
    match goal with
    | |- context [(emit ?e ;; initialize opts) ?w0] =>
        change ((emit e ;; initialize opts) w0) with (initialize opts (record e w0));
        set (wi := record e w0);
        destruct (initialize_fixed_size opts wi) as (Hiff & Hc & Hv)
    end.
    rewrite Hiff. unfold table_size. rewrite Hv.
    now rewrite (setAttributes_locations_ext
                   (set_configuration (props_final_configuration opts) (this wi))
                   (this (snd (initialize opts wi))) _ Hc Hv).
  - intros op w Hstart. unfold stores_in_table.
    destruct op as [|props|attributes|k b a|k x a];
      cbn [perform starts_fixed stored_locations] in *.
    + split; [intros _ location i []|intros _].
      unfold reset. cbv [mbind M_bind mret M_ret update get_this]. cbn.
      unfold fixed_size, table_size, array_length, array_fill. cbn [items].
      cbn. now rewrite !length_replicate.
    + apply initialize_fixed_size.
    + now apply setAttributes_fixed_size.
    + pose proof (setBuffer_handled k b a w) as Hh. split.
      * intros [Hv _] location i Hin Hi.
        pose proof (handles_reaches _ _ _ location i Hh Hin Hi) as Hr.
        pose proof (handles_keeps (this w) _ _ _ Hh (conj eq_refl eq_refl)) as [_ Hvao].
        rewrite Hv in Hr. unfold table_size in *. rewrite Hvao in Hr. lia.
      * intros Hin. now apply (handles_fixed_size _ _ _ Hh).
    + pose proof (setConstant_handled k x a w) as Hh. split.
      * intros [Hv _] location i Hin Hi.
        pose proof (handles_reaches _ _ _ location i Hh Hin Hi) as Hr.
        pose proof (handles_keeps (this w) _ _ _ Hh (conj eq_refl eq_refl)) as [_ Hvao].
        rewrite Hv in Hr. unfold table_size in *. rewrite Hvao in Hr. lia.
      * intros Hin. now apply (handles_fixed_size _ _ _ Hh).
Qed.

(** ** What the loop of [setAttributes] leaves in the tables *)














End Properties.

(** * The properties on the concrete collaborators *)

Import Demo.

(** ** Counterexamples *)

(** C1 does not hold in every attribute state: a vertex array that was
    just constructed has no buffer, the vertex count stays [Infinity], the
    assertion fails and [getDrawParams] throws instead of returning draw
    parameters. *)
Lemma getDrawParams_empty_array_throws :
  drawParams (this empty_array) = None /\
  fst (getDrawParams FUndefined empty_array) = Throws AssertionError /\
  ~ (exists dp w', getDrawParams FUndefined empty_array = (Normal dp, w')).
Proof.
  assert (fst (getDrawParams FUndefined empty_array) = Throws AssertionError) as E.
  { vm_compute. reflexivity. }
  split; [vm_compute; reflexivity|]. split; [exact E|].
  intros (dp & w' & E'). rewrite E' in E. discriminate E.
Qed.

(** C3 does not hold in every state in which a buffer that is not
    instanced is set: [setBuffer(16, positions)] on a table of 16 returns
    and the values array holds the buffer at location 16 with an accessor
    that is not instanced, yet the loop stops at [MAX_ATTRIBUTES], the
    assertion fails and [getDrawParams] throws.  Nor are all failures
    assertions: for a value that is no attribute, [setAttributes] throws
    an [Error]. *)
Lemma getDrawParams_past_the_table_throws :
  fst (setBuffer (KNum (of_Z 16)) positions JUndefined empty_array) = Normal tt /\
  array_get JUndefined (values (this past_the_table)) 16 = JBuffer positions /\
  (exists a, array_get None (accessors (this past_the_table)) 16 = Some a /\
             instanced a = false) /\
  fst (getDrawParams FUndefined past_the_table) = Throws AssertionError /\
  fst (setAttributes null_first empty_array) = Throws (Error ERR_ATTRIBUTE_TYPE).
Proof.
  split; [vm_compute; reflexivity|]. split; [vm_compute; reflexivity|].
  split; [exists float3; split; vm_compute; reflexivity|].
  split; vm_compute; reflexivity.
Qed.

(** C4 does not hold after every [setBuffer]: on a table of 16 elements,
    [setBuffer(16, positions)] returns and leaves arrays of 17 elements. *)
Lemma setBuffer_past_the_table_grows :
  fixed_size (this empty_array) /\
  table_size (this past_the_table) = 16 /\
  fst (setBuffer (KNum (of_Z 16)) positions JUndefined empty_array) = Normal tt /\
  array_length (values (this past_the_table)) = 17 /\
  array_length (accessors (this past_the_table)) = 17 /\
  ~ fixed_size (this past_the_table).
Proof.
  assert (table_size (this past_the_table) = 16) as E1 by (vm_compute; reflexivity).
  assert (array_length (values (this past_the_table)) = 17) as E2
    by (vm_compute; reflexivity).
  split; [split; vm_compute; reflexivity|].
  split; [exact E1|]. split; [vm_compute; reflexivity|].
  split; [exact E2|]. split; [vm_compute; reflexivity|].
  intros [E _]. rewrite E1, E2 in E. discriminate E.
Qed.

(** C6 does not hold for every [setBuffer]: the name [normals] does not
    resolve, but the buffer given has the target
    [GL.ELEMENT_ARRAY_BUFFER], so it becomes the element buffer and the
    cached draw parameters are cleared. *)
Lemma setBuffer_unresolved_element_buffer_clears :
  resolves (this with_cache) (KStr "normals") = false /\
  drawParams (this with_cache) <> None /\
  drawParams (this (snd (setBuffer (KStr "normals") indices JUndefined with_cache)))
    = None /\
  drawParams (this (snd (setBuffer (KStr "normals") indices JUndefined with_cache)))
    <> drawParams (this with_cache).
Proof.
  assert (drawParams (this (snd (setBuffer (KStr "normals") indices JUndefined
                                   with_cache))) = None) as E1
    by (vm_compute; reflexivity).
  assert (exists dp, drawParams (this with_cache) = Some dp) as [dp E2]
    by (eexists; vm_compute; reflexivity).
  split; [vm_compute; reflexivity|].
  split; [rewrite E2; discriminate|].
  split; [exact E1|].
  rewrite E1, E2. discriminate.
Qed.



(** ** The theorems at concrete inputs *)

Lemma getDrawParams_infers_witness :
  cache_current (this scene) /\
  accessors_present (this scene) /\
  has_vertex_buffer (this scene) /\
  all_finite (counts (this scene) false) /\
  all_finite (counts (this scene) true) /\
  exists dp w',
    getDrawParams FUndefined scene = (Normal (Some dp), w') /\
    (isInstanced dp = true <-> some_instanced (this scene)) /\
    is_minimum (vertexCount dp) (counts (this scene) false) /\
    (counts (this scene) true = [] -> instanceCount dp = zero) /\
    (counts (this scene) true <> [] ->
     is_minimum (instanceCount dp) (counts (this scene) true)) /\
    (isIndexed dp = true <-> elements (this scene) <> None) /\
    (forall e, elements (this scene) = Some e -> indexType dp = Some (buffer_type e)).
Proof.
  assert (cache_current (this scene)) as H1.
  { apply empty_cache_current. vm_compute. reflexivity. }
  assert (accessors_present (this scene)) as H2.
  { apply accessors_present_checked. vm_compute. reflexivity. }
  assert (has_vertex_buffer (this scene)) as H3.
  { exists 0, positions, float3.
    split; [vm_compute; lia|]. repeat split; vm_compute; reflexivity. }
  assert (all_finite (counts (this scene) false)) as H4.
  { apply all_finite_checked. vm_compute. reflexivity. }
  assert (all_finite (counts (this scene) true)) as H5.
  { apply all_finite_checked. vm_compute. reflexivity. }
  exact (conj H1 (conj H2 (conj H3 (conj H4 (conj H5
           (getDrawParams_infers FUndefined scene H1 H2 H3 H4 H5)))))).
Defined.




Lemma table_has_fixed_size_witness :
  fixed_size (this scene) /\
  starts_fixed (this empty_array) (OpSetAttributes indices_past_the_table) /\
  stores_in_table (this empty_array) (OpSetAttributes indices_past_the_table) /\
  fixed_size (this (snd (perform (OpSetAttributes indices_past_the_table) empty_array))).
Proof.
  assert (fixed_size (this scene)) as H0.
  { apply (proj1 (@table_has_fixed_size collaborators) webgl2 scene_props 0 []).
    apply in_table_checked. vm_compute. reflexivity. }
  assert (starts_fixed (this empty_array) (OpSetAttributes indices_past_the_table)) as H1.
  { split; vm_compute; reflexivity. }
  assert (stores_in_table (this empty_array) (OpSetAttributes indices_past_the_table))
    as H2.
  { apply in_table_checked. vm_compute. reflexivity. }
  exact (conj H0 (conj H1 (conj H2
           (proj2 (proj2 (@table_has_fixed_size collaborators)
                     (OpSetAttributes indices_past_the_table) empty_array H1) H2)))).
Defined.

Lemma getDrawParams_returns_witness :
  accessors_present (this with_positions) /\
  has_vertex_buffer (this with_positions) /\
  all_finite (counts (this with_positions) false) /\
  (exists dp, _updateDrawParams (this with_positions) = Normal dp /\
              isFinite (vertexCount dp) = true) /\
  (exists dp w', getDrawParams FUndefined with_positions = (Normal (Some dp), w')).
Proof.
  assert (accessors_present (this with_positions)) as H2.
  { apply accessors_present_checked. vm_compute. reflexivity. }
  assert (has_vertex_buffer (this with_positions)) as H3.
  { exists 0, positions, float3.
    split; [vm_compute; lia|]. repeat split; vm_compute; reflexivity. }
  assert (all_finite (counts (this with_positions) false)) as H4.
  { apply all_finite_checked. vm_compute. reflexivity. }
  exact (conj H2 (conj H3 (conj H4
           (getDrawParams_returns FUndefined with_positions H2 H3 H4)))).
Defined.


Lemma unresolved_is_ignored_witness :
  resolves (this scene) (KStr "normals") = false /\
  (forall b optAccessor,
      strict_eq (buffer_target b) GL_ELEMENT_ARRAY_BUFFER = false ->
      let o' := this (snd (setBuffer (KStr "normals") b optAccessor scene)) in
      values o' = values (this scene) /\
      accessors o' = accessors (this scene) /\
      drawParams o' = drawParams (this scene)) /\
  (forall arrayValue optAccessor,
      let o' := this (snd (setConstant (KStr "normals") arrayValue optAccessor scene)) in
      values o' = values (this scene) /\
      accessors o' = accessors (this scene) /\
      drawParams o' = drawParams (this scene)).
Proof.
  assert (resolves (this scene) (KStr "normals") = false) as H1.
  { vm_compute. reflexivity. }
  exact (conj H1 (unresolved_is_ignored (KStr "normals") scene H1)).
Defined.

Lemma setBuffer_element_buffer_witness :
  strict_eq (buffer_target indices) GL_ELEMENT_ARRAY_BUFFER = true /\
  exists w',
    setBuffer (KStr "normals") indices JUndefined with_cache = (Normal tt, w') /\
    elements (this w') = Some indices /\
    drawParams (this w') = None /\
    values (this w') = values (this with_cache) /\
    accessors (this w') = accessors (this with_cache).
Proof.
  assert (strict_eq (buffer_target indices) GL_ELEMENT_ARRAY_BUFFER = true) as H1.
  { vm_compute. reflexivity. }
  exact (conj H1
           (setBuffer_element_buffer (KStr "normals") indices JUndefined with_cache H1)).
Defined.

Lemma mutation_clears_drawParams_witness :
  drawParams (this with_cache) = Some positions_params /\
  mutate set_offsets with_cache = (Normal tt, offsets_set) /\
  writes_state (this with_cache) set_offsets /\
  drawParams (this offsets_set) = None /\
  getDrawParams FUndefined offsets_set = (Normal (Some instanced_params), offsets_cached) /\
  drawParams (this offsets_cached) = Some instanced_params /\
  is_minimum (vertexCount instanced_params) (counts (this offsets_set) false) /\
  (isInstanced instanced_params = true <-> some_instanced (this offsets_set)).
Proof.
  assert (drawParams (this with_cache) = Some positions_params) as H0.
  { vm_compute. reflexivity. }
  assert (mutate set_offsets with_cache = (Normal tt, offsets_set)) as H1.
  { unfold offsets_set. apply (returned (mutate set_offsets) with_cache).
    vm_compute. reflexivity. }
  assert (writes_state (this with_cache) set_offsets) as H2.
  { right. vm_compute. reflexivity. }
  assert (getDrawParams FUndefined offsets_set
          = (Normal (Some instanced_params), offsets_cached)) as H3.
  { unfold offsets_cached.
    apply (returned (@getDrawParams collaborators FUndefined) offsets_set).
    vm_compute. reflexivity. }
  pose (C := mutation_clears_drawParams set_offsets with_cache offsets_set H1 H2).
  pose (D := proj2 (proj2 C) FUndefined instanced_params offsets_cached H3).
  exact (conj H0 (conj H1 (conj H2 (conj (proj1 C) (conj H3
           (conj (proj1 D) (conj (proj1 (proj2 D)) (proj1 (proj2 (proj2 D)))))))))).
Defined.

(** ** The further properties at concrete inputs *)

Lemma consistent_states_witness :
  consistent (this scene) /\
  consistent (this (snd (call (CallSetBuffer (KStr "color") positions JUndefined) scene))).
Proof.
  assert (consistent (this scene)) as H1.
  { exact (proj1 (@consistent_states collaborators) webgl2 scene_props 0 []). }
  exact (conj H1
           (proj2 (@consistent_states collaborators)
              (@CallSetBuffer collaborators (KStr "color") positions JUndefined) scene H1)).
Defined.

Lemma arrays_cover_the_table_witness :
  covers_table (this scene) /\
  stable (on_object covers_table) draw /\
  covers_table (this (snd (call (CallSetBuffer (KStr "color") positions JUndefined) scene))) /\
  covers_table (this (snd (bindForUse (FNum (of_Z 4)) draw scene))).
Proof.
  assert (covers_table (this scene)) as H1.
  { exact (proj1 (@arrays_cover_the_table collaborators) webgl2 scene_props 0 []). }
  assert (stable (on_object covers_table) draw) as H2.
  { exact (stable_ret (on_object covers_table) 7). }
  exact (conj H1 (conj H2 (conj
           (proj1 (proj2 (@arrays_cover_the_table collaborators))
              (@CallSetBuffer collaborators (KStr "color") positions JUndefined) scene H1)
           (proj2 (proj2 (@arrays_cover_the_table collaborators)) nat (FNum (of_Z 4)) draw
              scene H2 H1)))).
Defined.

Lemma bindForUse_keeps_consistent_witness :
  stable (on_object consistent) draw /\
  consistent (this scene) /\
  consistent (this (snd (bindForUse (FNum (of_Z 4)) draw scene))).
Proof.
  assert (stable (on_object consistent) draw) as H1.
  { exact (stable_ret (on_object consistent) 7). }
  assert (consistent (this scene)) as H2.
  { split.
    - apply empty_cache_current. vm_compute. reflexivity.
    - apply accessors_present_checked. vm_compute. reflexivity. }
  exact (conj H1 (conj H2
           (@bindForUse_keeps_consistent collaborators nat (FNum (of_Z 4)) draw scene H1 H2))).
Defined.

Lemma stored_value_is_read_back_witness :
  (strict_eq (buffer_target positions) GL_ELEMENT_ARRAY_BUFFER = false /\
   setBuffer (KStr "0") positions JUndefined empty_array = (Normal tt, with_positions) /\
   attribute_index (this empty_array) (KStr "0") = FNum (of_Z 0) /\
   array_index (of_Z 0) = Some 0 /\
   array_get JUndefined (values (this with_positions)) 0 = JBuffer positions) /\
  (setConstant (KStr "1") red (JObject float3) empty_array = (Normal tt, with_colour) /\
   attribute_index (this empty_array) (KStr "1") = FNum (of_Z 1) /\
   array_index (of_Z 1) = Some 1 /\
   array_get None (accessors (this with_colour)) 1 =
     Some (resolved_options (this empty_array) (KStr "1") red emptyObject
             (default_object (JObject float3)))).
Proof.
  assert (strict_eq (buffer_target positions) GL_ELEMENT_ARRAY_BUFFER = false) as H1.
  { vm_compute. reflexivity. }
  assert (setBuffer (KStr "0") positions JUndefined empty_array
          = (Normal tt, with_positions)) as H2.
  { unfold with_positions.
    apply (returned (@setBuffer collaborators (KStr "0") positions JUndefined) empty_array).
    vm_compute. reflexivity. }
  assert (attribute_index (this empty_array) (KStr "0") = FNum (of_Z 0)) as H3.
  { vm_compute. reflexivity. }
  assert (array_index (of_Z 0) = Some 0) as H4 by (vm_compute; reflexivity).
  assert (setConstant (KStr "1") red (JObject float3) empty_array
          = (Normal tt, with_colour)) as H5.
  { unfold with_colour.
    apply (returned (@setConstant collaborators (KStr "1") red (JObject float3))
             empty_array).
    vm_compute. reflexivity. }
  assert (attribute_index (this empty_array) (KStr "1") = FNum (of_Z 1)) as H6.
  { vm_compute. reflexivity. }
  assert (array_index (of_Z 1) = Some 1) as H7 by (vm_compute; reflexivity).
  exact (conj
           (conj H1 (conj H2 (conj H3 (conj H4
              (proj1 (proj1 (@stored_value_is_read_back collaborators) (KStr "0") positions
                        JUndefined empty_array with_positions (of_Z 0) 0 H1 H2 H3 H4))))))
           (conj H5 (conj H6 (conj H7
              (proj1 (proj2 (proj2 (@stored_value_is_read_back collaborators) (KStr "1") red
                               (JObject float3) empty_array with_colour (of_Z 1) 1
                               H5 H6 H7))))))).
Defined.

Lemma store_past_the_end_grows_witness :
  strict_eq (buffer_target positions) GL_ELEMENT_ARRAY_BUFFER = false /\
  setBuffer (KNum (of_Z 16)) positions JUndefined empty_array
    = (Normal tt, past_the_table) /\
  attribute_index (this empty_array) (KNum (of_Z 16)) = FNum (of_Z 16) /\
  array_index (of_Z 16) = Some 16 /\
  array_length (values (this empty_array)) <= 16 /\
  array_length (accessors (this empty_array)) <= 16 /\
  array_length (values (this past_the_table)) = 17 /\
  array_length (accessors (this past_the_table)) = 17 /\
  (forall j, array_length (values (this empty_array)) <= j -> j < 16 ->
             ~ is_set (this past_the_table) j).
Proof.
  assert (strict_eq (buffer_target positions) GL_ELEMENT_ARRAY_BUFFER = false) as H1.
  { vm_compute. reflexivity. }
  assert (setBuffer (KNum (of_Z 16)) positions JUndefined empty_array
          = (Normal tt, past_the_table)) as H2.
  { unfold past_the_table.
    apply (returned (@setBuffer collaborators (KNum (of_Z 16)) positions JUndefined)
             empty_array).
    vm_compute. reflexivity. }
  assert (attribute_index (this empty_array) (KNum (of_Z 16)) = FNum (of_Z 16)) as H3.
  { vm_compute. reflexivity. }
  assert (array_index (of_Z 16) = Some 16) as H4 by (vm_compute; reflexivity).
  assert (array_length (values (this empty_array)) <= 16) as H5.
  { assert (array_length (values (this empty_array)) = 16) as ->
      by (vm_compute; reflexivity).
    lia. }
  assert (array_length (accessors (this empty_array)) <= 16) as H6.
  { assert (array_length (accessors (this empty_array)) = 16) as ->
      by (vm_compute; reflexivity).
    lia. }
  exact (conj H1 (conj H2 (conj H3 (conj H4 (conj H5 (conj H6
           (@store_past_the_end_grows collaborators (KNum (of_Z 16)) positions JUndefined
              empty_array past_the_table (of_Z 16) 16 H1 H2 H3 H4 H5 H6))))))).
Defined.

Lemma store_outside_the_indices_witness :
  strict_eq (buffer_target positions) GL_ELEMENT_ARRAY_BUFFER = false /\
  setBuffer (KNum (Fin (3 # 2))) positions JUndefined empty_array
    = (Normal tt, between) /\
  attribute_index (this empty_array) (KNum (Fin (3 # 2))) = FNum (Fin (3 # 2)) /\
  isFinite (Fin (3 # 2)) = true /\
  ge (Fin (3 # 2)) zero = true /\
  array_index (Fin (3 # 2)) = None /\
  items (values (this between)) = items (values (this empty_array)).
Proof.
  assert (strict_eq (buffer_target positions) GL_ELEMENT_ARRAY_BUFFER = false) as H1.
  { vm_compute. reflexivity. }
  assert (setBuffer (KNum (Fin (3 # 2))) positions JUndefined empty_array
          = (Normal tt, between)) as H2.
  { unfold between.
    apply (returned (@setBuffer collaborators (KNum (Fin (3 # 2))) positions JUndefined)
             empty_array).
    vm_compute. reflexivity. }
  assert (attribute_index (this empty_array) (KNum (Fin (3 # 2))) = FNum (Fin (3 # 2)))
    as H3.
  { vm_compute. reflexivity. }
  assert (isFinite (Fin (3 # 2)) = true) as H4 by reflexivity.
  assert (ge (Fin (3 # 2)) zero = true) as H5 by (vm_compute; reflexivity).
  assert (array_index (Fin (3 # 2)) = None) as H6 by (vm_compute; reflexivity).
  exact (conj H1 (conj H2 (conj H3 (conj H4 (conj H5 (conj H6
           (proj1 (@store_outside_the_indices collaborators (KNum (Fin (3 # 2))) positions
                     JUndefined empty_array between (Fin (3 # 2))
                     H1 H2 H3 H4 H5 H6)))))))).
Defined.

Lemma getDrawParams_without_vertex_buffer_witness :
  accessors_present (this empty_array) /\
  drawParams (this empty_array) = None /\
  counts (this empty_array) false = [] /\
  getDrawParams (FNum (of_Z 3)) empty_array = (Throws AssertionError, empty_array).
Proof.
  assert (accessors_present (this empty_array)) as H1.
  { apply accessors_present_checked. vm_compute. reflexivity. }
  assert (drawParams (this empty_array) = None) as H2 by (vm_compute; reflexivity).
  assert (counts (this empty_array) false = []) as H3 by (vm_compute; reflexivity).
  exact (conj H1 (conj H2 (conj H3
           (@getDrawParams_without_vertex_buffer collaborators (FNum (of_Z 3)) empty_array
              H1 H2 H3)))).
Defined.

Lemma getDrawParams_twice_witness :
  getDrawParams FUndefined with_positions = (Normal (Some positions_params), with_cache) /\
  drawParams (this with_cache) = Some positions_params /\
  getDrawParams (FNum (of_Z 3)) with_cache = (Normal (Some positions_params), with_cache).
Proof.
  assert (getDrawParams FUndefined with_positions
          = (Normal (Some positions_params), with_cache)) as H1.
  { unfold with_cache.
    apply (returned (@getDrawParams collaborators FUndefined) with_positions).
    vm_compute. reflexivity. }
  exact (conj H1
           (@getDrawParams_twice collaborators FUndefined (FNum (of_Z 3)) with_positions
              positions_params with_cache H1)).
Defined.

Lemma arguments_are_not_used_witness :
  Number_isFinite (FNum (of_Z 4)) = true /\
  Number_isFinite (FNum (of_Z 1)) = true /\
  getDrawParams FUndefined scene = getDrawParams (FNum (of_Z 3)) scene /\
  bindForUse (FNum (of_Z 4)) draw scene = bindForUse (FNum (of_Z 1)) draw scene.
Proof.
  exact (conj eq_refl (conj eq_refl (conj
           (proj1 (@arguments_are_not_used collaborators) FUndefined (FNum (of_Z 3)) scene)
           (proj2 (@arguments_are_not_used collaborators) nat (FNum (of_Z 4)) (FNum (of_Z 1))
              draw scene eq_refl eq_refl)))).
Defined.

Lemma bindForUse_stops_at_an_error_witness :
  (bindForUse_prepare (FNum (of_Z 4)) with_bare = (Throws AssertionError, bare_rejected) /\
   bindForUse (FNum (of_Z 4)) draw with_bare = (Throws AssertionError, bare_rejected)) /\
  (bindForUse_prepare (FNum (of_Z 4)) scene = (Normal tt, prepared) /\
   lost (record (EvVaoBind (vertexArrayObject (this prepared))) prepared)
     = (Throws (Error "context lost"),
        record (EvVaoBind (vertexArrayObject (this prepared))) prepared) /\
   bindForUse (FNum (of_Z 4)) lost scene
     = (Throws (Error "context lost"),
        record (EvVaoBind (vertexArrayObject (this prepared))) prepared)).
Proof.
  assert (bindForUse_prepare (FNum (of_Z 4)) with_bare
          = (Throws AssertionError, bare_rejected)) as H1.
  { unfold bare_rejected.
    apply (threw (@bindForUse_prepare collaborators (FNum (of_Z 4))) with_bare).
    vm_compute. reflexivity. }
  assert (bindForUse_prepare (FNum (of_Z 4)) scene = (Normal tt, prepared)) as H2.
  { unfold prepared. apply (returned (@bindForUse_prepare collaborators (FNum (of_Z 4))) scene).
    vm_compute. reflexivity. }
  exact (conj
           (conj H1
              (proj1 (@bindForUse_stops_at_an_error collaborators nat (FNum (of_Z 4)) draw
                        with_bare)
                 AssertionError bare_rejected H1))
           (conj H2 (conj eq_refl
              (proj2 (@bindForUse_stops_at_an_error collaborators nat (FNum (of_Z 4)) lost scene)
                 (Error "context lost") prepared
                 (record (EvVaoBind (vertexArrayObject (this prepared))) prepared)
                 H2 eq_refl)))).
Defined.

Lemma setConstantAttributes_calls_witness :
  _setConstantAttributes scene = (Normal tt, constants_set) /\
  this constants_set = this scene /\
  trace constants_set = trace scene ++ constant_calls (this scene).
Proof.
  assert (_setConstantAttributes scene = (Normal tt, constants_set)) as H1.
  { unfold constants_set. apply (returned (@_setConstantAttributes collaborators) scene).
    vm_compute. reflexivity. }
  exact (conj H1
           (conj (proj1 (@setConstantAttributes_calls collaborators scene constants_set H1))
              (proj1 (proj2 (@setConstantAttributes_calls collaborators scene
                               constants_set H1))))).
Defined.

Lemma unbindBuffers_effect_witness :
  unbindBuffers scene = (Normal tt, buffers_unbound) /\
  values (this buffers_unbound) = values (this scene) /\
  forall e, In e (unbind_calls (this buffers_unbound)) -> creates_buffer e = false.
Proof.
  assert (unbindBuffers scene = (Normal tt, buffers_unbound)) as H1.
  { unfold buffers_unbound. apply (returned (@unbindBuffers collaborators) scene).
    vm_compute. reflexivity. }
  exact (conj H1
           (conj (proj1 (proj1 (@unbindBuffers_effect collaborators scene buffers_unbound
                                  H1)))
              (proj1 (proj2 (proj2 (@unbindBuffers_effect collaborators scene
                                      buffers_unbound H1)))))).
Defined.

Lemma unresolved_values_are_set_aside_witness :
  (strict_eq (buffer_target positions) GL_ELEMENT_ARRAY_BUFFER = false /\
   Number_isFinite (attribute_index (this scene) (KNum NaN)) = false /\
   setBuffer (KNum NaN) positions JUndefined scene
     = (Normal tt, set_aside (KNum NaN) (JBuffer positions) scene) /\
   setConstant (KNum NaN) red JUndefined scene
     = (Normal tt, set_aside (KNum NaN) red scene)) /\
  (configuration (this empty_array) = None /\
   isFinite (Number_of_key (KStr "normals")) = false /\
   attribute_index (this empty_array) (KStr "normals") = FNum (of_Z (-1))).
Proof.
  assert (strict_eq (buffer_target positions) GL_ELEMENT_ARRAY_BUFFER = false) as H1.
  { vm_compute. reflexivity. }
  assert (Number_isFinite (attribute_index (this scene) (KNum NaN)) = false) as H2.
  { vm_compute. reflexivity. }
  assert (configuration (this empty_array) = None) as H3 by (vm_compute; reflexivity).
  assert (isFinite (Number_of_key (KStr "normals")) = false) as H4.
  { vm_compute. reflexivity. }
  exact (conj
           (conj H1 (conj H2 (conj
              (proj1 (@unresolved_values_are_set_aside collaborators) (KNum NaN) positions
                 JUndefined scene H1 H2)
              (proj1 (proj2 (@unresolved_values_are_set_aside collaborators)) (KNum NaN) red
                 JUndefined scene H2))))
           (conj H3 (conj H4
              (proj1 (proj2 (proj2 (proj2 (@unresolved_values_are_set_aside collaborators))
                               (KStr "normals") empty_array H3)) H4)))).
Defined.

Lemma setAttributes_closing_calls_witness :
  (setAttributes scene_attributes configured_array = (Normal tt, attributes_set) /\
   exists t,
     trace attributes_set =
     trace configured_array ++
     EvVaoEnter (vertexArrayObject (this configured_array)) :: t ++
       [EvBindBuffer (gl (this configured_array)) GL_ARRAY_BUFFER None;
        EvVaoLeave (vertexArrayObject (this configured_array))]) /\
  (for_each no_attribute setAttribute (entered configured_array)
     = (Throws (Error ERR_ATTRIBUTE_TYPE), rejected) /\
   setAttributes no_attribute configured_array
     = (Throws (Error ERR_ATTRIBUTE_TYPE), rejected)).
Proof.
  assert (setAttributes scene_attributes configured_array = (Normal tt, attributes_set))
    as H1.
  { unfold attributes_set.
    apply (returned (@setAttributes collaborators scene_attributes) configured_array).
    vm_compute. reflexivity. }
  assert (for_each no_attribute setAttribute (entered configured_array)
          = (Throws (Error ERR_ATTRIBUTE_TYPE), rejected)) as H2.
  { unfold rejected.
    apply (threw (for_each no_attribute (@setAttribute collaborators))
             (entered configured_array)).
    vm_compute. reflexivity. }
  exact (conj
           (conj H1
              (proj1 (@setAttributes_closing_calls collaborators scene_attributes configured_array)
                 attributes_set H1))
           (conj H2
              (proj2 (@setAttributes_closing_calls collaborators no_attribute configured_array)
                 (Error ERR_ATTRIBUTE_TYPE) rejected H2))).
Defined.

Lemma bindBuffers_forgets_accessors_witness :
  configuration (this instanced_positions) = None /\
  (Z.of_nat (table_size (this instanced_positions)) <= 4294967295)%Z /\
  bindBuffers instanced_positions = (Normal tt, rebound) /\
  0 < table_size (this instanced_positions) /\
  array_get JUndefined (values (this instanced_positions)) 0 = JBuffer positions /\
  strict_eq (buffer_target positions) GL_ELEMENT_ARRAY_BUFFER = false /\
  array_get None (accessors (this instanced_positions)) 0 = Some per_instance /\
  array_get None (accessors (this rebound)) 0 = Some (rebound_accessor positions).
Proof.
  assert (configuration (this instanced_positions) = None) as H1.
  { vm_compute. reflexivity. }
  assert (table_size (this instanced_positions) = 16) as E by (vm_compute; reflexivity).
  assert ((Z.of_nat (table_size (this instanced_positions)) <= 4294967295)%Z) as H2.
  { rewrite E. lia. }
  assert (bindBuffers instanced_positions = (Normal tt, rebound)) as H3.
  { unfold rebound. apply (returned (@bindBuffers collaborators) instanced_positions).
    vm_compute. reflexivity. }
  assert (0 < table_size (this instanced_positions)) as H4 by (rewrite E; lia).
  assert (array_get JUndefined (values (this instanced_positions)) 0 = JBuffer positions)
    as H5.
  { vm_compute. reflexivity. }
  assert (strict_eq (buffer_target positions) GL_ELEMENT_ARRAY_BUFFER = false) as H6.
  { vm_compute. reflexivity. }
  assert (array_get None (accessors (this instanced_positions)) 0 = Some per_instance)
    as H7.
  { vm_compute. reflexivity. }
  exact (conj H1 (conj H2 (conj H3 (conj H4 (conj H5 (conj H6 (conj H7
           (proj2 (@bindBuffers_forgets_accessors collaborators instanced_positions rebound
                     H1 H2 H3)
              0 positions H4 H5 H6)))))))).
Defined.

Lemma bindForUse_drops_the_cache_witness :
  (elements (this scene) <> None /\
   bindForUse_prepare (FNum (of_Z 4)) scene = (Normal tt, prepared) /\
   drawParams (this prepared) = None) /\
  (drawParams (this with_cache) = Some positions_params /\
   configuration (this with_cache) = None /\
   (Z.of_nat (table_size (this with_cache)) <= 4294967295)%Z /\
   0 < table_size (this with_cache) /\
   array_get JUndefined (values (this with_cache)) 0 = JBuffer positions /\
   bindForUse_prepare (FNum (of_Z 4)) with_cache = (Normal tt, cache_dropped) /\
   drawParams (this cache_dropped) = None).
Proof.
  assert (elements (this scene) <> None) as H1.
  { assert (elements (this scene) = Some indices) as -> by (vm_compute; reflexivity).
    discriminate. }
  assert (bindForUse_prepare (FNum (of_Z 4)) scene = (Normal tt, prepared)) as H0.
  { unfold prepared. apply (returned (@bindForUse_prepare collaborators (FNum (of_Z 4))) scene).
    vm_compute. reflexivity. }
  assert (drawParams (this with_cache) = Some positions_params) as H2.
  { vm_compute. reflexivity. }
  assert (configuration (this with_cache) = None) as H3 by (vm_compute; reflexivity).
  assert (table_size (this with_cache) = 16) as E by (vm_compute; reflexivity).
  assert ((Z.of_nat (table_size (this with_cache)) <= 4294967295)%Z) as H4.
  { rewrite E. lia. }
  assert (0 < table_size (this with_cache)) as H5 by (rewrite E; lia).
  assert (array_get JUndefined (values (this with_cache)) 0 = JBuffer positions) as H6.
  { vm_compute. reflexivity. }
  assert (bindForUse_prepare (FNum (of_Z 4)) with_cache = (Normal tt, cache_dropped))
    as H7.
  { unfold cache_dropped.
    apply (returned (@bindForUse_prepare collaborators (FNum (of_Z 4))) with_cache).
    vm_compute. reflexivity. }
  exact (conj
           (conj H1 (conj H0
              (proj1 (@bindForUse_drops_the_cache collaborators) (FNum (of_Z 4)) scene
                 prepared H1 H0)))
           (conj H2 (conj H3 (conj H4 (conj H5 (conj H6 (conj H7
              (proj2 (@bindForUse_drops_the_cache collaborators) (FNum (of_Z 4))
                 with_cache cache_dropped 0 positions H3 H4 H5 H6 H7)))))))).
Defined.

Lemma failed_store_changes_nothing_witness :
  (strict_eq (buffer_target bare) GL_ELEMENT_ARRAY_BUFFER = false /\
   Number_isFinite (attribute_index (this with_cache) (KStr "normals")) = true /\
   setBuffer (KStr "normals") bare JUndefined with_cache
     = (Throws AssertionError, with_cache)) /\
  (Number_isFinite (attribute_index (this with_cache) (KStr "1")) = true /\
   setConstant (KStr "1") red JUndefined with_cache = (Throws AssertionError, with_cache)).
Proof.
  assert (strict_eq (buffer_target bare) GL_ELEMENT_ARRAY_BUFFER = false) as H1.
  { vm_compute. reflexivity. }
  assert (Number_isFinite (attribute_index (this with_cache) (KStr "normals")) = true)
    as H2.
  { vm_compute. reflexivity. }
  assert (Number_isFinite
            (accessor_size (resolved_options (this with_cache) (KStr "normals")
                              (JBuffer bare) (buffer_accessor bare)
                              (default_object JUndefined))) &&
          Number_isFinite
            (accessor_type (resolved_options (this with_cache) (KStr "normals")
                              (JBuffer bare) (buffer_accessor bare)
                              (default_object JUndefined))) = false) as H3.
  { vm_compute. reflexivity. }
  assert (Number_isFinite (attribute_index (this with_cache) (KStr "1")) = true) as H4.
  { vm_compute. reflexivity. }
  assert (Number_isFinite
            (accessor_size (resolved_options (this with_cache) (KStr "1") red emptyObject
                              (default_object JUndefined))) &&
          Number_isFinite
            (accessor_type (resolved_options (this with_cache) (KStr "1") red emptyObject
                              (default_object JUndefined))) = false) as H5.
  { vm_compute. reflexivity. }
  exact (conj
           (conj H1 (conj H2
              (proj1 (@failed_store_changes_nothing collaborators)
                 (KStr "normals") bare JUndefined with_cache H1 H2 H3)))
           (conj H4
              (proj2 (@failed_store_changes_nothing collaborators)
                 (KStr "1") red JUndefined with_cache H4 H5))).
Defined.
